(** * CPU input boost driver: a shallow embedding of
      drivers/cpufreq/cpu_input_boost.c and the properties of its
      boost arbitration.

    Frequencies are kHz values of C type [unsigned int]; they are modelled
    as [Z] with the 32-bit wrap-around written where the C code computes.
    CPU ids index the per-CPU array [boost_info].  The kernel services the
    driver calls (workqueues, the cpufreq core, the wait queue of the sync
    thread) are modelled by what the driver can observe of them: a delayed
    work is either idle or pending with the delay it was queued with, and a
    call into the cpufreq core or the scheduler is an entry of the output
    trace of the function that makes it.  The policy evaluation the cpufreq
    core makes in answer to [cpufreq_update_policy] is an event of its own,
    like every other entry into the driver; a run is a list of such events,
    taken one at a time. *)

From Stdlib Require Import ZArith Lia Bool String Ascii.
From stdpp Require Import base tactics option list.

Local Open Scope Z_scope.

(** ** Machine integers *)

Definition u32 (x : Z) : Z := x mod 2 ^ 32.
Definition u64 (x : Z) : Z := x mod 2 ^ 64.

(** Conversion of a 64-bit value to C [int]: the low 32 bits, read as a
    two's complement number. *)
Definition s32 (x : Z) : Z :=
  let w := x mod 2 ^ 32 in
  if w <? 2 ^ 31 then w else w - 2 ^ 32.

(** ** Data model *)

(** [#define FB_BOOST_MS 900] *)
Definition FB_BOOST_MS : Z := 900.

(** [enum boost_status] *)
Inductive boost_status : Type :=
| UNBOOST
| WAITING
| BOOST.

Definition boost_status_eqb (a b : boost_status) : bool :=
  match a, b with
  | UNBOOST, UNBOOST | WAITING, WAITING | BOOST, BOOST => true
  | _, _ => false
  end.

(** A C truth test of an [enum boost_status] value ([if (fb_boost)]):
    only [UNBOOST], the enumerator 0, is false. *)
Definition status_true (a : boost_status) : bool :=
  negb (boost_status_eqb a UNBOOST).

(** [struct delayed_work] as the driver sees it: [None] when idle,
    [Some d] when pending with a delay of [d] milliseconds.
    [msecs_to_jiffies] is kept symbolic: delays stay in milliseconds. *)
Definition delayed_work : Type := option Z.

(** [queue_delayed_work]: a work that is already pending is left alone. *)
Definition queue_delayed_work (w : delayed_work) (delay_ms : Z) : delayed_work :=
  match w with
  | None => Some delay_ms
  | Some d => Some d
  end.

(** [cancel_delayed_work_sync]: on return the work is idle. *)
Definition cancel_delayed_work_sync (w : delayed_work) : delayed_work := None.

(** [struct work_struct]: [true] when pending. *)
Definition work_struct : Type := bool.
Definition queue_work (w : work_struct) : work_struct := true.
Definition cancel_work_sync (w : work_struct) : work_struct := false.

(** [struct boost_policy].  The [thread], [lock] and [sync_wq] members are
    kernel objects without content of their own in a sequential model. *)
Record boost_policy : Type := mkBoostPolicy {
  ib_restore_work : delayed_work;
  mig_boost_rem : delayed_work;
  pending : bool;
  src_cpu : nat;
  boost_state : boost_status;
  cpu : nat;
  migration_freq : Z;
  task_load : Z;
  being_woken : Z
}.

Definition set_ib_restore_work (v : delayed_work) (b : boost_policy) : boost_policy :=
  mkBoostPolicy v (mig_boost_rem b) (pending b) (src_cpu b) (boost_state b)
                (cpu b) (migration_freq b) (task_load b) (being_woken b).
Definition set_mig_boost_rem (v : delayed_work) (b : boost_policy) : boost_policy :=
  mkBoostPolicy (ib_restore_work b) v (pending b) (src_cpu b) (boost_state b)
                (cpu b) (migration_freq b) (task_load b) (being_woken b).
Definition set_pending (v : bool) (b : boost_policy) : boost_policy :=
  mkBoostPolicy (ib_restore_work b) (mig_boost_rem b) v (src_cpu b) (boost_state b)
                (cpu b) (migration_freq b) (task_load b) (being_woken b).
Definition set_src_cpu (v : nat) (b : boost_policy) : boost_policy :=
  mkBoostPolicy (ib_restore_work b) (mig_boost_rem b) (pending b) v (boost_state b)
                (cpu b) (migration_freq b) (task_load b) (being_woken b).
Definition set_boost_state (v : boost_status) (b : boost_policy) : boost_policy :=
  mkBoostPolicy (ib_restore_work b) (mig_boost_rem b) (pending b) (src_cpu b) v
                (cpu b) (migration_freq b) (task_load b) (being_woken b).
Definition set_migration_freq (v : Z) (b : boost_policy) : boost_policy :=
  mkBoostPolicy (ib_restore_work b) (mig_boost_rem b) (pending b) (src_cpu b)
                (boost_state b) (cpu b) v (task_load b) (being_woken b).
Definition set_task_load (v : Z) (b : boost_policy) : boost_policy :=
  mkBoostPolicy (ib_restore_work b) (mig_boost_rem b) (pending b) (src_cpu b)
                (boost_state b) (cpu b) (migration_freq b) v (being_woken b).
Definition set_being_woken (v : Z) (b : boost_policy) : boost_policy :=
  mkBoostPolicy (ib_restore_work b) (mig_boost_rem b) (pending b) (src_cpu b)
                (boost_state b) (cpu b) (migration_freq b) (task_load b) v.

(** The zero-filled per-CPU record of static storage, with the [cpu]
    member as [cpu_ib_init] sets it. *)
Definition boost_policy_init (c : nat) : boost_policy :=
  mkBoostPolicy None None false 0%nat UNBOOST c 0 0 0.

(** The members of [struct cpufreq_policy] the driver reads or writes. *)
Record cpufreq_policy : Type := mkPolicy {
  pol_cpu : nat;
  pol_min : Z;
  pol_max : Z;
  pol_cur : Z;
  cpuinfo_min_freq : Z
}.

Definition set_pol_min (v : Z) (p : cpufreq_policy) : cpufreq_policy :=
  mkPolicy (pol_cpu p) v (pol_max p) (pol_cur p) (cpuinfo_min_freq p).

(** The file-scope variables of the driver. *)
Record kstate : Type := mkState {
  boost_info : list boost_policy;
  fb_boost_work : delayed_work;
  boost_work : work_struct;
  ib_running : bool;
  load_based_syncs : bool;
  suspended : bool;
  fb_boost : boost_status;
  boost_start_time : Z;
  ib_adj_duration_ms : Z;
  ib_duration_ms : Z;
  ib_freq_0 : Z;
  ib_freq_1 : Z;
  enabled : Z;
  migration_boost_ms : Z;
  migration_load_threshold : Z;
  ib_nr_cpus_boosted : Z;
  ib_nr_cpus_to_boost : Z
}.

(** Assignment to one variable, the others kept. *)
Definition set_boost_info (v : list boost_policy) (s : kstate) : kstate :=
  mkState v (fb_boost_work s) (boost_work s) (ib_running s)
         (load_based_syncs s) (suspended s) (fb_boost s) (boost_start_time s)
         (ib_adj_duration_ms s) (ib_duration_ms s) (ib_freq_0 s) (ib_freq_1 s)
         (enabled s) (migration_boost_ms s) (migration_load_threshold s)
         (ib_nr_cpus_boosted s) (ib_nr_cpus_to_boost s).
Definition set_fb_boost_work (v : delayed_work) (s : kstate) : kstate :=
  mkState (boost_info s) v (boost_work s) (ib_running s) (load_based_syncs s)
         (suspended s) (fb_boost s) (boost_start_time s)
         (ib_adj_duration_ms s) (ib_duration_ms s) (ib_freq_0 s) (ib_freq_1 s)
         (enabled s) (migration_boost_ms s) (migration_load_threshold s)
         (ib_nr_cpus_boosted s) (ib_nr_cpus_to_boost s).
Definition set_boost_work (v : work_struct) (s : kstate) : kstate :=
  mkState (boost_info s) (fb_boost_work s) v (ib_running s)
         (load_based_syncs s) (suspended s) (fb_boost s) (boost_start_time s)
         (ib_adj_duration_ms s) (ib_duration_ms s) (ib_freq_0 s) (ib_freq_1 s)
         (enabled s) (migration_boost_ms s) (migration_load_threshold s)
         (ib_nr_cpus_boosted s) (ib_nr_cpus_to_boost s).
Definition set_ib_running (v : bool) (s : kstate) : kstate :=
  mkState (boost_info s) (fb_boost_work s) (boost_work s) v
         (load_based_syncs s) (suspended s) (fb_boost s) (boost_start_time s)
         (ib_adj_duration_ms s) (ib_duration_ms s) (ib_freq_0 s) (ib_freq_1 s)
         (enabled s) (migration_boost_ms s) (migration_load_threshold s)
         (ib_nr_cpus_boosted s) (ib_nr_cpus_to_boost s).
Definition set_load_based_syncs (v : bool) (s : kstate) : kstate :=
  mkState (boost_info s) (fb_boost_work s) (boost_work s) (ib_running s) v
         (suspended s) (fb_boost s) (boost_start_time s)
         (ib_adj_duration_ms s) (ib_duration_ms s) (ib_freq_0 s) (ib_freq_1 s)
         (enabled s) (migration_boost_ms s) (migration_load_threshold s)
         (ib_nr_cpus_boosted s) (ib_nr_cpus_to_boost s).
Definition set_suspended (v : bool) (s : kstate) : kstate :=
  mkState (boost_info s) (fb_boost_work s) (boost_work s) (ib_running s)
         (load_based_syncs s) v (fb_boost s) (boost_start_time s)
         (ib_adj_duration_ms s) (ib_duration_ms s) (ib_freq_0 s) (ib_freq_1 s)
         (enabled s) (migration_boost_ms s) (migration_load_threshold s)
         (ib_nr_cpus_boosted s) (ib_nr_cpus_to_boost s).
Definition set_fb_boost (v : boost_status) (s : kstate) : kstate :=
  mkState (boost_info s) (fb_boost_work s) (boost_work s) (ib_running s)
         (load_based_syncs s) (suspended s) v (boost_start_time s)
         (ib_adj_duration_ms s) (ib_duration_ms s) (ib_freq_0 s) (ib_freq_1 s)
         (enabled s) (migration_boost_ms s) (migration_load_threshold s)
         (ib_nr_cpus_boosted s) (ib_nr_cpus_to_boost s).
Definition set_boost_start_time (v : Z) (s : kstate) : kstate :=
  mkState (boost_info s) (fb_boost_work s) (boost_work s) (ib_running s)
         (load_based_syncs s) (suspended s) (fb_boost s) v
         (ib_adj_duration_ms s) (ib_duration_ms s) (ib_freq_0 s) (ib_freq_1 s)
         (enabled s) (migration_boost_ms s) (migration_load_threshold s)
         (ib_nr_cpus_boosted s) (ib_nr_cpus_to_boost s).
Definition set_ib_adj_duration_ms (v : Z) (s : kstate) : kstate :=
  mkState (boost_info s) (fb_boost_work s) (boost_work s) (ib_running s)
         (load_based_syncs s) (suspended s) (fb_boost s) (boost_start_time s)
         v (ib_duration_ms s) (ib_freq_0 s) (ib_freq_1 s) (enabled s)
         (migration_boost_ms s) (migration_load_threshold s)
         (ib_nr_cpus_boosted s) (ib_nr_cpus_to_boost s).
Definition set_ib_duration_ms (v : Z) (s : kstate) : kstate :=
  mkState (boost_info s) (fb_boost_work s) (boost_work s) (ib_running s)
         (load_based_syncs s) (suspended s) (fb_boost s) (boost_start_time s)
         (ib_adj_duration_ms s) v (ib_freq_0 s) (ib_freq_1 s) (enabled s)
         (migration_boost_ms s) (migration_load_threshold s)
         (ib_nr_cpus_boosted s) (ib_nr_cpus_to_boost s).
Definition set_ib_freq_0 (v : Z) (s : kstate) : kstate :=
  mkState (boost_info s) (fb_boost_work s) (boost_work s) (ib_running s)
         (load_based_syncs s) (suspended s) (fb_boost s) (boost_start_time s)
         (ib_adj_duration_ms s) (ib_duration_ms s) v (ib_freq_1 s) (enabled s)
         (migration_boost_ms s) (migration_load_threshold s)
         (ib_nr_cpus_boosted s) (ib_nr_cpus_to_boost s).
Definition set_ib_freq_1 (v : Z) (s : kstate) : kstate :=
  mkState (boost_info s) (fb_boost_work s) (boost_work s) (ib_running s)
         (load_based_syncs s) (suspended s) (fb_boost s) (boost_start_time s)
         (ib_adj_duration_ms s) (ib_duration_ms s) (ib_freq_0 s) v (enabled s)
         (migration_boost_ms s) (migration_load_threshold s)
         (ib_nr_cpus_boosted s) (ib_nr_cpus_to_boost s).
Definition set_enabled (v : Z) (s : kstate) : kstate :=
  mkState (boost_info s) (fb_boost_work s) (boost_work s) (ib_running s)
         (load_based_syncs s) (suspended s) (fb_boost s) (boost_start_time s)
         (ib_adj_duration_ms s) (ib_duration_ms s) (ib_freq_0 s) (ib_freq_1 s)
         v (migration_boost_ms s) (migration_load_threshold s)
         (ib_nr_cpus_boosted s) (ib_nr_cpus_to_boost s).
Definition set_migration_boost_ms (v : Z) (s : kstate) : kstate :=
  mkState (boost_info s) (fb_boost_work s) (boost_work s) (ib_running s)
         (load_based_syncs s) (suspended s) (fb_boost s) (boost_start_time s)
         (ib_adj_duration_ms s) (ib_duration_ms s) (ib_freq_0 s) (ib_freq_1 s)
         (enabled s) v (migration_load_threshold s) (ib_nr_cpus_boosted s)
         (ib_nr_cpus_to_boost s).
Definition set_migration_load_threshold (v : Z) (s : kstate) : kstate :=
  mkState (boost_info s) (fb_boost_work s) (boost_work s) (ib_running s)
         (load_based_syncs s) (suspended s) (fb_boost s) (boost_start_time s)
         (ib_adj_duration_ms s) (ib_duration_ms s) (ib_freq_0 s) (ib_freq_1 s)
         (enabled s) (migration_boost_ms s) v (ib_nr_cpus_boosted s)
         (ib_nr_cpus_to_boost s).
Definition set_ib_nr_cpus_boosted (v : Z) (s : kstate) : kstate :=
  mkState (boost_info s) (fb_boost_work s) (boost_work s) (ib_running s)
         (load_based_syncs s) (suspended s) (fb_boost s) (boost_start_time s)
         (ib_adj_duration_ms s) (ib_duration_ms s) (ib_freq_0 s) (ib_freq_1 s)
         (enabled s) (migration_boost_ms s) (migration_load_threshold s) v
         (ib_nr_cpus_to_boost s).
Definition set_ib_nr_cpus_to_boost (v : Z) (s : kstate) : kstate :=
  mkState (boost_info s) (fb_boost_work s) (boost_work s) (ib_running s)
         (load_based_syncs s) (suspended s) (fb_boost s) (boost_start_time s)
         (ib_adj_duration_ms s) (ib_duration_ms s) (ib_freq_0 s) (ib_freq_1 s)
         (enabled s) (migration_boost_ms s) (migration_load_threshold s)
         (ib_nr_cpus_boosted s) v.

(** [ib_freq[i]]: index 0 is CPU0's frequency, index 1 that of the others. *)
Definition ib_freq (s : kstate) (i : nat) : Z :=
  match i with
  | O => ib_freq_0 s
  | _ => ib_freq_1 s
  end.

(** ** Calls that leave the driver *)

Inductive request : Type :=
| UpdatePolicy (c : nat)      (* cpufreq_update_policy(c) *)
| SetCpusAllowed (c : nat)    (* set_cpus_allowed(b->thread, cpumask_of(c)) *)
| WakeUp (c : nat).           (* wake_up(&b->sync_wq) of CPU c *)

(** A driver function reads and writes the variables and issues requests
    in order. *)
Definition M (A : Type) : Type := kstate -> A * kstate * list request.

Definition ret {A} (a : A) : M A := fun s => (a, s, []).

Definition bind {A B} (m : M A) (k : A -> M B) : M B :=
  fun s =>
    match m s with
    | (a, s1, o1) =>
        match k a s1 with
        | (b, s2, o2) => (b, s2, o1 ++ o2)
        end
    end.

Declare Scope drv_scope.
Delimit Scope drv_scope with drv.
Notation "x <- m ;; k" := (bind m (fun x => k))
  (at level 100, m at next level, k at level 200, right associativity) : drv_scope.
Notation "m ;;; k" := (bind m (fun _ => k))
  (at level 100, k at level 200, right associativity) : drv_scope.
Local Open Scope drv_scope.

Definition get : M kstate := fun s => (s, s, []).
Definition modify (f : kstate -> kstate) : M unit := fun s => (tt, f s, []).
Definition emit (r : request) : M unit := fun s => (tt, s, [r]).
Definition skip : M unit := ret tt.
Definition when (c : bool) (m : M unit) : M unit := if c then m else skip.

Fixpoint for_each (cpus : list nat) (body : nat -> M unit) : M unit :=
  match cpus with
  | [] => skip
  | c :: rest => body c ;;; for_each rest body
  end.

(** Final state and requests of a run. *)
Definition state_of {A} (r : A * kstate * list request) : kstate := snd (fst r).
Definition value_of {A} (r : A * kstate * list request) : A := fst (fst r).
Definition requests_of {A} (r : A * kstate * list request) : list request := snd r.

(** [per_cpu(boost_info, c)].  CPU ids of possible CPUs are the indices of
    [boost_info]; C gives no meaning to an access beyond them, here a read
    yields the zero-filled record and a write is dropped. *)
Definition per_cpu (c : nat) : M boost_policy :=
  fun s => (default (boost_policy_init c) (boost_info s !! c), s, []).

Definition update_cpu (c : nat) (f : boost_policy -> boost_policy) : M unit :=
  modify (fun s => set_boost_info (alter f c (boost_info s)) s).

(** [for_each_possible_cpu] *)
Definition possible_cpus (s : kstate) : list nat :=
  seq 0 (length (boost_info s)).

(** The online mask [cpu_online_mask], one flag per CPU id. *)
Definition cpumask : Type := list bool.

Definition cpu_online (online : cpumask) (c : nat) : bool :=
  default false (online !! c).

Definition num_online_cpus (online : cpumask) : Z :=
  Z.of_nat (length (filter (fun b => b = true) online)).

(** [for_each_online_cpu] *)
Definition online_cpus (online : cpumask) : list nat :=
  filter (fun c => cpu_online online c = true) (seq 0 (length online)).

(** ** The driver functions *)

(** [boost_cpu0]: [now] is the value of [ktime_to_ms(ktime_get())]. *)
Definition boost_cpu0 (duration_ms : Z) (now : Z) : M unit :=
  update_cpu 0 (set_boost_state BOOST) ;;;
  modify (fun s => set_ib_nr_cpus_boosted (u32 (ib_nr_cpus_boosted s + 1)) s) ;;;
  emit (UpdatePolicy 0) ;;;
  update_cpu 0 (fun b =>
    set_ib_restore_work (queue_delayed_work (ib_restore_work b) duration_ms) b) ;;;
  modify (set_boost_start_time (u64 now)).

Definition unboost_cpu (online : cpumask) (c : nat) : M unit :=
  update_cpu c (set_boost_state UNBOOST) ;;;
  b <- per_cpu c ;;
  when (cpu_online online (cpu b)) (emit (UpdatePolicy (cpu b))).

Definition unboost_all_cpus (online : cpumask) : M unit :=
  s <- get ;;
  for_each (possible_cpus s) (fun c =>
    update_cpu c (set_boost_state UNBOOST) ;;;
    when (cpu_online online c) (emit (UpdatePolicy c))) ;;;
  modify (set_ib_running false).

Definition stop_remove_all_boosts (online : cpumask) : M unit :=
  modify (fun s => set_boost_work (cancel_work_sync (boost_work s)) s) ;;;
  modify (fun s =>
    set_fb_boost_work (cancel_delayed_work_sync (fb_boost_work s)) s) ;;;
  modify (set_fb_boost UNBOOST) ;;;
  s <- get ;;
  for_each (possible_cpus s) (fun c =>
    update_cpu c (fun b =>
      set_mig_boost_rem (cancel_delayed_work_sync (mig_boost_rem b)) b) ;;;
    update_cpu c (fun b =>
      set_ib_restore_work (cancel_delayed_work_sync (ib_restore_work b)) b) ;;;
    update_cpu c (set_migration_freq 0)) ;;;
  unboost_all_cpus online.

Definition ib_boost_main (online : cpumask) (now : Z) : M unit :=
  modify (set_ib_nr_cpus_boosted 0) ;;;
  modify (set_ib_nr_cpus_to_boost
            (if num_online_cpus online =? 1 then 2 else 1)) ;;;
  modify (fun s =>
    set_ib_adj_duration_ms
      (u32 (ib_duration_ms s * 3) / u32 (3 + num_online_cpus online)) s) ;;;
  s <- get ;;
  boost_cpu0 (u32 (ib_adj_duration_ms s + 10)) now.

(** [ib_restore_main] for the work embedded in CPU [c]'s record. *)
Definition ib_restore_main (online : cpumask) (c : nat) : M unit :=
  b <- per_cpu c ;;
  unboost_cpu online (cpu b) ;;;
  s <- get ;;
  if existsb (fun b' => boost_status_eqb (boost_state b') BOOST) (boost_info s)
  then skip
  else modify (set_ib_running false).

Definition fb_boost_main (online : cpumask) : M unit :=
  s <- get ;;
  if boost_status_eqb (fb_boost s) BOOST then
    for_each (online_cpus online) (fun c => emit (UpdatePolicy c)) ;;;
    modify (set_fb_boost WAITING) ;;;
    modify (fun s' =>
      set_fb_boost_work (queue_delayed_work (fb_boost_work s') FB_BOOST_MS) s')
  else
    modify (set_fb_boost UNBOOST) ;;;
    unboost_all_cpus online.

(** The events of the cpufreq policy notifier chain. *)
Inductive cpufreq_event : Type :=
| CPUFREQ_ADJUST
| CPUFREQ_INCOMPATIBLE
| CPUFREQ_NOTIFY
| CPUFREQ_START.

(** [duration_ms] of the admission branch of [do_cpu_boost]: the 64-bit
    difference, converted to [int]. *)
Definition remaining_ms (s : kstate) (now : Z) : Z :=
  s32 (u64 (ib_adj_duration_ms s - u64 (now - boost_start_time s))).

(** [do_cpu_boost]: the policy is passed by pointer in C and returned here;
    the notifier's own return value is always [NOTIFY_OK]. *)
Definition do_cpu_boost (val : cpufreq_event) (policy : cpufreq_policy)
    (now : Z) : M cpufreq_policy :=
  let c := pol_cpu policy in
  s <- get ;;
  b <- per_cpu c ;;
  if (enabled s =? 0) && (pol_min policy =? cpuinfo_min_freq policy) then
    ret policy
  else
    match val with
    | CPUFREQ_START => emit (SetCpusAllowed (cpu b)) ;;; ret policy
    | CPUFREQ_ADJUST =>
        if status_true (fb_boost s) then
          ret (set_pol_min (pol_max policy) policy)
        else
          let policy1 :=
            match boost_state b with
            | UNBOOST => set_pol_min (cpuinfo_min_freq policy) policy
            | BOOST =>
                set_pol_min
                  (Z.min (pol_max policy)
                         (ib_freq s (if Nat.eqb c 0 then 0 else 1)))
                  policy
            | WAITING => policy
            end in
          policy2 <-
            (if (ib_nr_cpus_boosted s <? ib_nr_cpus_to_boost s)
                && negb (Nat.eqb c 0) then
               let duration_ms := remaining_ms s now in
               if 0 <? duration_ms then
                 update_cpu c (set_boost_state BOOST) ;;;
                 modify (fun s' =>
                   set_ib_nr_cpus_boosted (u32 (ib_nr_cpus_boosted s' + 1)) s') ;;;
                 update_cpu c (fun b' =>
                   set_ib_restore_work
                     (queue_delayed_work (ib_restore_work b') duration_ms) b') ;;;
                 ret (set_pol_min (Z.min (pol_max policy) (ib_freq s 1)) policy1)
               else ret policy1
             else ret policy1) ;;
          b' <- per_cpu c ;;
          if pol_min policy2 <? migration_freq b' then
            ret (set_pol_min (Z.min (pol_max policy) (migration_freq b')) policy2)
          else ret policy2
    | _ => ret policy
    end.

(** The framebuffer notifier's event and the blank level it carries. *)
Inductive fb_event_kind : Type :=
| FB_EVENT_BLANK
| FB_EVENT_OTHER.

Inductive fb_blank_level : Type :=
| FB_BLANK_UNBLANK
| FB_BLANK_NORMAL
| FB_BLANK_VSYNC_SUSPEND
| FB_BLANK_HSYNC_SUSPEND
| FB_BLANK_POWERDOWN.

Definition fb_blank_boost (val : fb_event_kind) (blank : fb_blank_level) : M unit :=
  s <- get ;;
  if enabled s =? 0 then skip
  else
    match val with
    | FB_EVENT_OTHER => skip
    | FB_EVENT_BLANK =>
        match blank with
        | FB_BLANK_UNBLANK =>
            modify (set_suspended false) ;;;
            if status_true (fb_boost s) then skip
            else
              modify (set_fb_boost BOOST) ;;;
              modify (fun s' =>
                set_fb_boost_work (queue_delayed_work (fb_boost_work s') 0) s')
        | _ => modify (set_suspended true)
        end
    end.

Definition do_mig_boost_rem (c : nat) : M unit :=
  update_cpu c (set_migration_freq 0) ;;;
  b <- per_cpu c ;;
  emit (UpdatePolicy (cpu b)).

(** [req_freq] of the sync thread. *)
Definition req_freq (dest_policy src_policy : cpufreq_policy) (load : Z) : Z :=
  Z.max (u32 (pol_max dest_policy * load) / 100) (pol_cur src_policy).

(** One turn of the loop of [boost_mig_sync_thread] for [dest_cpu].
    [cpufreq_get_policy c] is [None] where the C call returns an error.
    With nothing pending the thread stays in [wait_event_interruptible];
    the driver never stops the thread. *)
Definition boost_mig_sync_thread
    (cpufreq_get_policy : nat -> option cpufreq_policy) (online : cpumask)
    (dest_cpu : nat) : M unit :=
  b <- per_cpu dest_cpu ;;
  if negb (pending b) then skip
  else
    update_cpu dest_cpu (set_pending false) ;;;
    let src := src_cpu b in
    match cpufreq_get_policy src with
    | None => skip
    | Some src_policy =>
        match cpufreq_get_policy dest_cpu with
        | None => skip
        | Some dest_policy =>
            let req := req_freq dest_policy src_policy (task_load b) in
            if req <=? cpuinfo_min_freq dest_policy then skip
            else
              update_cpu dest_cpu (fun b' =>
                set_mig_boost_rem (cancel_delayed_work_sync (mig_boost_rem b')) b') ;;;
              update_cpu dest_cpu (set_migration_freq req) ;;;
              when (cpu_online online src) (emit (UpdatePolicy src)) ;;;
              if cpu_online online dest_cpu then
                emit (UpdatePolicy dest_cpu) ;;;
                s <- get ;;
                update_cpu dest_cpu (fun b' =>
                  set_mig_boost_rem
                    (queue_delayed_work (mig_boost_rem b') (migration_boost_ms s)) b')
              else
                update_cpu dest_cpu (set_migration_freq 0)
        end
    end.

(** [struct migration_notify_data]; [load] is a C [int]. *)
Record migration_notify_data : Type := mkMnd {
  mnd_src_cpu : nat;
  mnd_dest_cpu : nat;
  mnd_load : Z
}.

(** [boost_migration_notify]; [is_current] tells whether the caller is the
    destination's own sync thread ([b->thread == current]).  The comparison
    of the [int] load with the [unsigned int] threshold is unsigned. *)
Definition boost_migration_notify (mnd : migration_notify_data)
    (is_current : bool) : M unit :=
  s <- get ;;
  if (enabled s =? 0) || (migration_boost_ms s =? 0) then skip
  else if suspended s || status_true (fb_boost s) then skip
  else if load_based_syncs s
          && (u32 (mnd_load mnd) <=? migration_load_threshold s) then skip
  else if load_based_syncs s
          && ((mnd_load mnd <? 0) || (100 <? mnd_load mnd)) then skip
  else if is_current then skip
  else
    update_cpu (mnd_dest_cpu mnd) (set_pending true) ;;;
    update_cpu (mnd_dest_cpu mnd) (set_src_cpu (mnd_src_cpu mnd)) ;;;
    update_cpu (mnd_dest_cpu mnd)
      (set_task_load (if load_based_syncs s then u32 (mnd_load mnd) else 0)) ;;;
    b <- per_cpu (mnd_dest_cpu mnd) ;;
    if being_woken b =? 0 then
      update_cpu (mnd_dest_cpu mnd) (set_being_woken 1) ;;;
      emit (WakeUp (mnd_dest_cpu mnd)) ;;;
      update_cpu (mnd_dest_cpu mnd) (set_being_woken 0)
    else skip.

Definition cpu_ib_input_event : M unit :=
  s <- get ;;
  if ib_running s || (enabled s =? 0) || status_true (fb_boost s) then skip
  else
    modify (set_ib_running true) ;;;
    modify (fun s' => set_boost_work (queue_work (boost_work s')) s').

(** ** The sysfs interface *)

Definition EINVAL : Z := 22.

Inductive sysfs_attr : Type :=
| attr_enabled
| attr_ib_freqs
| attr_ib_duration_ms
| attr_load_based_syncs
| attr_migration_boost_ms
| attr_migration_load_threshold.

Section Driver.

(** The kernel's [sscanf] is not part of the driver: [sscanf fmt buf] is
    the list of the [unsigned int] values it converts, in order, so that
    its return value is the length of that list. *)
Variable sscanf : string -> string -> list Z.

Definition enabled_write (online : cpumask) (buf : string) (size : Z) : M Z :=
  match sscanf "%u" buf with
  | [data] =>
      modify (set_enabled data) ;;;
      s <- get ;;
      when (enabled s =? 0) (stop_remove_all_boosts online) ;;;
      ret size
  | _ => ret (- EINVAL)
  end.

Definition ib_freqs_write (buf : string) (size : Z) : M Z :=
  match sscanf "%u %u" buf with
  | [freq0; freq1] =>
      if (freq0 =? 0) || (freq1 =? 0) then ret (- EINVAL)
      else
        modify (set_ib_freq_0 freq0) ;;;
        modify (set_ib_freq_1 freq1) ;;;
        ret size
  | _ => ret (- EINVAL)
  end.

Definition ib_duration_ms_write (buf : string) (size : Z) : M Z :=
  match sscanf "%u" buf with
  | [ms] =>
      if ms =? 0 then ret (- EINVAL)
      else modify (set_ib_duration_ms ms) ;;; ret size
  | _ => ret (- EINVAL)
  end.

Definition load_based_syncs_write (buf : string) (size : Z) : M Z :=
  match sscanf "%u" buf with
  | [data] => modify (set_load_based_syncs (negb (data =? 0))) ;;; ret size
  | _ => ret (- EINVAL)
  end.

Definition migration_boost_ms_write (buf : string) (size : Z) : M Z :=
  match sscanf "%u" buf with
  | [data] => modify (set_migration_boost_ms data) ;;; ret size
  | _ => ret (- EINVAL)
  end.

Definition migration_load_threshold_write (buf : string) (size : Z) : M Z :=
  match sscanf "%u" buf with
  | [data] => modify (set_migration_load_threshold data) ;;; ret size
  | _ => ret (- EINVAL)
  end.

Definition sysfs_write (a : sysfs_attr) (online : cpumask) (buf : string)
    (size : Z) : M Z :=
  match a with
  | attr_enabled => enabled_write online buf size
  | attr_ib_freqs => ib_freqs_write buf size
  | attr_ib_duration_ms => ib_duration_ms_write buf size
  | attr_load_based_syncs => load_based_syncs_write buf size
  | attr_migration_boost_ms => migration_boost_ms_write buf size
  | attr_migration_load_threshold => migration_load_threshold_write buf size
  end.

(** ** Entry points as events

    Every way into the driver, with what it reads of the rest of the
    kernel: the online mask, the clock, the cpufreq policies.  A work
    function runs only when its work is pending, and the workqueue clears
    the pending mark before it calls the function. *)
Inductive event : Type :=
| InputEvent
| RunBoostWork (online : cpumask) (now : Z)
| RunIbRestore (online : cpumask) (c : nat)
| FbNotify (val : fb_event_kind) (blank : fb_blank_level)
| RunFbWork (online : cpumask)
| PolicyNotify (val : cpufreq_event) (policy : cpufreq_policy) (now : Z)
| RunMigRem (c : nat)
| MigrationNotify (mnd : migration_notify_data) (is_current : bool)
| SyncThread (get_policy : nat -> option cpufreq_policy) (online : cpumask)
             (dest_cpu : nat)
| SysfsWrite (a : sysfs_attr) (online : cpumask) (buf : string) (size : Z).

Definition step (e : event) : M unit :=
  match e with
  | InputEvent => cpu_ib_input_event
  | RunBoostWork online now =>
      s <- get ;;
      if boost_work s then
        modify (set_boost_work false) ;;; ib_boost_main online now
      else skip
  | RunIbRestore online c =>
      b <- per_cpu c ;;
      match ib_restore_work b with
      | Some _ =>
          update_cpu c (set_ib_restore_work None) ;;; ib_restore_main online c
      | None => skip
      end
  | FbNotify val blank => fb_blank_boost val blank
  | RunFbWork online =>
      s <- get ;;
      match fb_boost_work s with
      | Some _ => modify (set_fb_boost_work None) ;;; fb_boost_main online
      | None => skip
      end
  | PolicyNotify val policy now => do_cpu_boost val policy now ;;; skip
  | RunMigRem c =>
      b <- per_cpu c ;;
      match mig_boost_rem b with
      | Some _ => update_cpu c (set_mig_boost_rem None) ;;; do_mig_boost_rem c
      | None => skip
      end
  | MigrationNotify mnd is_current => boost_migration_notify mnd is_current
  | SyncThread get_policy online dest_cpu =>
      boost_mig_sync_thread get_policy online dest_cpu
  | SysfsWrite a online buf size => sysfs_write a online buf size ;;; skip
  end.

Fixpoint run (es : list event) : M unit :=
  match es with
  | [] => skip
  | e :: rest => step e ;;; run rest
  end.

End Driver.

(** The state [cpu_ib_init] leaves for [nr_cpus] possible CPUs: static
    storage is zero-filled and each record knows its CPU. *)
Definition cpu_ib_init (nr_cpus : nat) : kstate :=
  mkState (map boost_policy_init (seq 0 nr_cpus)) None false false false false
          UNBOOST 0 0 0 0 0 0 0 0 0 0.

(** A decimal reader for the two formats the driver uses, for running the
    writes on concrete buffers: white space is skipped before a number and
    a number is a non-empty run of digits, kept modulo 2^32. *)
Definition is_space (a : ascii) : bool :=
  let n := nat_of_ascii a in
  Nat.eqb n 32 || (Nat.leb 9 n && Nat.leb n 13).

Definition digit_of (a : ascii) : option Z :=
  let n := nat_of_ascii a in
  if Nat.leb 48 n && Nat.leb n 57 then Some (Z.of_nat n - 48) else None.

Fixpoint skip_spaces (s : string) : string :=
  match s with
  | String a rest => if is_space a then skip_spaces rest else s
  | EmptyString => s
  end.

Fixpoint scan_digits (s : string) (acc : option Z) : option Z * string :=
  match s with
  | String a rest =>
      match digit_of a with
      | Some d => scan_digits rest (Some (u32 (default 0 acc * 10 + d)))
      | None => (acc, s)
      end
  | EmptyString => (acc, s)
  end.

Definition scan_u (s : string) : option Z * string :=
  scan_digits (skip_spaces s) None.

Definition decimal_sscanf (fmt buf : string) : list Z :=
  if String.eqb fmt "%u" then
    match fst (scan_u buf) with
    | Some v => [v]
    | None => []
    end
  else if String.eqb fmt "%u %u" then
    match scan_u buf with
    | (Some v0, rest) =>
        match fst (scan_u rest) with
        | Some v1 => [v0; v1]
        | None => [v0]
        end
    | (None, _) => []
    end
  else [].

(** ** Vocabulary of the properties *)

(** What [stop_remove_all_boosts] does to one per-CPU record. *)
Definition reset_boost (b : boost_policy) : boost_policy :=
  set_boost_state UNBOOST
    (set_migration_freq 0
       (set_ib_restore_work None (set_mig_boost_rem None b))).

(** The per-CPU part of the unboosted baseline. *)
Definition unboosted (b : boost_policy) : Prop :=
  ib_restore_work b = None /\ mig_boost_rem b = None /\
  boost_state b = UNBOOST /\ migration_freq b = 0.

(** The variables stop-and-clear is not meant to write: the tunables and
    the display's suspend flag. *)
Definition settings (s : kstate) : Z * Z * Z * Z * Z * bool * bool :=
  (ib_duration_ms s, ib_freq_0 s, ib_freq_1 s, migration_boost_ms s,
   migration_load_threshold s, load_based_syncs s, suspended s).

(** The notifier leaves at once: feature off and the floor already at the
    hardware minimum. *)
Definition fast_exit (s : kstate) (policy : cpufreq_policy) : bool :=
  (enabled s =? 0) && (pol_min policy =? cpuinfo_min_freq policy).

(** The floor that the input-boost status of a CPU asks for. *)
Definition status_floor (s : kstate) (b : boost_policy)
    (policy : cpufreq_policy) : Z :=
  match boost_state b with
  | UNBOOST => cpuinfo_min_freq policy
  | BOOST =>
      Z.min (pol_max policy)
            (ib_freq s (if Nat.eqb (pol_cpu policy) 0 then 0 else 1))
  | WAITING => pol_min policy
  end.

(** The admission conditions: a CPU other than CPU0, fewer CPUs counted
    than the cycle targets, and time left in the cycle. *)
Definition admission_open (s : kstate) (c : nat) (now : Z) : bool :=
  (ib_nr_cpus_boosted s <? ib_nr_cpus_to_boost s)
  && negb (Nat.eqb c 0)
  && (0 <? remaining_ms s now).

(** The floor after the migration floor [mig] had its say. *)
Definition raise_to_migration (mig : Z) (policy : cpufreq_policy) (floor : Z) : Z :=
  if floor <? mig then Z.min (pol_max policy) mig else floor.

(** The state an admission of CPU [c] leaves, with [d] ms to run. *)
Definition state_after_admission (c : nat) (d : Z) (s : kstate) : kstate :=
  set_boost_info
    (alter (fun b =>
              set_ib_restore_work (queue_delayed_work (ib_restore_work b) d)
                                  (set_boost_state BOOST b))
           c (boost_info s))
    (set_ib_nr_cpus_boosted (u32 (ib_nr_cpus_boosted s + 1)) s).




(** What a migration request that is applied does to the destination's
    record: the mailbox is drained, the removal work re-queued and the
    floor set for an online destination; for an offline one the floor is
    dropped again. *)
Definition apply_migration (dest_online : bool) (req boost_ms : Z)
    (b : boost_policy) : boost_policy :=
  if dest_online then
    set_mig_boost_rem (Some boost_ms)
      (set_migration_freq req (set_pending false b))
  else
    set_migration_freq 0
      (set_mig_boost_rem None (set_pending false b)).

(** Display boost is on only while the master switch is. *)
Definition display_needs_switch (s : kstate) : Prop :=
  status_true (fb_boost s) = true -> enabled s <> 0.

(** A function leaves [f] of the variables alone. *)
Definition preserves {A X : Type} (f : kstate -> X) (m : M A) : Prop :=
  forall s, f (state_of (m s)) = f s.

(** ** Systems and runs for the examples

    Four possible CPUs unless said otherwise, frequencies in kHz, policies
    from 0.3 GHz to 2.0 GHz. *)
Definition online4 : cpumask := [true; true; true; true].
Definition online1 : cpumask := [true; false; false; false].

(** CPU2 is offline. *)
Definition online_but_2 : cpumask := [true; true; false; true].

(** The policy of CPU [c] with its floor at the hardware minimum, running
    at [cur]. *)
Definition policy_of (c : nat) (cur : Z) : cpufreq_policy :=
  mkPolicy c 300000 2000000 cur 300000.

(** CPU1's policy with a floor of 0.4 GHz, above the hardware minimum. *)
Definition raised_policy : cpufreq_policy :=
  mkPolicy 1 400000 2000000 400000 300000.

(** Eight possible CPUs and an input boost duration of 1400 ms. *)
Definition cycle_config : kstate := set_ib_duration_ms 1400 (cpu_ib_init 8).

(** The switch is turned on and the display unblanks. *)
Definition display_trace : list event :=
  [SysfsWrite attr_enabled online4 "1" 2;
   FbNotify FB_EVENT_BLANK FB_BLANK_UNBLANK].

(** Per-CPU records with an input boost on CPU0 and CPU1 and a migration
    floor of 1.2 GHz on CPU1. *)
Definition busy_info : list boost_policy :=
  [mkBoostPolicy (Some 610) None false 0 BOOST 0 0 0 0;
   mkBoostPolicy (Some 500) (Some 40) false 0 BOOST 1 1200000 0 0;
   boost_policy_init 2;
   boost_policy_init 3].

(** A cycle that starts at time 1000 with CPU0 alone online: it targets
    two CPUs and lasts 1400 * 3 / 4 = 1050 ms. *)
Definition lone_cycle_trace : list event :=
  [SysfsWrite attr_enabled online1 "1" 2;
   SysfsWrite attr_ib_duration_ms online1 "1400" 5;
   SysfsWrite attr_ib_freqs online1 "1500000 1200000" 16;
   InputEvent;
   RunBoostWork online1 1000].

Definition lone_cycle_state : kstate :=
  state_of (run decimal_sscanf lone_cycle_trace (cpu_ib_init 4)).


(** The lone cycle, with the master switch turned off right after its
    start. *)
Definition switch_off : event := SysfsWrite attr_enabled online1 "0" 2.

Definition switched_off_state : kstate :=
  state_of (run decimal_sscanf (lone_cycle_trace ++ [switch_off]) (cpu_ib_init 4)).

(** The lone cycle, with the display blanked before the switch is turned
    off. *)
Definition blanked_off_state : kstate :=
  state_of (run decimal_sscanf
              (lone_cycle_trace
               ++ [FbNotify FB_EVENT_BLANK FB_BLANK_POWERDOWN; switch_off])
              (cpu_ib_init 4)).

(** An input boost of CPU0 that outlasts a display boost: 7000 ms
    configured, four CPUs online, so 3000 ms adjusted. *)
Definition long_cycle_trace : list event :=
  [SysfsWrite attr_enabled online4 "1" 2;
   SysfsWrite attr_ib_duration_ms online4 "7000" 5;
   SysfsWrite attr_ib_freqs online4 "1500000 1200000" 16;
   InputEvent;
   RunBoostWork online4 1000].

(** The display unblanks, the boost work runs at once and again when the
    cooldown window of 900 ms is over. *)
Definition display_boost_trace : list event :=
  [FbNotify FB_EVENT_BLANK FB_BLANK_UNBLANK;
   RunFbWork online4;
   RunFbWork online4].

Definition before_display_boost : kstate :=
  state_of (run decimal_sscanf long_cycle_trace (cpu_ib_init 4)).

Definition after_display_boost : kstate :=
  state_of (run decimal_sscanf display_boost_trace before_display_boost).

(** The display boost is in its cooldown window, on top of the long cycle. *)
Definition cooldown_state : kstate :=
  state_of (run decimal_sscanf
              [FbNotify FB_EVENT_BLANK FB_BLANK_UNBLANK; RunFbWork online4]
              before_display_boost).

(** The migration scenario of the specification: the driver is on with a
    migration boost of 40 ms and load gating off; a task with load 80 %
    moves from CPU0, running at 1.2 GHz, to CPU2. *)
Definition migration_config : kstate :=
  state_of (run decimal_sscanf
              [SysfsWrite attr_enabled online4 "1" 2;
               SysfsWrite attr_migration_boost_ms online4 "40" 3]
              (cpu_ib_init 4)).

Definition scenario_mnd : migration_notify_data := mkMnd 0 2 80.

Definition scenario_policies (c : nat) : option cpufreq_policy :=
  match c with
  | 0%nat => Some (policy_of 0 1200000)
  | 2%nat => Some (policy_of 2 300000)
  | _ => None
  end.

Definition scenario_result : kstate * list request :=
  let r := run decimal_sscanf
             [MigrationNotify scenario_mnd false;
              SyncThread scenario_policies online4 2]
             migration_config in
  (state_of r, requests_of r).

(** Every CPU runs at the hardware minimum. *)
Definition idle_policies (c : nat) : option cpufreq_policy :=
  Some (policy_of c 300000).

(** CPU2 has a migration floor of 1.2 GHz with its removal work pending,
    and a new request from CPU0 in its mailbox. *)
Definition pending_info : list boost_policy :=
  [boost_policy_init 0;
   boost_policy_init 1;
   mkBoostPolicy None (Some 40) true 0 UNBOOST 2 1200000 0 0;
   boost_policy_init 3].

Definition pending_state : kstate := set_boost_info pending_info migration_config.

(** ** The specification's wording, where the driver departs from it *)

(** The candidate floor from the load the migration event reports. *)
Definition migration_floor_as_specified (mnd : migration_notify_data)
    (src_policy dest_policy : cpufreq_policy) : Z :=
  Z.max (pol_max dest_policy * mnd_load mnd / 100) (pol_cur src_policy).

(** The frame property of the display boost: the per-CPU arbitration
    inputs and the running flag are what they were before it. *)
Definition inputs_restored (before after : kstate) : Prop :=
  boost_state <$> boost_info after = boost_state <$> boost_info before /\
  migration_freq <$> boost_info after = migration_freq <$> boost_info before /\
  ib_running after = ib_running before.

(** Stop-and-clear: every per-CPU field and every global field other than
    the tunables is at its start-up value, and every CPU's floor is the
    hardware minimum. *)
Definition stop_and_clear_as_specified (s : kstate) : Prop :=
  boost_info s = map boost_policy_init (seq 0 (length (boost_info s))) /\
  fb_boost_work s = None /\ boost_work s = false /\
  enabled s = 0 /\ fb_boost s = UNBOOST /\ ib_running s = false /\
  suspended s = false /\
  ib_nr_cpus_boosted s = 0 /\ ib_nr_cpus_to_boost s = 0 /\
  boost_start_time s = 0 /\
  forall policy now,
    pol_min (value_of (do_cpu_boost CPUFREQ_ADJUST policy now s))
    = cpuinfo_min_freq policy.


(** The validation of a tunable, for a buffer that holds a zero: the write
    fails and changes nothing. *)
Definition zero_rejected (a : sysfs_attr) (buf : string) (s : kstate) : Prop :=
  sysfs_write decimal_sscanf a online4 buf 2 s = (- EINVAL, s, []).

(** ** The rest of the file: sysfs reads, input handler, start-up *)

(** The [show] functions print with [snprintf]; what they print is the
    list of the values passed for the [%u] conversions.  [load_based_syncs]
    is a C [bool], printed as 0 or 1. *)
Definition enabled_read (s : kstate) : list Z := [enabled s].
Definition ib_freqs_read (s : kstate) : list Z := [ib_freq s 0; ib_freq s 1].
Definition ib_duration_ms_read (s : kstate) : list Z := [ib_duration_ms s].
Definition load_based_syncs_read (s : kstate) : list Z :=
  [if load_based_syncs s then 1 else 0].
Definition migration_boost_ms_read (s : kstate) : list Z := [migration_boost_ms s].
Definition migration_load_threshold_read (s : kstate) : list Z :=
  [migration_load_threshold s].

Definition sysfs_read (a : sysfs_attr) (s : kstate) : list Z :=
  match a with
  | attr_enabled => enabled_read s
  | attr_ib_freqs => ib_freqs_read s
  | attr_ib_duration_ms => ib_duration_ms_read s
  | attr_load_based_syncs => load_based_syncs_read s
  | attr_migration_boost_ms => migration_boost_ms_read s
  | attr_migration_load_threshold => migration_load_threshold_read s
  end.

Definition ENOMEM : Z := 12.
Definition EFAULT : Z := 14.

(** What the input core holds for the handler: handles allocated by
    [kzalloc], handles registered, devices opened. *)
Record input_core : Type := mkInputCore {
  handles_allocated : nat;
  handles_registered : nat;
  devices_open : nat
}.

(** [cpu_ib_input_connect].  [kzalloc_ok] tells whether the allocation
    succeeds; [register_err] and [open_err] are the return values of
    [input_register_handle] and [input_open_device], which take effect
    only when they return 0. *)
Definition cpu_ib_input_connect (kzalloc_ok : bool) (register_err open_err : Z)
    (ic : input_core) : Z * input_core :=
  if negb kzalloc_ok then (- ENOMEM, ic)
  else
    let ic1 := mkInputCore (S (handles_allocated ic)) (handles_registered ic)
                           (devices_open ic) in
    if negb (register_err =? 0) then
      (* err2: kfree(handle) *)
      (register_err,
       mkInputCore (pred (handles_allocated ic1)) (handles_registered ic1)
                   (devices_open ic1))
    else
      let ic2 := mkInputCore (handles_allocated ic1)
                             (S (handles_registered ic1)) (devices_open ic1) in
      if negb (open_err =? 0) then
        (* err1: input_unregister_handle(handle); err2: kfree(handle) *)
        (open_err,
         mkInputCore (pred (handles_allocated ic2))
                     (pred (handles_registered ic2)) (devices_open ic2))
      else
        (0, mkInputCore (handles_allocated ic2) (handles_registered ic2)
                        (S (devices_open ic2))).

(** [cpu_ib_input_disconnect] *)
Definition cpu_ib_input_disconnect (ic : input_core) : input_core :=
  mkInputCore (pred (handles_allocated ic)) (pred (handles_registered ic))
              (pred (devices_open ic)).

(** What [cpu_ib_init] sets up in the kernel, in program order. *)
Inductive registration : Type :=
| CpufreqNotifier
| FbClient
| SyncThreadStarted (c : nat)
| MigrationNotifier
| InputHandler
| Kobject
| SysfsGroup.

(** The return value of the function [cpu_ib_init] and what is registered
    when it returns.  [wq_ok] and [kobj_ok] tell whether [alloc_workqueue]
    and [kobject_create_and_add] return an object; [handler_err] and
    [sysfs_err] are the return values of [input_register_handler] and
    [sysfs_create_group].  [ret] is only assigned by the workqueue failure
    and by these two calls; [kobject_put] undoes the kobject. *)
Definition cpu_ib_init_call (nr_cpus : nat) (wq_ok : bool) (handler_err : Z)
    (kobj_ok : bool) (sysfs_err : Z) : Z * list registration :=
  if negb wq_ok then (- EFAULT, [])
  else
    let base :=
      [CpufreqNotifier; FbClient]
      ++ map SyncThreadStarted (seq 0 nr_cpus)
      ++ [MigrationNotifier] in
    let ret := handler_err in
    if negb (ret =? 0) then (ret, base)
    else if negb kobj_ok then (ret, base ++ [InputHandler])
    else
      let ret := sysfs_err in
      if negb (ret =? 0) then (ret, base ++ [InputHandler])
      else (ret, base ++ [InputHandler; Kobject; SysfsGroup]).

(** ** Vocabulary of the further properties *)

(** The gates of the migration notifier: a request is posted when the
    driver is on with a migration boost duration, the display is neither
    off nor being boosted, the load passes the load gate when that is on,
    and the caller is not the destination's sync thread. *)
Definition posts (s : kstate) (mnd : migration_notify_data)
    (is_current : bool) : bool :=
  negb ((enabled s =? 0) || (migration_boost_ms s =? 0))
  && negb (suspended s || status_true (fb_boost s))
  && negb (load_based_syncs s
           && (u32 (mnd_load mnd) <=? migration_load_threshold s))
  && negb (load_based_syncs s
           && ((mnd_load mnd <? 0) || (100 <? mnd_load mnd)))
  && negb is_current.

(** What a posted request writes into the destination's record. *)
Definition post_request (s : kstate) (mnd : migration_notify_data)
    (b : boost_policy) : boost_policy :=
  set_task_load (if load_based_syncs s then u32 (mnd_load mnd) else 0)
    (set_src_cpu (mnd_src_cpu mnd) (set_pending true b)).

(** The wake-up of the sync thread, seen from the record: the mark is
    taken and released when it was free. *)
Definition wake_up (b : boost_policy) : boost_policy :=
  if being_woken b =? 0 then set_being_woken 0 (set_being_woken 1 b) else b.

(** What one turn of the sync thread does to the destination's record. *)
Definition sync_record (get_policy : nat -> option cpufreq_policy)
    (online : cpumask) (dest : nat) (boost_ms : Z) (b : boost_policy)
    : boost_policy :=
  if negb (pending b) then b
  else
    match get_policy (src_cpu b), get_policy dest with
    | Some src_policy, Some dest_policy =>
        let req := req_freq dest_policy src_policy (task_load b) in
        if req <=? cpuinfo_min_freq dest_policy then set_pending false b
        else apply_migration (cpu_online online dest) req boost_ms b
    | _, _ => set_pending false b
    end.

(** A per-CPU record at rest, as record number [i]: it knows its CPU, an
    input boost has its restore work pending, a migration floor has its
    removal work pending, the status is not the display's [WAITING], and
    the wake-up mark is released. *)
Definition record_ok (i : nat) (b : boost_policy) : Prop :=
  cpu b = i /\
  (boost_state b = BOOST -> ib_restore_work b <> None) /\
  (migration_freq b <> 0 -> mig_boost_rem b <> None) /\
  boost_state b <> WAITING /\
  being_woken b = 0.

Definition records_ok (l : list boost_policy) : Prop :=
  forall i b, l !! i = Some b -> record_ok i b.

(** The driver at rest between two events. *)
Definition state_ok (nr_cpus : nat) (s : kstate) : Prop :=
  length (boost_info s) = nr_cpus /\
  records_ok (boost_info s) /\
  0 <= ib_nr_cpus_boosted s <= ib_nr_cpus_to_boost s /\
  ib_nr_cpus_to_boost s <= 2 /\
  (fb_boost s <> UNBOOST -> enabled s <> 0 /\ fb_boost_work s <> None) /\
  (ib_running s = true ->
   boost_work s = true \/
   exists i b, boost_info s !! i = Some b /\ boost_state b = BOOST).

(** A driver that never was switched on: only tunables may differ from
    the start-up state. *)
Definition inert (nr_cpus : nat) (s : kstate) : Prop :=
  enabled s = 0 /\
  boost_info s = boost_info (cpu_ib_init nr_cpus) /\
  fb_boost_work s = None /\ boost_work s = false /\ ib_running s = false /\
  suspended s = false /\ fb_boost s = UNBOOST /\
  ib_nr_cpus_boosted s = 0 /\ ib_nr_cpus_to_boost s = 0.

Definition is_enabled_write (e : event) : bool :=
  match e with
  | SysfsWrite attr_enabled _ _ _ => true
  | _ => false
  end.

(** A two-CPU cycle for the examples: CPU1 is admitted 100 ms into the
    lone cycle. *)
Definition two_cpu_cycle_state : kstate :=
  state_of (run decimal_sscanf
              (lone_cycle_trace
               ++ [PolicyNotify CPUFREQ_ADJUST (policy_of 1 300000) 1100])
              (cpu_ib_init 4)).

(** Load gating switched on with a threshold of 50 %, on top of the
    migration scenario. *)
Definition gated_config : kstate :=
  state_of (run decimal_sscanf
              [SysfsWrite attr_load_based_syncs online4 "1" 2;
               SysfsWrite attr_migration_load_threshold online4 "50" 3]
              migration_config).

(** The conversion format each [store] function passes to [sscanf]. *)
Definition sysfs_format (a : sysfs_attr) : string :=
  match a with
  | attr_ib_freqs => "%u %u"
  | _ => "%u"
  end.

(** What the [show] function of an attribute prints once the converted
    values [vals] are stored: [load_based_syncs] keeps only whether the
    value was nonzero. *)
Definition as_shown (a : sysfs_attr) (vals : list Z) : list Z :=
  match a with
  | attr_load_based_syncs => map (fun d => if d =? 0 then 0 else 1) vals
  | _ => vals
  end.

(** The registrations of [cpu_ib_init] that every path past the workqueue
    allocation makes. *)
Definition early_registrations (nr_cpus : nat) : list registration :=
  [CpufreqNotifier; FbClient]
  ++ map SyncThreadStarted (seq 0 nr_cpus)
  ++ [MigrationNotifier].

(** A second cycle right after a display boost that cut the long cycle
    short: CPU0's restore work of the long cycle, queued at 1000 ms for
    3010 ms, is still pending when the duration is set to 1400 ms and the
    next touch starts a cycle at 2500 ms. *)
Definition second_cycle_trace : list event :=
  [SysfsWrite attr_ib_duration_ms online4 "1400" 5;
   InputEvent;
   RunBoostWork online4 2500].

Definition second_cycle_state : kstate :=
  state_of (run decimal_sscanf second_cycle_trace after_display_boost).

(** * Properties *)

(** ** Sequencing *)

Lemma state_bind {A B} (m : M A) (k : A -> M B) (s : kstate) :
  state_of (bind m k s) = state_of (k (value_of (m s)) (state_of (m s))).
Proof.
  unfold bind, state_of, value_of.
  destruct (m s) as [[a s1] o1]. cbn [fst snd].
  by destruct (k a s1) as [[b s2] o2].
Qed.

Lemma value_bind {A B} (m : M A) (k : A -> M B) (s : kstate) :
  value_of (bind m k s) = value_of (k (value_of (m s)) (state_of (m s))).
Proof.
  unfold bind, state_of, value_of.
  destruct (m s) as [[a s1] o1]. cbn [fst snd].
  by destruct (k a s1) as [[b s2] o2].
Qed.

Lemma requests_bind {A B} (m : M A) (k : A -> M B) (s : kstate) :
  requests_of (bind m k s)
  = requests_of (m s) ++ requests_of (k (value_of (m s)) (state_of (m s))).
Proof.
  unfold bind, state_of, value_of, requests_of.
  destruct (m s) as [[a s1] o1]. cbn [fst snd].
  by destruct (k a s1) as [[b s2] o2].
Qed.

(** ** Loops over the CPUs *)

Lemma set_boost_info_same (s : kstate) : set_boost_info (boost_info s) s = s.
Proof. by destruct s. Qed.

Lemma for_each_state (f : nat -> kstate -> kstate) (body : nat -> M unit)
    (cpus : list nat) (s : kstate) :
  (forall c s', state_of (body c s') = f c s') ->
  state_of (for_each cpus body s) = foldl (fun acc c => f c acc) s cpus.
Proof.
  intros Hbody. revert s.
  induction cpus as [|c rest IH]; intros s; [reflexivity|].
  cbn [for_each foldl]. by rewrite state_bind, IH, Hbody.
Qed.

Lemma for_each_requests (g : nat -> list request) (body : nat -> M unit)
    (cpus : list nat) (s : kstate) :
  (forall c s', requests_of (body c s') = g c) ->
  requests_of (for_each cpus body s) = concat (map g cpus).
Proof.
  intros Hbody. revert s.
  induction cpus as [|c rest IH]; intros s; [reflexivity|].
  cbn [for_each map concat]. by rewrite requests_bind, IH, Hbody.
Qed.

Lemma foldl_alter_info (f : boost_policy -> boost_policy) (cpus : list nat)
    (s : kstate) :
  foldl (fun acc c => set_boost_info (alter f c (boost_info acc)) acc) s cpus
  = set_boost_info (foldl (fun l c => alter f c l) (boost_info s) cpus) s.
Proof.
  revert s. induction cpus as [|c rest IH]; intros s; cbn [foldl].
  - symmetry. apply set_boost_info_same.
  - rewrite IH. reflexivity.
Qed.

Lemma foldl_alter_seq (f : boost_policy -> boost_policy)
    (done todo : list boost_policy) :
  foldl (fun l c => alter f c l) (done ++ todo) (seq (length done) (length todo))
  = done ++ (f <$> todo).
Proof.
  revert done. induction todo as [|b todo IH]; intros done; [reflexivity|].
  cbn [length seq foldl fmap list_fmap].
  replace (alter f (length done) (done ++ b :: todo))
    with ((done ++ [f b]) ++ todo).
  - replace (S (length done)) with (length (done ++ [f b])).
    + rewrite IH. by rewrite <- app_assoc.
    + rewrite length_app. simpl. lia.
  - rewrite <- app_assoc. simpl.
    symmetry. rewrite alter_app_r_alt by (simpl; lia).
    by rewrite Nat.sub_diag.
Qed.

Lemma foldl_alter_all (f : boost_policy -> boost_policy) (l : list boost_policy) :
  foldl (fun l' c => alter f c l') l (seq 0 (length l)) = f <$> l.
Proof. apply (foldl_alter_seq f [] l). Qed.

(** A loop that applies [f] to the record of every possible CPU. *)
Lemma for_each_possible_state (f : boost_policy -> boost_policy)
    (body : nat -> M unit) (s : kstate) :
  (forall c s', state_of (body c s')
                = set_boost_info (alter f c (boost_info s')) s') ->
  state_of (for_each (possible_cpus s) body s)
  = set_boost_info (f <$> boost_info s) s.
Proof.
  intros Hbody.
  rewrite (for_each_state _ _ _ _ Hbody), foldl_alter_info.
  unfold possible_cpus. by rewrite foldl_alter_all.
Qed.

(** ** Closed forms of the functions that loop *)

Lemma unboost_all_cpus_state (online : cpumask) (s : kstate) :
  state_of (unboost_all_cpus online s)
  = set_ib_running false
      (set_boost_info (set_boost_state UNBOOST <$> boost_info s) s).
Proof.
  unfold unboost_all_cpus. rewrite !state_bind.
  change (state_of (get s)) with s. change (value_of (get s)) with s.
  rewrite (for_each_possible_state (set_boost_state UNBOOST)); [reflexivity|].
  intros c s'. rewrite state_bind. by destruct (cpu_online online c).
Qed.

Lemma unboost_all_cpus_requests (online : cpumask) (s : kstate) :
  requests_of (unboost_all_cpus online s)
  = concat (map (fun c => if cpu_online online c then [UpdatePolicy c] else [])
                (possible_cpus s)).
Proof.
  unfold unboost_all_cpus. rewrite !requests_bind.
  change (state_of (get s)) with s. change (value_of (get s)) with s.
  change (requests_of (get s)) with (@nil request).
  rewrite (for_each_requests
             (fun c => if cpu_online online c then [UpdatePolicy c] else [])).
  - cbn [app]. apply app_nil_r.
  - intros c s'. rewrite requests_bind. by destruct (cpu_online online c).
Qed.

Lemma stop_remove_all_boosts_state (online : cpumask) (s : kstate) :
  state_of (stop_remove_all_boosts online s)
  = set_ib_running false
      (set_boost_info (reset_boost <$> boost_info s)
         (set_fb_boost UNBOOST
            (set_fb_boost_work None (set_boost_work false s)))).
Proof.
  unfold stop_remove_all_boosts. rewrite !state_bind.
  rewrite unboost_all_cpus_state.
  set (s1 := state_of (modify (set_fb_boost UNBOOST) _)).
  change (state_of (get s1)) with s1. change (value_of (get s1)) with s1.
  rewrite (for_each_possible_state
    (fun b => set_migration_freq 0
                (set_ib_restore_work None (set_mig_boost_rem None b)))).
  - cbn [boost_info set_boost_info]. rewrite <- list_fmap_compose. reflexivity.
  - intros c s'. rewrite !state_bind. unfold update_cpu, modify, state_of.
    cbn [fst snd boost_info set_boost_info]. rewrite !list_alter_alter_eq.
    reflexivity.
Qed.

(** ** Machine arithmetic *)

Lemma u32_small (x : Z) : 0 <= x < 2 ^ 32 -> u32 x = x.
Proof. intros H. unfold u32. by apply Z.mod_small. Qed.


Lemma num_online_cpus_nonneg (online : cpumask) : 0 <= num_online_cpus online.
Proof. unfold num_online_cpus. lia. Qed.

Ltac drv_eval :=
  cbv beta iota zeta delta
    [bind ret get modify emit skip when update_cpu per_cpu
     state_of value_of requests_of fst snd];
  cbn [boost_info fb_boost_work boost_work ib_running load_based_syncs
       suspended fb_boost boost_start_time ib_adj_duration_ms ib_duration_ms
       ib_freq_0 ib_freq_1 enabled migration_boost_ms migration_load_threshold
       ib_nr_cpus_boosted ib_nr_cpus_to_boost
       set_boost_info set_fb_boost_work set_boost_work set_ib_running
       set_load_based_syncs set_suspended set_fb_boost set_boost_start_time
       set_ib_adj_duration_ms set_ib_duration_ms set_ib_freq_0 set_ib_freq_1
       set_enabled set_migration_boost_ms set_migration_load_threshold
       set_ib_nr_cpus_boosted set_ib_nr_cpus_to_boost app].

(** ** Input boost: cycle start *)

(** One call of the cycle-start worker [ib_boost_main]: it targets two
    CPUs when exactly one CPU is online and one CPU otherwise, and sets the
    adjusted duration to configured * 3 / (3 + online count), for every
    online count (the 32-bit product configured * 3 is exact for configured
    below 2^32 / 3).  CPU0 is boosted in the same call: its status is BOOST,
    it is the one CPU counted, the cycle start time is the clock, one
    policy re-evaluation of CPU0 is requested and its restore work is
    queued for the adjusted duration plus 10 ms, which arms it for that
    delay only when it is idle. *)
Lemma ib_boost_main_cycle_start
    (s : kstate) (online : cpumask) (now : Z) (b0 : boost_policy) :
  boost_info s !! 0%nat = Some b0 ->
  0 <= ib_duration_ms s ->
  ib_duration_ms s * 3 < 2 ^ 32 ->
  3 + num_online_cpus online < 2 ^ 32 ->
  let n := num_online_cpus online in
  let adj := ib_duration_ms s * 3 / (3 + n) in
  let r := ib_boost_main online now s in
  (n = 1 -> ib_nr_cpus_to_boost (state_of r) = 2) /\
  (n <> 1 -> ib_nr_cpus_to_boost (state_of r) = 1) /\
  ib_adj_duration_ms (state_of r) = adj /\
  (exists b0',
      boost_info (state_of r) !! 0%nat = Some b0' /\
      boost_state b0' = BOOST /\
      ib_restore_work b0' = queue_delayed_work (ib_restore_work b0) (adj + 10) /\
      (ib_restore_work b0 = None -> ib_restore_work b0' = Some (adj + 10))) /\
  ib_nr_cpus_boosted (state_of r) = 1 /\
  boost_start_time (state_of r) = u64 now /\
  requests_of r = [UpdatePolicy 0].
Proof.
  intros Hb0 Hd0 Hd3 Hn n adj r.
  pose proof (num_online_cpus_nonneg online) as Hn0. fold n in Hn0, Hn.
  assert (Hadj0 : 0 <= adj) by (apply Z.div_pos; lia).
  assert (Hadj : adj <= ib_duration_ms s).
  { unfold adj. apply Z.div_le_upper_bound; nia. }
  assert (Eadj : u32 (ib_duration_ms s * 3) / u32 (3 + n) = adj).
  { rewrite !u32_small by lia. reflexivity. }
  destruct (boost_info s) as [|b rest] eqn:El; [discriminate|].
  injection Hb0 as ->.
  subst r. unfold ib_boost_main, boost_cpu0. drv_eval.
  rewrite El. fold n. rewrite Eadj.
  rewrite (u32_small (adj + 10)) by lia.
  repeat split.
  - intros ->. reflexivity.
  - intros Hne. destruct (Z.eqb_spec n 1); [contradiction|reflexivity].
  - eexists. split; [reflexivity|]. cbn. repeat split.
    by intros ->.
Qed.

(** Four CPUs online and 1400 ms configured: 600 ms. *)
Lemma ib_boost_main_cycle_start_witness :
  (boost_info cycle_config !! 0%nat = Some (boost_policy_init 0) /\
   0 <= ib_duration_ms cycle_config /\
   ib_duration_ms cycle_config * 3 < 2 ^ 32 /\
   3 + num_online_cpus online4 < 2 ^ 32) /\
  ib_adj_duration_ms (state_of (ib_boost_main online4 5000 cycle_config))
  = 1400 * 3 / (3 + 4).
Proof.
  split.
  - repeat split; vm_compute; congruence.
  - refine (proj1 (proj2 (proj2
      (ib_boost_main_cycle_start cycle_config online4 5000
         (boost_policy_init 0) _ _ _ _)))); vm_compute; congruence.
Defined.

(** C7.  A cycle start that finds CPU0's restore work pending: in the
    second cycle after a display boost the worker targets one CPU for four
    online, computes 1400 * 3 / (3 + 4) = 600 ms and boosts CPU0 at once,
    but CPU0's restore work is the one the earlier cycle armed for 3010 ms,
    not one armed for 600 + 10 ms: [unboost_all_cpus] reset the status
    without cancelling the work, and queueing a pending work does
    nothing. *)
Theorem cycle_start_keeps_pending_timer :
  ib_nr_cpus_to_boost second_cycle_state = 1 /\
  ib_adj_duration_ms second_cycle_state = 600 /\
  boost_start_time second_cycle_state = 2500 /\
  boost_state <$> boost_info second_cycle_state !! 0%nat = Some BOOST /\
  ib_restore_work <$> boost_info after_display_boost !! 0%nat
  = Some (Some 3010) /\
  ib_restore_work <$> boost_info second_cycle_state !! 0%nat
  = Some (Some 3010) /\
  ib_restore_work <$> boost_info second_cycle_state !! 0%nat
  <> Some (Some (ib_adj_duration_ms second_cycle_state + 10)).
Proof.
  repeat split; try (vm_compute; reflexivity).
  vm_compute. discriminate.
Qed.

(** ** The policy notifier *)

Lemma do_cpu_boost_fast_exit (s : kstate) (val : cpufreq_event)
    (policy : cpufreq_policy) (now : Z) :
  fast_exit s policy = true ->
  do_cpu_boost val policy now s = (policy, s, []).
Proof.
  intros H. unfold fast_exit in H.
  unfold do_cpu_boost. drv_eval. rewrite H. reflexivity.
Qed.

Lemma do_cpu_boost_other (s : kstate) (val : cpufreq_event)
    (policy : cpufreq_policy) (now : Z) :
  val <> CPUFREQ_ADJUST ->
  state_of (do_cpu_boost val policy now s) = s /\
  value_of (do_cpu_boost val policy now s) = policy.
Proof.
  intros Hval. unfold do_cpu_boost. drv_eval.
  destruct ((enabled s =? 0) && (pol_min policy =? cpuinfo_min_freq policy));
    [done|].
  destruct val; try done.
Qed.

Lemma do_cpu_boost_display (s : kstate) (policy : cpufreq_policy) (now : Z) :
  fast_exit s policy = false ->
  status_true (fb_boost s) = true ->
  do_cpu_boost CPUFREQ_ADJUST policy now s
  = (set_pol_min (pol_max policy) policy, s, []).
Proof.
  intros H Hfb. unfold fast_exit in H.
  unfold do_cpu_boost. drv_eval. rewrite H, Hfb. reflexivity.
Qed.

Lemma set_pol_min_same (p : cpufreq_policy) : set_pol_min (pol_min p) p = p.
Proof. by destruct p. Qed.

Lemma do_cpu_boost_adjust (s : kstate) (policy : cpufreq_policy) (now : Z) :
  fast_exit s policy = false ->
  status_true (fb_boost s) = false ->
  let b := default (boost_policy_init (pol_cpu policy))
                   (boost_info s !! pol_cpu policy) in
  do_cpu_boost CPUFREQ_ADJUST policy now s
  = if admission_open s (pol_cpu policy) now then
      (set_pol_min
         (raise_to_migration (migration_freq b) policy
            (Z.min (pol_max policy) (ib_freq s 1))) policy,
       state_after_admission (pol_cpu policy) (remaining_ms s now) s, [])
    else
      (set_pol_min
         (raise_to_migration (migration_freq b) policy (status_floor s b policy))
         policy,
       s, []).
Proof.
  intros H Hfb b. unfold fast_exit in H.
  assert (Hmig : forall f g,
    (forall x, migration_freq (f (g x)) = migration_freq x) ->
    migration_freq
      (default (boost_policy_init (pol_cpu policy))
         (alter f (pol_cpu policy) (alter g (pol_cpu policy) (boost_info s))
            !! pol_cpu policy))
    = migration_freq b).
  { intros f g Hfg. rewrite !list_lookup_alter_eq. subst b.
    destruct (boost_info s !! pol_cpu policy); cbn; [apply Hfg|reflexivity]. }
  unfold do_cpu_boost, admission_open. drv_eval. rewrite H, Hfb. fold b.
  destruct (ib_nr_cpus_boosted s <? ib_nr_cpus_to_boost s);
    destruct (Nat.eqb (pol_cpu policy) 0) eqn:Ec;
    destruct (0 <? remaining_ms s now) eqn:Er;
    destruct (boost_state b) eqn:Eb;
    cbn [andb negb];
    unfold status_floor, raise_to_migration, state_after_admission;
    rewrite ?Eb, ?Ec;
    drv_eval;
    cbn [pol_cpu pol_min pol_max set_pol_min cpuinfo_min_freq];
    rewrite ?Hmig by reflexivity;
    rewrite ?list_alter_alter_eq; fold b;
    repeat match goal with
           | |- context [if ?c then _ else _] => destruct c
           end;
    rewrite ?set_pol_min_same;
    reflexivity.
Qed.
(** ** Variables a function leaves alone *)

Section Preserves.
Context {X : Type} (f : kstate -> X).

Lemma preserves_ret {A} (a : A) : preserves f (ret a).
Proof. intros s. reflexivity. Qed.

Lemma preserves_get : preserves f get.
Proof. intros s. reflexivity. Qed.

Lemma preserves_emit (r : request) : preserves f (emit r).
Proof. intros s. reflexivity. Qed.

Lemma preserves_per_cpu (c : nat) : preserves f (per_cpu c).
Proof. intros s. reflexivity. Qed.

Lemma preserves_bind {A B} (m : M A) (k : A -> M B) :
  preserves f m -> (forall a, preserves f (k a)) -> preserves f (bind m k).
Proof. intros Hm Hk s. rewrite state_bind, Hk. apply Hm. Qed.

Lemma preserves_modify (g : kstate -> kstate) :
  (forall s, f (g s) = f s) -> preserves f (modify g).
Proof. intros Hg s. apply Hg. Qed.

Lemma preserves_update_cpu (c : nat) (g : boost_policy -> boost_policy) :
  (forall l s, f (set_boost_info l s) = f s) -> preserves f (update_cpu c g).
Proof. intros Hf s. apply Hf. Qed.

Lemma preserves_when (c : bool) (m : M unit) :
  preserves f m -> preserves f (when c m).
Proof. intros Hm. destruct c; [exact Hm|apply preserves_ret]. Qed.

Lemma preserves_for_each (cpus : list nat) (body : nat -> M unit) :
  (forall c, preserves f (body c)) -> preserves f (for_each cpus body).
Proof.
  intros Hbody. induction cpus as [|c rest IH]; [apply preserves_ret|].
  apply preserves_bind; [apply Hbody|intros _; exact IH].
Qed.

End Preserves.

Ltac preserves_step :=
  first
    [ apply preserves_ret
    | apply preserves_get
    | apply preserves_emit
    | apply preserves_per_cpu
    | apply preserves_bind; [|intros ?]
    | apply preserves_for_each; intros ?
    | apply preserves_when
    | apply preserves_update_cpu; intros ? ?; reflexivity
    | apply preserves_modify; intros ?; reflexivity
    | match goal with
      | |- preserves _ (if ?c then _ else _) => destruct c
      | |- preserves _ (match ?c with _ => _ end) => destruct c
      end ].

Ltac preserves_auto := unfold skip; repeat preserves_step.

Lemma unboost_all_cpus_preserves {X} (f : kstate -> X) (online : cpumask) :
  (forall l s, f (set_boost_info l s) = f s) ->
  (forall v s, f (set_ib_running v s) = f s) ->
  preserves f (unboost_all_cpus online).
Proof.
  intros H1 H2 s. rewrite unboost_all_cpus_state. by rewrite H2, H1.
Qed.

Ltac unfold_driver :=
  unfold step, cpu_ib_input_event, ib_boost_main, boost_cpu0, ib_restore_main,
    unboost_cpu, fb_blank_boost, fb_boost_main, unboost_all_cpus,
    do_mig_boost_rem, boost_migration_notify, boost_mig_sync_thread,
    sysfs_write, enabled_write, ib_freqs_write, ib_duration_ms_write,
    load_based_syncs_write, migration_boost_ms_write,
    migration_load_threshold_write, stop_remove_all_boosts.


(** The master switch is written through sysfs only, the display boost
    state by the framebuffer notifier, its work and the switch. *)
Lemma step_preserves_switches (sscanf : string -> string -> list Z) (e : event) :
  match e with
  | FbNotify _ _ | RunFbWork _ | SysfsWrite attr_enabled _ _ _ => False
  | _ => True
  end ->
  preserves (fun s => (enabled s, fb_boost s)) (step sscanf e).
Proof.
  intros He.
  destruct e as [| | | | |val policy now| | | |a online buf size];
    try contradiction.
  - unfold_driver; preserves_auto.
  - unfold_driver; preserves_auto.
  - unfold_driver; preserves_auto.
  - unfold step. apply preserves_bind; [|intros ?; apply preserves_ret].
    unfold do_cpu_boost. preserves_auto.
  - unfold_driver; preserves_auto.
  - unfold_driver; preserves_auto.
  - unfold_driver; preserves_auto.
  - destruct a; try contradiction; unfold_driver; preserves_auto.
Qed.

(** ** Display boost and the master switch *)

Lemma step_display_needs_switch (sscanf : string -> string -> list Z)
    (e : event) (s : kstate) :
  display_needs_switch s -> display_needs_switch (state_of (step sscanf e s)).
Proof.
  intros Hs.
  assert (Hkeep : preserves (fun s => (enabled s, fb_boost s)) (step sscanf e) ->
                  display_needs_switch (state_of (step sscanf e s))).
  { intros Hp. specialize (Hp s). injection Hp as He Hf.
    unfold display_needs_switch. by rewrite He, Hf. }
  destruct e as [| | |val blank|online| | | | |a online buf size];
    try (apply Hkeep, step_preserves_switches; exact I).
  - (* framebuffer notifier: it acts only with the switch on *)
    assert (He : preserves (fun s => enabled s) (fb_blank_boost val blank))
      by (unfold_driver; preserves_auto).
    unfold step, display_needs_switch. rewrite (He s).
    destruct (Z.eqb_spec (enabled s) 0) as [E0|]; [|done].
    unfold fb_blank_boost. drv_eval. rewrite E0. cbn.
    intros Hf _. exact (Hs Hf E0).
  - (* display work *)
    unfold step. rewrite state_bind.
    change (state_of (get s)) with s. change (value_of (get s)) with s.
    destruct (fb_boost_work s) as [d|] eqn:Ew; [|exact Hs].
    rewrite state_bind.
    set (s1 := state_of (modify (set_fb_boost_work None) s)).
    assert (Hs1 : enabled s1 = enabled s /\ fb_boost s1 = fb_boost s) by done.
    destruct Hs1 as [He1 Hf1].
    assert (He : preserves (fun s => enabled s) (fb_boost_main online))
      by (unfold_driver; preserves_auto).
    unfold display_needs_switch. rewrite (He s1), He1.
    destruct (Z.eqb_spec (enabled s) 0) as [E0|]; [|done].
    assert (Hoff : fb_boost s = UNBOOST).
    { destruct (fb_boost s) eqn:Ef; [reflexivity| |];
        exfalso; (apply Hs; [by rewrite Ef|exact E0]). }
    unfold fb_boost_main. rewrite state_bind.
    change (state_of (get s1)) with s1. change (value_of (get s1)) with s1.
    rewrite Hf1, Hoff. cbn [boost_status_eqb]. rewrite state_bind.
    rewrite (unboost_all_cpus_preserves (fun s => fb_boost s)) by reflexivity.
    cbn. discriminate.
  - (* sysfs *)
    destruct a; try solve [apply Hkeep; unfold_driver; preserves_auto].
    unfold step, sysfs_write. rewrite state_bind.
    change (state_of (skip ?x)) with x.
    unfold enabled_write.
    destruct (sscanf "%u"%string buf) as [|data [|? ?]]; try exact Hs.
    rewrite !state_bind.
    set (s1 := state_of (modify (set_enabled data) s)).
    change (state_of (get s1)) with s1. change (value_of (get s1)) with s1.
    change (state_of (ret size ?x)) with x.
    change (enabled s1) with data.
    destruct (Z.eqb_spec data 0) as [E0|Ene]; cbn [when].
    + rewrite stop_remove_all_boosts_state.
      unfold display_needs_switch. cbn. discriminate.
    + unfold display_needs_switch. cbn. intros _. exact Ene.
Qed.

Lemma run_display_needs_switch (sscanf : string -> string -> list Z)
    (es : list event) (s : kstate) :
  display_needs_switch s -> display_needs_switch (state_of (run sscanf es s)).
Proof.
  revert s. induction es as [|e rest IH]; intros s Hs; [exact Hs|].
  cbn [run]. rewrite state_bind. apply IH, step_display_needs_switch, Hs.
Qed.

Lemma init_display_needs_switch (nr_cpus : nat) :
  display_needs_switch (cpu_ib_init nr_cpus).
Proof. unfold display_needs_switch. cbn. discriminate. Qed.

(** C6.  In every state the driver reaches from start-up, and with any
    per-CPU records whatever (any status, any migration floor, for every
    CPU), a policy evaluation made while the display boost is ACTIVE
    ([BOOST]) or in COOLDOWN ([WAITING]) returns the policy maximum as the
    floor and changes nothing. *)
Theorem display_boost_requests_max (sscanf : string -> string -> list Z)
    (es : list event) (nr_cpus : nat) (info : list boost_policy)
    (policy : cpufreq_policy) (now : Z) :
  fb_boost (state_of (run sscanf es (cpu_ib_init nr_cpus))) = BOOST \/
  fb_boost (state_of (run sscanf es (cpu_ib_init nr_cpus))) = WAITING ->
  do_cpu_boost CPUFREQ_ADJUST policy now
    (set_boost_info info (state_of (run sscanf es (cpu_ib_init nr_cpus))))
  = (set_pol_min (pol_max policy) policy,
     set_boost_info info (state_of (run sscanf es (cpu_ib_init nr_cpus))),
     []).
Proof.
  intros Hfb.
  pose proof (run_display_needs_switch sscanf es _
                (init_display_needs_switch nr_cpus)) as Hinv.
  set (s := state_of (run sscanf es (cpu_ib_init nr_cpus))) in *.
  assert (Hon : status_true (fb_boost s) = true)
    by (destruct Hfb as [-> | ->]; reflexivity).
  apply do_cpu_boost_display; [|exact Hon].
  unfold fast_exit. cbn [enabled set_boost_info].
  destruct (Z.eqb_spec (enabled s) 0) as [E0|]; [|reflexivity].
  exfalso. exact (Hinv Hon E0).
Qed.

(** After an unblank, CPU1 with an input boost and a migration floor is
    given its maximum of 2.0 GHz. *)
Lemma display_boost_requests_max_witness :
  (fb_boost (state_of (run decimal_sscanf display_trace (cpu_ib_init 4))) = BOOST \/
   fb_boost (state_of (run decimal_sscanf display_trace (cpu_ib_init 4))) = WAITING) /\
  pol_min (value_of
    (do_cpu_boost CPUFREQ_ADJUST (policy_of 1 300000) 5000
       (set_boost_info busy_info
          (state_of (run decimal_sscanf display_trace (cpu_ib_init 4))))))
  = 2000000.
Proof.
  split.
  - left. vm_compute. reflexivity.
  - rewrite (display_boost_requests_max decimal_sscanf display_trace 4
               busy_info (policy_of 1 300000) 5000).
    + reflexivity.
    + left. vm_compute. reflexivity.
Defined.

(** ** The fast exit of the notifier *)

Lemma fast_exit_off (s : kstate) (policy : cpufreq_policy) :
  enabled s <> 0 \/ pol_min policy <> cpuinfo_min_freq policy ->
  fast_exit s policy = false.
Proof.
  intros H. unfold fast_exit.
  destruct (Z.eqb_spec (enabled s) 0) as [He|He]; [|reflexivity].
  destruct (Z.eqb_spec (pol_min policy) (cpuinfo_min_freq policy)) as [Hm|Hm];
    [|reflexivity].
  destruct H; contradiction.
Qed.

(** C10.  The notifier leaves at once, whatever the event, when the master
    switch is off and the current floor already is the hardware minimum,
    and only then: with the switch on, or with the switch off and a floor
    that is not the hardware minimum, an evaluation runs the whole
    arbitration.  A display boost flag left on gives the maximum;
    otherwise the result is the status floor or, when the admission
    conditions hold, an admission with the other-CPU frequency as floor,
    in both cases raised to the migration floor when that is higher.  With
    status UNBOOST, no migration floor and no admission the floor is back
    at the hardware minimum. *)
Theorem disabled_notifier (s : kstate) (policy : cpufreq_policy) (now : Z) :
  let c := pol_cpu policy in
  let b := default (boost_policy_init c) (boost_info s !! c) in
  let r := do_cpu_boost CPUFREQ_ADJUST policy now s in
  (enabled s = 0 -> pol_min policy = cpuinfo_min_freq policy ->
   forall val, do_cpu_boost val policy now s = (policy, s, [])) /\
  (enabled s <> 0 \/ pol_min policy <> cpuinfo_min_freq policy ->
   (status_true (fb_boost s) = true ->
    r = (set_pol_min (pol_max policy) policy, s, [])) /\
   (status_true (fb_boost s) = false ->
    admission_open s c now = false ->
    state_of r = s /\
    pol_min (value_of r)
    = raise_to_migration (migration_freq b) policy (status_floor s b policy)) /\
   (status_true (fb_boost s) = false ->
    admission_open s c now = true ->
    state_of r = state_after_admission c (remaining_ms s now) s /\
    pol_min (value_of r)
    = raise_to_migration (migration_freq b) policy
        (Z.min (pol_max policy) (ib_freq s 1))) /\
   (status_true (fb_boost s) = false ->
    admission_open s c now = false ->
    boost_state b = UNBOOST ->
    migration_freq b = 0 ->
    0 <= cpuinfo_min_freq policy ->
    state_of r = s /\ pol_min (value_of r) = cpuinfo_min_freq policy)).
Proof.
  intros c b r. split.
  - intros He Hmin val. apply do_cpu_boost_fast_exit.
    unfold fast_exit. rewrite He, Hmin, !Z.eqb_refl. reflexivity.
  - intros Hpast. pose proof (fast_exit_off s policy Hpast) as Hfast.
    split; [|split; [|split]].
    + intros Hfb. by apply do_cpu_boost_display.
    + intros Hfb Hadm. subst r.
      rewrite (do_cpu_boost_adjust s policy now Hfast Hfb).
      fold c. rewrite Hadm. split; reflexivity.
    + intros Hfb Hadm. subst r.
      rewrite (do_cpu_boost_adjust s policy now Hfast Hfb).
      fold c. rewrite Hadm. split; reflexivity.
    + intros Hfb Hadm Hst Hmig Hhw. subst r.
      rewrite (do_cpu_boost_adjust s policy now Hfast Hfb).
      fold c. rewrite Hadm. split; [reflexivity|].
      cbn [value_of fst pol_min set_pol_min]. fold b.
      unfold raise_to_migration, status_floor. rewrite Hmig, Hst.
      destruct (Z.ltb_spec (cpuinfo_min_freq policy) 0); [lia|reflexivity].
Qed.

(** The switch is turned off in the middle of a cycle that waits for a
    second CPU; CPU1 is evaluated 100 ms into the cycle with a floor of
    0.4 GHz and leaves with the other-CPU frequency of 1.2 GHz. *)
Lemma disabled_notifier_witness :
  (enabled switched_off_state = 0 /\
   pol_min raised_policy <> cpuinfo_min_freq raised_policy /\
   status_true (fb_boost switched_off_state) = false /\
   admission_open switched_off_state (pol_cpu raised_policy) 1100 = true) /\
  pol_min (value_of (do_cpu_boost CPUFREQ_ADJUST raised_policy 1100
                       switched_off_state)) = 1200000.
Proof.
  split; [repeat split; vm_compute; congruence|].
  destruct (disabled_notifier switched_off_state raised_policy 1100)
    as [_ Hfull].
  destruct Hfull as (_ & _ & Hadm & _); [right; vm_compute; congruence|].
  destruct Hadm as [_ Hmin]; [vm_compute; reflexivity..|].
  rewrite Hmin. vm_compute. reflexivity.
Defined.

(** ** Admission of a second CPU *)







Lemma admission_open_iff (s : kstate) (c : nat) (now : Z) :
  admission_open s c now = true <->
  ib_nr_cpus_boosted s < ib_nr_cpus_to_boost s /\ c <> 0%nat /\
  0 < remaining_ms s now.
Proof.
  unfold admission_open.
  rewrite !andb_true_iff, negb_true_iff, Z.ltb_lt, Z.ltb_lt, Nat.eqb_neq.
  tauto.
Qed.





(** The notifier admits with the master switch off when the floor it is
    given is not the hardware minimum: in the lone cycle, after the switch
    is turned off, CPU1 is marked BOOST, counted and given a restore work. *)
Example admission_with_switch_off :
  enabled switched_off_state = 0 /\
  state_of (do_cpu_boost CPUFREQ_ADJUST raised_policy 1100 switched_off_state)
  = state_after_admission 1 950 switched_off_state /\
  boost_info (state_after_admission 1 950 switched_off_state) !! 1%nat
  = Some (mkBoostPolicy (Some 950) None false 0 BOOST 1 0 0 0).
Proof. vm_compute. repeat split; reflexivity. Qed.

(** ** The migration sync thread *)

Lemma boost_mig_sync_thread_pending
    (get_policy : nat -> option cpufreq_policy) (online : cpumask)
    (dest : nat) (s : kstate) (b : boost_policy)
    (src_policy dest_policy : cpufreq_policy) :
  boost_info s !! dest = Some b ->
  pending b = true ->
  get_policy (src_cpu b) = Some src_policy ->
  get_policy dest = Some dest_policy ->
  let req := req_freq dest_policy src_policy (task_load b) in
  boost_mig_sync_thread get_policy online dest s
  = if req <=? cpuinfo_min_freq dest_policy then
      (tt, set_boost_info (alter (set_pending false) dest (boost_info s)) s, [])
    else
      (tt,
       set_boost_info
         (alter (apply_migration (cpu_online online dest) req
                   (migration_boost_ms s))
                dest (boost_info s)) s,
       (if cpu_online online (src_cpu b) then [UpdatePolicy (src_cpu b)] else [])
       ++ (if cpu_online online dest then [UpdatePolicy dest] else [])).
Proof.
  intros Hb Hpend Hsrc Hdest req.
  unfold boost_mig_sync_thread. drv_eval.
  rewrite Hb. cbn [default from_option id]. rewrite Hpend. cbn [negb].
  drv_eval. rewrite Hsrc, Hdest. fold req.
  destruct (req <=? cpuinfo_min_freq dest_policy); [reflexivity|].
  unfold apply_migration.
  destruct (cpu_online online (src_cpu b)), (cpu_online online dest);
    drv_eval; rewrite !list_alter_alter_eq; reflexivity.
Qed.

Lemma fmap_alter_same {B} (f : boost_policy -> B)
    (g : boost_policy -> boost_policy) (i : nat) (l : list boost_policy) :
  (forall x, f (g x) = f x) -> f <$> alter g i l = f <$> l.
Proof.
  intros Hfg. rewrite (list_fmap_alter f g id).
  - by apply list_alter_id.
  - apply Forall_forall. intros x _. apply Hfg.
Qed.

(** C8.  A pending request whose candidate floor
    max(destination max * load / 100, source frequency) does not exceed the
    destination's hardware minimum is dropped: the thread only drains the
    mailbox.  No migration floor and no removal work changes, on any CPU,
    and no policy re-evaluation is requested. *)
Theorem migration_request_discarded
    (get_policy : nat -> option cpufreq_policy) (online : cpumask)
    (dest : nat) (s : kstate) (b : boost_policy)
    (src_policy dest_policy : cpufreq_policy) :
  boost_info s !! dest = Some b ->
  pending b = true ->
  get_policy (src_cpu b) = Some src_policy ->
  get_policy dest = Some dest_policy ->
  req_freq dest_policy src_policy (task_load b) <= cpuinfo_min_freq dest_policy ->
  let r := boost_mig_sync_thread get_policy online dest s in
  state_of r = set_boost_info (alter (set_pending false) dest (boost_info s)) s /\
  migration_freq <$> boost_info (state_of r) = migration_freq <$> boost_info s /\
  mig_boost_rem <$> boost_info (state_of r) = mig_boost_rem <$> boost_info s /\
  requests_of r = [].
Proof.
  intros Hb Hpend Hsrc Hdest Hreq r. subst r.
  rewrite (boost_mig_sync_thread_pending _ _ _ _ _ _ _ Hb Hpend Hsrc Hdest).
  apply Z.leb_le in Hreq. rewrite Hreq.
  cbn [state_of requests_of fst snd boost_info set_boost_info].
  repeat split; by apply fmap_alter_same.
Qed.

(** A request for CPU2 from a source that runs at the hardware minimum
    leaves CPU2's earlier floor of 1.2 GHz and its removal work alone. *)
Lemma migration_request_discarded_witness :
  (boost_info pending_state !! 2%nat
   = Some (mkBoostPolicy None (Some 40) true 0 UNBOOST 2 1200000 0 0) /\
   req_freq (policy_of 2 300000) (policy_of 0 300000) 0
   <= cpuinfo_min_freq (policy_of 2 300000)) /\
  migration_freq
    <$> boost_info (state_of (boost_mig_sync_thread idle_policies online4 2
                                pending_state))
  = [0; 0; 1200000; 0].
Proof.
  split; [split; vm_compute; congruence|].
  rewrite (proj1 (proj2
    (migration_request_discarded idle_policies online4 2 pending_state
       (mkBoostPolicy None (Some 40) true 0 UNBOOST 2 1200000 0 0)
       (policy_of 0 300000) (policy_of 2 300000)
       eq_refl eq_refl eq_refl eq_refl ltac:(vm_compute; congruence)))).
  reflexivity.
Defined.

(** C9.  When a request is applied (both policies are read and the
    candidate exceeds the hardware minimum) and the destination is offline,
    the thread leaves the destination with no migration floor and no
    removal work pending, and requests a policy re-evaluation of the source
    alone, when the source is online. *)
Theorem migration_to_offline_cpu
    (get_policy : nat -> option cpufreq_policy) (online : cpumask)
    (dest : nat) (s : kstate) (b : boost_policy)
    (src_policy dest_policy : cpufreq_policy) :
  boost_info s !! dest = Some b ->
  pending b = true ->
  get_policy (src_cpu b) = Some src_policy ->
  get_policy dest = Some dest_policy ->
  cpuinfo_min_freq dest_policy < req_freq dest_policy src_policy (task_load b) ->
  cpu_online online dest = false ->
  let r := boost_mig_sync_thread get_policy online dest s in
  (exists b',
      boost_info (state_of r) !! dest = Some b' /\
      migration_freq b' = 0 /\
      mig_boost_rem b' = None /\
      pending b' = false) /\
  requests_of r
  = (if cpu_online online (src_cpu b) then [UpdatePolicy (src_cpu b)] else []).
Proof.
  intros Hb Hpend Hsrc Hdest Hreq Hoff r. subst r.
  rewrite (boost_mig_sync_thread_pending _ _ _ _ _ _ _ Hb Hpend Hsrc Hdest).
  apply Z.leb_gt in Hreq. rewrite Hreq, Hoff.
  cbn [state_of requests_of fst snd boost_info set_boost_info].
  split.
  - eexists. rewrite list_lookup_alter_eq, Hb. cbn. auto.
  - apply app_nil_r.
Qed.

(** CPU2 is offline when the thread applies a request from CPU0, which
    runs at 1.2 GHz. *)
Lemma migration_to_offline_cpu_witness :
  (boost_info pending_state !! 2%nat
   = Some (mkBoostPolicy None (Some 40) true 0 UNBOOST 2 1200000 0 0) /\
   cpuinfo_min_freq (policy_of 2 300000)
   < req_freq (policy_of 2 300000) (policy_of 0 1200000) 0 /\
   cpu_online online_but_2 2 = false) /\
  boost_info (state_of (boost_mig_sync_thread scenario_policies online_but_2 2
                          pending_state)) !! 2%nat
  = Some (mkBoostPolicy None None false 0 UNBOOST 2 0 0 0) /\
  requests_of (boost_mig_sync_thread scenario_policies online_but_2 2
                 pending_state) = [UpdatePolicy 0].
Proof.
  split; [repeat split; vm_compute; congruence|].
  destruct (migration_to_offline_cpu scenario_policies online_but_2 2
              pending_state
              (mkBoostPolicy None (Some 40) true 0 UNBOOST 2 1200000 0 0)
              (policy_of 0 1200000) (policy_of 2 300000)
              eq_refl eq_refl eq_refl eq_refl
              ltac:(vm_compute; congruence) eq_refl) as [_ Hreq].
  split; [vm_compute; reflexivity|exact Hreq].
Defined.

(** ** Migration boost without load gating *)

Lemma boost_migration_notify_ungated (s : kstate) (mnd : migration_notify_data)
    (b : boost_policy) :
  enabled s <> 0 ->
  migration_boost_ms s <> 0 ->
  suspended s = false ->
  fb_boost s = UNBOOST ->
  load_based_syncs s = false ->
  boost_info s !! mnd_dest_cpu mnd = Some b ->
  exists b1,
    boost_info (state_of (boost_migration_notify mnd false s)) !! mnd_dest_cpu mnd
    = Some b1 /\
    pending b1 = true /\
    src_cpu b1 = mnd_src_cpu mnd /\
    task_load b1 = 0 /\
    migration_boost_ms (state_of (boost_migration_notify mnd false s))
    = migration_boost_ms s.
Proof.
  intros Hen Hms Hsus Hfb Hlbs Hb.
  unfold boost_migration_notify. drv_eval.
  destruct (Z.eqb_spec (enabled s) 0); [contradiction|].
  destruct (Z.eqb_spec (migration_boost_ms s) 0); [contradiction|].
  rewrite Hsus, Hfb, Hlbs. cbn [orb andb status_true boost_status_eqb negb].
  drv_eval. rewrite !list_lookup_alter_eq, Hb.
  cbn [fmap option_fmap option_map default from_option id being_woken
       set_task_load set_src_cpu set_pending].
  destruct (being_woken b =? 0); drv_eval;
    rewrite !list_lookup_alter_eq, Hb; cbn; eexists; repeat split.
Qed.

(** C1, amended.  With load gating off the notifier passes every migration
    and records load 0 in the mailbox, whatever load the event reports, so
    the candidate floor of the thread is the source's current frequency.
    When that exceeds the destination's hardware minimum and the
    destination is online, the migration floor is set to it and the
    removal work is pending with the configured migration boost duration. *)
Theorem migration_boost_without_load_gating
    (s : kstate) (mnd : migration_notify_data)
    (get_policy : nat -> option cpufreq_policy) (online : cpumask)
    (b : boost_policy) (src_policy dest_policy : cpufreq_policy) :
  enabled s <> 0 ->
  migration_boost_ms s <> 0 ->
  suspended s = false ->
  fb_boost s = UNBOOST ->
  load_based_syncs s = false ->
  boost_info s !! mnd_dest_cpu mnd = Some b ->
  get_policy (mnd_src_cpu mnd) = Some src_policy ->
  get_policy (mnd_dest_cpu mnd) = Some dest_policy ->
  0 <= pol_cur src_policy ->
  let dest := mnd_dest_cpu mnd in
  let s1 := state_of (boost_migration_notify mnd false s) in
  let r := boost_mig_sync_thread get_policy online dest s1 in
  (exists b1,
      boost_info s1 !! dest = Some b1 /\ pending b1 = true /\
      src_cpu b1 = mnd_src_cpu mnd /\ task_load b1 = 0) /\
  req_freq dest_policy src_policy 0 = pol_cur src_policy /\
  (cpuinfo_min_freq dest_policy < pol_cur src_policy ->
   cpu_online online dest = true ->
   exists b2,
     boost_info (state_of r) !! dest = Some b2 /\
     migration_freq b2 = pol_cur src_policy /\
     mig_boost_rem b2 = Some (migration_boost_ms s) /\
     pending b2 = false).
Proof.
  intros Hen Hms Hsus Hfb Hlbs Hb Hsrc Hdest Hcur dest s1 r.
  destruct (boost_migration_notify_ungated s mnd b Hen Hms Hsus Hfb Hlbs Hb)
    as (b1 & Hb1 & Hpend & Hsrc1 & Hload1 & Hms1).
  fold dest s1 in Hb1, Hms1.
  assert (Hreq : req_freq dest_policy src_policy 0 = pol_cur src_policy).
  { unfold req_freq. rewrite Z.mul_0_r. change (u32 0 / 100) with 0. lia. }
  split; [eauto|]. split; [exact Hreq|].
  intros Hmin Hon. subst r.
  rewrite <- Hsrc1 in Hsrc.
  rewrite (boost_mig_sync_thread_pending _ _ _ _ _ _ _ Hb1 Hpend Hsrc Hdest).
  rewrite Hload1, Hreq.
  apply Z.leb_gt in Hmin. rewrite Hmin.
  cbn [state_of fst snd boost_info set_boost_info].
  eexists. rewrite list_lookup_alter_eq, Hb1. fold dest. rewrite Hon, Hms1.
  cbn. auto.
Qed.

(** The scenario: the floor of CPU2 is CPU0's 1.2 GHz. *)
Lemma migration_boost_without_load_gating_witness :
  (enabled migration_config <> 0 /\
   migration_boost_ms migration_config <> 0 /\
   suspended migration_config = false /\
   fb_boost migration_config = UNBOOST /\
   load_based_syncs migration_config = false /\
   boost_info migration_config !! mnd_dest_cpu scenario_mnd
   = Some (boost_policy_init 2) /\
   0 <= pol_cur (policy_of 0 1200000)) /\
  migration_freq
    <$> boost_info
          (state_of (boost_mig_sync_thread scenario_policies online4 2
                       (state_of (boost_migration_notify scenario_mnd false
                                    migration_config)))) !! 2%nat
  = Some 1200000.
Proof.
  split; [repeat split; vm_compute; congruence|].
  pose proof (migration_boost_without_load_gating migration_config scenario_mnd
                scenario_policies online4 (boost_policy_init 2)
                (policy_of 0 1200000) (policy_of 2 300000)
                ltac:(vm_compute; congruence) ltac:(vm_compute; congruence)
                eq_refl eq_refl eq_refl eq_refl eq_refl eq_refl
                ltac:(vm_compute; congruence)) as (_ & _ & Happly).
  destruct Happly as (b2 & Hb2 & Hfreq & _);
    [vm_compute; congruence|vm_compute; congruence|].
  change (mnd_dest_cpu scenario_mnd) with 2%nat in Hb2.
  rewrite Hb2. cbn [fmap option_fmap option_map]. rewrite Hfreq. reflexivity.
Defined.

(** In the scenario the specification expects a floor of 1.6 GHz from the
    reported load of 80 %; the driver applies 1.2 GHz, with the removal
    work pending for the configured 40 ms. *)
Lemma scenario_floor_is_not_load_based :
  migration_floor_as_specified scenario_mnd (policy_of 0 1200000)
    (policy_of 2 300000) = 1600000 /\
  boost_info (fst scenario_result) !! 2%nat
  = Some (mkBoostPolicy None (Some 40) false 0 UNBOOST 2 1200000 0 0) /\
  migration_freq <$> boost_info (fst scenario_result) !! 2%nat
  <> Some (migration_floor_as_specified scenario_mnd (policy_of 0 1200000)
             (policy_of 2 300000)).
Proof. vm_compute. repeat split; congruence. Qed.

(** ** Display boost and the per-CPU state *)

Lemma for_each_emit_state (cpus : list nat) (req : nat -> request) (s : kstate) :
  state_of (for_each cpus (fun c => emit (req c)) s) = s.
Proof.
  rewrite (for_each_state (fun _ s' => s')); [|reflexivity].
  induction cpus as [|c rest IH]; [reflexivity|exact IH].
Qed.

Lemma fb_boost_main_active (online : cpumask) (s : kstate) :
  fb_boost s = BOOST ->
  state_of (fb_boost_main online s)
  = set_fb_boost_work (queue_delayed_work (fb_boost_work s) FB_BOOST_MS)
      (set_fb_boost WAITING s).
Proof.
  intros Hfb. unfold fb_boost_main. rewrite state_bind.
  change (state_of (get s)) with s. change (value_of (get s)) with s.
  rewrite Hfb. cbn [boost_status_eqb].
  rewrite !state_bind, for_each_emit_state. reflexivity.
Qed.

Lemma fb_boost_main_expiry (online : cpumask) (s : kstate) :
  fb_boost s <> BOOST ->
  state_of (fb_boost_main online s)
  = set_ib_running false
      (set_boost_info (set_boost_state UNBOOST <$> boost_info s)
         (set_fb_boost UNBOOST s)).
Proof.
  intros Hfb. unfold fb_boost_main. rewrite state_bind.
  change (state_of (get s)) with s. change (value_of (get s)) with s.
  destruct (fb_boost s) eqn:Ef; try contradiction; cbn [boost_status_eqb];
    rewrite state_bind, unboost_all_cpus_state; reflexivity.
Qed.

(** C2, amended.  The display boost, while ACTIVE or in COOLDOWN, only
    overrides the floor returned to the governor: the unblank notification,
    the boost work that moves it from ACTIVE to COOLDOWN and a policy
    evaluation under it write no per-CPU record and not the running flag
    of the input cycle, and the evaluation returns the policy with at most
    its minimum changed, to the maximum.  When the cooldown window is over
    the boost work turns the display boost OFF, sets the input-boost status
    of every CPU to UNBOOST and clears the running flag; every migration
    floor is left as it is. *)
Theorem display_boost_frame (s : kstate) (online : cpumask) :
  (fb_boost s = BOOST ->
   fb_boost (state_of (fb_boost_main online s)) = WAITING /\
   boost_info (state_of (fb_boost_main online s)) = boost_info s /\
   ib_running (state_of (fb_boost_main online s)) = ib_running s) /\
  (fb_boost s = WAITING ->
   fb_boost (state_of (fb_boost_main online s)) = UNBOOST /\
   boost_state <$> boost_info (state_of (fb_boost_main online s))
   = (fun _ => UNBOOST) <$> boost_info s /\
   ib_running (state_of (fb_boost_main online s)) = false /\
   migration_freq <$> boost_info (state_of (fb_boost_main online s))
   = migration_freq <$> boost_info s) /\
  (forall policy now,
     fb_boost s <> UNBOOST ->
     state_of (do_cpu_boost CPUFREQ_ADJUST policy now s) = s /\
     (value_of (do_cpu_boost CPUFREQ_ADJUST policy now s) = policy \/
      value_of (do_cpu_boost CPUFREQ_ADJUST policy now s)
      = set_pol_min (pol_max policy) policy)) /\
  (forall val blank,
     boost_info (state_of (fb_blank_boost val blank s)) = boost_info s /\
     ib_running (state_of (fb_blank_boost val blank s)) = ib_running s).
Proof.
  split; [|split; [|split]].
  - intros Hfb. rewrite fb_boost_main_active by exact Hfb. auto.
  - intros Hfb. rewrite fb_boost_main_expiry by congruence.
    cbn [fb_boost boost_info ib_running set_ib_running set_boost_info
         set_fb_boost].
    rewrite <- !list_fmap_compose. repeat split; reflexivity.
  - intros policy now Hfb.
    destruct (fast_exit s policy) eqn:Hfast.
    + rewrite do_cpu_boost_fast_exit by exact Hfast. auto.
    + rewrite do_cpu_boost_display; [auto|exact Hfast|].
      by destruct (fb_boost s).
  - intros val blank.
    assert (Hp : preserves (fun s => (boost_info s, ib_running s))
                   (fb_blank_boost val blank))
      by (unfold_driver; preserves_auto).
    specialize (Hp s). cbv beta in Hp. by injection Hp.
Qed.

(** The cooldown window of a display boost that started during the long
    cycle ends: CPU0 loses its input boost. *)
Lemma display_boost_frame_witness :
  fb_boost cooldown_state = WAITING /\
  boost_state <$> boost_info cooldown_state = [BOOST; UNBOOST; UNBOOST; UNBOOST] /\
  fb_boost (state_of (fb_boost_main online4 cooldown_state)) = UNBOOST /\
  boost_state <$> boost_info (state_of (fb_boost_main online4 cooldown_state))
  = [UNBOOST; UNBOOST; UNBOOST; UNBOOST] /\
  ib_running (state_of (fb_boost_main online4 cooldown_state)) = false.
Proof.
  split; [vm_compute; reflexivity|]. split; [vm_compute; reflexivity|].
  destruct (display_boost_frame cooldown_state online4) as (_ & Hexp & _).
  destruct Hexp as (Hoff & Hinfo & Hrun & _); [vm_compute; reflexivity|].
  split; [exact Hoff|]. split; [|exact Hrun].
  rewrite Hinfo. vm_compute. reflexivity.
Defined.

(** CPU0 is input-boosted for 3 s when the display unblanks; when the
    cooldown is over its status is UNBOOST and the cycle is marked as
    finished, with its restore work still pending. *)
Lemma display_boost_clears_input_boost :
  boost_state <$> boost_info before_display_boost
  = [BOOST; UNBOOST; UNBOOST; UNBOOST] /\
  ib_running before_display_boost = true /\
  fb_boost after_display_boost = UNBOOST /\
  boost_state <$> boost_info after_display_boost
  = [UNBOOST; UNBOOST; UNBOOST; UNBOOST] /\
  ib_running after_display_boost = false /\
  ib_restore_work <$> boost_info after_display_boost
  = [Some 3010; None; None; None] /\
  ~ inputs_restored before_display_boost after_display_boost.
Proof.
  repeat split; try (vm_compute; reflexivity).
  intros (Hstate & _). vm_compute in Hstate. discriminate.
Qed.

(** ** The master switch *)

Lemma concat_map_nil {A} (l : list A) :
  concat (map (fun _ => @nil request) l) = [].
Proof. induction l as [|x l IH]; [reflexivity|exact IH]. Qed.

Lemma stop_remove_all_boosts_requests (online : cpumask) (s : kstate) :
  requests_of (stop_remove_all_boosts online s)
  = concat (map (fun c => if cpu_online online c then [UpdatePolicy c] else [])
                (possible_cpus s)).
Proof.
  unfold stop_remove_all_boosts. rewrite !requests_bind, ?state_bind.
  rewrite unboost_all_cpus_requests.
  set (s1 := state_of (modify (set_fb_boost UNBOOST) _)).
  change (state_of (get s1)) with s1. change (value_of (get s1)) with s1.
  rewrite (for_each_requests (fun _ => [])), concat_map_nil
    by (intros c s'; reflexivity).
  rewrite (for_each_possible_state
    (fun b => set_migration_freq 0
                (set_ib_restore_work None (set_mig_boost_rem None b)))).
  - unfold possible_cpus. cbn [boost_info set_boost_info].
    rewrite length_fmap. reflexivity.
  - intros c s'. rewrite !state_bind. unfold update_cpu, modify, state_of.
    cbn [fst snd boost_info set_boost_info]. rewrite !list_alter_alter_eq.
    reflexivity.
Qed.

Lemma enabled_write_off (sscanf : string -> string -> list Z)
    (online : cpumask) (buf : string) (size : Z) (s : kstate) :
  sscanf "%u"%string buf = [0] ->
  value_of (enabled_write sscanf online buf size s) = size /\
  state_of (enabled_write sscanf online buf size s)
  = set_ib_running false
      (set_boost_info (reset_boost <$> boost_info s)
         (set_fb_boost UNBOOST
            (set_fb_boost_work None
               (set_boost_work false (set_enabled 0 s))))) /\
  requests_of (enabled_write sscanf online buf size s)
  = concat (map (fun c => if cpu_online online c then [UpdatePolicy c] else [])
                (possible_cpus s)).
Proof.
  intros Hscan. unfold enabled_write. rewrite Hscan.
  cbv beta iota zeta delta [bind modify get when ret skip].
  cbn [enabled set_enabled]. change (0 =? 0) with true. cbv iota.
  destruct (stop_remove_all_boosts online (set_enabled 0 s)) as [[u s2] o] eqn:E.
  cbn [value_of state_of requests_of fst snd app]. split; [reflexivity|].
  split.
  - change s2 with (state_of (u, s2, o)). rewrite <- E.
    rewrite stop_remove_all_boosts_state. reflexivity.
  - rewrite app_nil_r. change o with (requests_of (u, s2, o)). rewrite <- E.
    rewrite stop_remove_all_boosts_requests. reflexivity.
Qed.

Lemma unboosted_floor (s : kstate) (policy : cpufreq_policy) (now : Z) :
  fb_boost s = UNBOOST ->
  Forall unboosted (boost_info s) ->
  0 <= cpuinfo_min_freq policy ->
  admission_open s (pol_cpu policy) now = false ->
  pol_min (value_of (do_cpu_boost CPUFREQ_ADJUST policy now s))
  = cpuinfo_min_freq policy.
Proof.
  intros Hfb Hall Hhw Hadm.
  destruct (fast_exit s policy) eqn:Hfast.
  - rewrite do_cpu_boost_fast_exit by exact Hfast.
    unfold fast_exit in Hfast. apply andb_prop in Hfast as [_ Hmin].
    by apply Z.eqb_eq in Hmin.
  - rewrite (do_cpu_boost_adjust s policy now Hfast)
      by (rewrite Hfb; reflexivity).
    rewrite Hadm. cbn [value_of fst pol_min set_pol_min].
    set (b := default _ _).
    assert (Hb : boost_state b = UNBOOST /\ migration_freq b = 0).
    { subst b. destruct (boost_info s !! pol_cpu policy) as [b|] eqn:El.
      - apply (Forall_lookup_1 _ _ _ _ Hall) in El.
        destruct El as (_ & _ & ? & ?). auto.
      - auto. }
    destruct Hb as [Hst Hmig].
    unfold raise_to_migration, status_floor. rewrite Hst, Hmig.
    destruct (Z.ltb_spec (cpuinfo_min_freq policy) 0); [lia|reflexivity].
Qed.

(** C3, amended.  Writing 0 to [enabled] stores it and runs stop-and-clear
    in the same call: on return no work of the driver is pending (cycle
    start, display cooldown, and each CPU's input restore and migration
    removal), every CPU has status UNBOOST and no migration floor, the
    display boost is off and the running flag is clear, while the tunables
    and the suspend flag keep their values; a policy re-evaluation is
    requested for every online CPU.  A policy evaluation in that
    state that makes no admission returns the hardware minimum; this
    covers every evaluation of CPU0.  A second such write leaves the same
    state. *)
Theorem disable_stops_boosts (sscanf : string -> string -> list Z)
    (online : cpumask) (buf : string) (size : Z) (s : kstate) :
  sscanf "%u"%string buf = [0] ->
  let r := enabled_write sscanf online buf size s in
  value_of r = size /\
  enabled (state_of r) = 0 /\
  boost_work (state_of r) = false /\
  fb_boost_work (state_of r) = None /\
  fb_boost (state_of r) = UNBOOST /\
  ib_running (state_of r) = false /\
  length (boost_info (state_of r)) = length (boost_info s) /\
  Forall unboosted (boost_info (state_of r)) /\
  settings (state_of r) = settings s /\
  requests_of r
  = concat (map (fun c => if cpu_online online c then [UpdatePolicy c] else [])
                (possible_cpus s)) /\
  (forall policy now,
     0 <= cpuinfo_min_freq policy ->
     admission_open (state_of r) (pol_cpu policy) now = false ->
     pol_min (value_of (do_cpu_boost CPUFREQ_ADJUST policy now (state_of r)))
     = cpuinfo_min_freq policy) /\
  (forall policy now,
     0 <= cpuinfo_min_freq policy ->
     pol_cpu policy = 0%nat ->
     pol_min (value_of (do_cpu_boost CPUFREQ_ADJUST policy now (state_of r)))
     = cpuinfo_min_freq policy) /\
  state_of (enabled_write sscanf online buf size (state_of r)) = state_of r.
Proof.
  intros Hscan r.
  destruct (enabled_write_off sscanf online buf size s Hscan)
    as (Hval & Hst & Hreq).
  assert (Hall : Forall unboosted (boost_info (state_of r))).
  { subst r. rewrite Hst. cbn [boost_info set_ib_running set_boost_info].
    apply Forall_fmap, Forall_true. intros b. by repeat split. }
  assert (Hfloor : forall policy now,
     0 <= cpuinfo_min_freq policy ->
     admission_open (state_of r) (pol_cpu policy) now = false ->
     pol_min (value_of (do_cpu_boost CPUFREQ_ADJUST policy now (state_of r)))
     = cpuinfo_min_freq policy).
  { intros policy now Hhw Hadm. apply unboosted_floor; try assumption.
    subst r. by rewrite Hst. }
  split; [exact Hval|].
  repeat match goal with |- _ /\ _ => split end;
    try (subst r; rewrite Hst; reflexivity);
    try assumption.
  - subst r. rewrite Hst. cbn [boost_info set_ib_running set_boost_info].
    apply length_fmap.
  - intros policy now Hhw Hc0. apply Hfloor; [exact Hhw|].
    unfold admission_open. rewrite Hc0. cbn [Nat.eqb negb].
    by rewrite andb_false_r.
  - destruct (enabled_write_off sscanf online buf size (state_of r) Hscan)
      as (_ & Hst2 & _).
    rewrite Hst2. subst r. rewrite Hst.
    cbn [boost_info set_ib_running set_boost_info set_fb_boost
         set_fb_boost_work set_boost_work set_enabled].
    rewrite <- list_fmap_compose. reflexivity.
Qed.

(** The switch is turned off in the lone cycle: CPU0 is back to UNBOOST and
    its restore work is cancelled. *)
Lemma disable_stops_boosts_witness :
  decimal_sscanf "%u" "0" = [0] /\
  boost_info lone_cycle_state !! 0%nat
  = Some (mkBoostPolicy (Some 1060) None false 0 BOOST 0 0 0 0) /\
  Forall unboosted
    (boost_info (state_of (enabled_write decimal_sscanf online1 "0" 2
                             lone_cycle_state))).
Proof.
  split; [vm_compute; reflexivity|]. split; [vm_compute; reflexivity|].
  assert (Hscan : decimal_sscanf "%u" "0" = [0]) by (vm_compute; reflexivity).
  pose proof (disable_stops_boosts decimal_sscanf online1 "0" 2
                lone_cycle_state Hscan) as H.
  cbv zeta in H.
  destruct H as (_ & _ & _ & _ & _ & _ & _ & Hall & _).
  exact Hall.
Defined.

(** Not every field is back at its start-up value: the display is off
    when the switch is turned off, and the suspend flag still says so; the
    counters of the cycle are not reset either. *)
Lemma stop_and_clear_keeps_fields :
  suspended blanked_off_state = true /\
  ib_nr_cpus_boosted blanked_off_state = 1 /\
  ib_nr_cpus_to_boost blanked_off_state = 2 /\
  ~ stop_and_clear_as_specified blanked_off_state.
Proof.
  split; [vm_compute; reflexivity|].
  split; [vm_compute; reflexivity|].
  split; [vm_compute; reflexivity|].
  intros (_ & _ & _ & _ & _ & _ & Hsus & _). vm_compute in Hsus. discriminate.
Qed.

(** ** Writes of the tunables *)

(** C5, amended.  Every write of a tunable fails with [-EINVAL] and leaves
    every variable as it was when [sscanf] does not convert all the numbers
    of its format.  [ib_freqs] and [ib_duration_ms] fail in the same way on
    a zero; [migration_boost_ms] and [migration_load_threshold] take any
    converted number, zero too, store it and return the size written. *)
Theorem tunable_writes (sscanf : string -> string -> list Z) (buf : string)
    (size : Z) (s : kstate) :
  (length (sscanf "%u %u"%string buf) <> 2%nat ->
   ib_freqs_write sscanf buf size s = (- EINVAL, s, [])) /\
  (forall f0 f1, sscanf "%u %u"%string buf = [f0; f1] -> f0 = 0 \/ f1 = 0 ->
   ib_freqs_write sscanf buf size s = (- EINVAL, s, [])) /\
  (forall f0 f1, sscanf "%u %u"%string buf = [f0; f1] -> f0 <> 0 -> f1 <> 0 ->
   ib_freqs_write sscanf buf size s
   = (size, set_ib_freq_1 f1 (set_ib_freq_0 f0 s), [])) /\
  (length (sscanf "%u"%string buf) <> 1%nat ->
   ib_duration_ms_write sscanf buf size s = (- EINVAL, s, []) /\
   migration_boost_ms_write sscanf buf size s = (- EINVAL, s, []) /\
   migration_load_threshold_write sscanf buf size s = (- EINVAL, s, [])) /\
  (sscanf "%u"%string buf = [0] ->
   ib_duration_ms_write sscanf buf size s = (- EINVAL, s, [])) /\
  (forall v, sscanf "%u"%string buf = [v] -> v <> 0 ->
   ib_duration_ms_write sscanf buf size s = (size, set_ib_duration_ms v s, [])) /\
  (forall v, sscanf "%u"%string buf = [v] ->
   migration_boost_ms_write sscanf buf size s
   = (size, set_migration_boost_ms v s, []) /\
   migration_load_threshold_write sscanf buf size s
   = (size, set_migration_load_threshold v s, [])).
Proof.
  unfold ib_freqs_write, ib_duration_ms_write, migration_boost_ms_write,
    migration_load_threshold_write.
  repeat match goal with |- _ /\ _ => split end.
  - intros Hlen. destruct (sscanf "%u %u"%string buf) as [|? [|? [|? ?]]];
      try reflexivity. cbn in Hlen. lia.
  - intros f0 f1 -> [-> | ->]; [reflexivity|].
    by rewrite orb_true_r.
  - intros f0 f1 -> H0 H1.
    destruct (Z.eqb_spec f0 0); [contradiction|].
    destruct (Z.eqb_spec f1 0); [contradiction|]. reflexivity.
  - intros Hlen. destruct (sscanf "%u"%string buf) as [|? [|? ?]];
      try (repeat split; reflexivity). cbn in Hlen. lia.
  - intros ->. reflexivity.
  - intros v -> Hv. destruct (Z.eqb_spec v 0); [contradiction|]. reflexivity.
  - intros v ->. split; reflexivity.
Qed.

(** A buffer without a number is refused by the input boost duration, and
    a zero is stored as migration boost duration. *)
Lemma tunable_writes_witness :
  (length (decimal_sscanf "%u" "fast") <> 1%nat /\
   decimal_sscanf "%u" "0" = [0]) /\
  ib_duration_ms_write decimal_sscanf "fast" 5 migration_config
  = (- EINVAL, migration_config, []) /\
  migration_boost_ms_write decimal_sscanf "0" 2 migration_config
  = (2, set_migration_boost_ms 0 migration_config, []).
Proof.
  split; [split; vm_compute; congruence|]. split.
  - destruct (tunable_writes decimal_sscanf "fast" 5 migration_config)
      as (_ & _ & _ & Hbad & _).
    destruct Hbad as [Hdur _]; [vm_compute; congruence|exact Hdur].
  - destruct (tunable_writes decimal_sscanf "0" 2 migration_config)
      as (_ & _ & _ & _ & _ & _ & Hany).
    destruct (Hany 0) as [Hms _]; [vm_compute; reflexivity|exact Hms].
Defined.

(** A zero is accepted for the migration boost duration: the write
    returns its size and the 40 ms configured before are gone.  The same
    buffer is refused for the input boost duration. *)
Lemma zero_migration_boost_ms_accepted :
  migration_boost_ms migration_config = 40 /\
  migration_boost_ms_write decimal_sscanf "0" 2 migration_config
  = (2, set_migration_boost_ms 0 migration_config, []) /\
  ib_duration_ms_write decimal_sscanf "0" 2 migration_config
  = (- EINVAL, migration_config, []) /\
  ~ zero_rejected attr_migration_boost_ms "0" migration_config.
Proof.
  split; [vm_compute; reflexivity|].
  split; [vm_compute; reflexivity|].
  split; [vm_compute; reflexivity|].
  unfold zero_rejected. intros H. vm_compute in H. discriminate.
Qed.

(** ** The driver at rest: what every run keeps *)

Lemma records_ok_alter (l : list boost_policy) (c : nat)
    (g : boost_policy -> boost_policy) :
  records_ok l ->
  (forall b, record_ok c b -> record_ok c (g b)) ->
  records_ok (alter g c l).
Proof.
  intros Hl Hg i b Hi. rewrite list_lookup_alter in Hi.
  destruct (decide (c = i)) as [->|Hne].
  - destruct (l !! i) as [b0|] eqn:E; [|discriminate].
    injection Hi as <-. apply Hg, Hl, E.
  - apply Hl, Hi.
Qed.

Lemma records_ok_fmap (l : list boost_policy) (g : boost_policy -> boost_policy) :
  records_ok l ->
  (forall i b, record_ok i b -> record_ok i (g b)) ->
  records_ok (g <$> l).
Proof.
  intros Hl Hg i b Hi. rewrite list_lookup_fmap in Hi.
  destruct (l !! i) as [b0|] eqn:E; [|discriminate].
  injection Hi as <-. apply Hg, Hl, E.
Qed.

Lemma records_ok_init (nr_cpus : nat) :
  records_ok (boost_info (cpu_ib_init nr_cpus)).
Proof.
  intros i b Hi. cbn [boost_info cpu_ib_init] in Hi.
  change (map boost_policy_init (seq 0 nr_cpus))
    with (boost_policy_init <$> seq 0 nr_cpus) in Hi.
  rewrite list_lookup_fmap in Hi.
  destruct (seq 0 nr_cpus !! i) as [j|] eqn:E; [|discriminate].
  injection Hi as <-. apply lookup_seq in E as [-> _].
  repeat split; cbn; congruence.
Qed.

Lemma boosted_alter (l : list boost_policy) (c : nat)
    (g : boost_policy -> boost_policy) :
  (forall b, boost_state b = BOOST -> boost_state (g b) = BOOST) ->
  (exists i b, l !! i = Some b /\ boost_state b = BOOST) ->
  exists i b, alter g c l !! i = Some b /\ boost_state b = BOOST.
Proof.
  intros Hg (i & b & Hi & Hb). exists i.
  rewrite list_lookup_alter. destruct (decide (c = i)) as [->|Hne].
  - rewrite Hi. exists (g b). split; [reflexivity|apply Hg, Hb].
  - exists b. auto.
Qed.

(** The variables, other than the per-CPU records, the rest state talks
    about. *)
Lemma state_ok_alter (nr_cpus : nat) (s s' : kstate) (c : nat)
    (g : boost_policy -> boost_policy) :
  state_ok nr_cpus s ->
  boost_info s' = alter g c (boost_info s) ->
  (ib_nr_cpus_boosted s', ib_nr_cpus_to_boost s', fb_boost s', enabled s',
   fb_boost_work s', ib_running s', boost_work s')
  = (ib_nr_cpus_boosted s, ib_nr_cpus_to_boost s, fb_boost s, enabled s,
     fb_boost_work s, ib_running s, boost_work s) ->
  (forall b, record_ok c b -> record_ok c (g b)) ->
  (forall b, boost_state b = BOOST -> boost_state (g b) = BOOST) ->
  state_ok nr_cpus s'.
Proof.
  intros (Hlen & Hrec & Hcnt & Hto & Hfb & Hrun) Hinfo Hsc Hg Hboost.
  injection Hsc as Hb Ht Hf He Hw Hr Hbw.
  unfold state_ok. rewrite Hinfo, Hb, Ht, Hf, He, Hw, Hr, Hbw.
  split; [by rewrite length_alter|].
  split; [by apply records_ok_alter|].
  split; [exact Hcnt|]. split; [exact Hto|]. split; [exact Hfb|].
  intros Hr'. destruct (Hrun Hr') as [Hw'|Hb']; [by left|right].
  by apply boosted_alter.
Qed.

Lemma state_ok_same (nr_cpus : nat) (s s' : kstate) :
  state_ok nr_cpus s ->
  (boost_info s', ib_nr_cpus_boosted s', ib_nr_cpus_to_boost s', fb_boost s',
   enabled s', fb_boost_work s', ib_running s', boost_work s')
  = (boost_info s, ib_nr_cpus_boosted s, ib_nr_cpus_to_boost s, fb_boost s,
     enabled s, fb_boost_work s, ib_running s, boost_work s) ->
  state_ok nr_cpus s'.
Proof.
  intros Hs Hsc. injection Hsc as Hinfo Hb Ht Hf He Hw Hr Hbw.
  unfold state_ok. rewrite Hinfo, Hb, Ht, Hf, He, Hw, Hr, Hbw. exact Hs.
Qed.

Lemma state_ok_init (nr_cpus : nat) : state_ok nr_cpus (cpu_ib_init nr_cpus).
Proof.
  unfold state_ok. split.
  - cbn [boost_info cpu_ib_init]. by rewrite length_map, length_seq.
  - split; [apply records_ok_init|]. cbn. repeat split; try lia; try congruence.
Qed.

Lemma ok_input_event (nr_cpus : nat) (s : kstate) :
  state_ok nr_cpus s -> state_ok nr_cpus (state_of (cpu_ib_input_event s)).
Proof.
  intros Hs. unfold cpu_ib_input_event. drv_eval.
  destruct (ib_running s || (enabled s =? 0) || status_true (fb_boost s));
    [exact Hs|].
  drv_eval. destruct Hs as (Hlen & Hrec & Hcnt & Hto & Hfb & Hrun).
  unfold state_ok. drv_eval.
  split; [exact Hlen|]. split; [exact Hrec|]. split; [exact Hcnt|].
  split; [exact Hto|]. split; [exact Hfb|]. intros _. by left.
Qed.

Lemma ok_boost_work (nr_cpus : nat) (online : cpumask) (now : Z) (s : kstate) :
  (0 < nr_cpus)%nat ->
  state_ok nr_cpus s ->
  state_ok nr_cpus (state_of (ib_boost_main online now (set_boost_work false s))).
Proof.
  intros Hnr (Hlen & Hrec & Hcnt & Hto & Hfb & Hrun).
  destruct (lookup_lt_is_Some_2 (boost_info s) 0 ltac:(lia)) as [b0 Hb0].
  unfold ib_boost_main, boost_cpu0. drv_eval.
  change (u32 (0 + 1)) with 1. rewrite list_alter_alter_eq.
  unfold state_ok. drv_eval.
  split; [by rewrite length_alter|].
  split.
  { apply records_ok_alter; [exact Hrec|].
    intros b (Hc & Hib & Hmig & Hw & Hbw). unfold compose.
    repeat split; cbn; try assumption.
    - intros _. by destruct (ib_restore_work b).
    - discriminate. }
  split; [destruct (num_online_cpus online =? 1); lia|].
  split; [destruct (num_online_cpus online =? 1); lia|].
  split; [exact Hfb|].
  intros _. right. exists 0%nat. eexists.
  rewrite list_lookup_alter_eq, Hb0. cbn. split; reflexivity.
Qed.

Lemma ok_ib_restore (sscanf : string -> string -> list Z) (nr_cpus : nat)
    (online : cpumask) (c : nat) (s : kstate) :
  state_ok nr_cpus s ->
  state_ok nr_cpus (state_of (step sscanf (RunIbRestore online c) s)).
Proof.
  intros Hs. pose proof Hs as (Hlen & Hrec & Hcnt & Hto & Hfb & Hrun).
  unfold step. drv_eval.
  destruct (boost_info s !! c) as [b|] eqn:Hb; cbn [default from_option id];
    [|exact Hs].
  destruct (ib_restore_work b) as [d|] eqn:Hw; [|exact Hs].
  destruct (Hrec c b Hb) as (Hc & _).
  unfold ib_restore_main, unboost_cpu. drv_eval.
  rewrite !list_lookup_alter_eq, Hb.
  cbn [fmap option_fmap option_map default from_option id cpu
       set_ib_restore_work set_boost_state].
  rewrite Hc. drv_eval. rewrite !list_lookup_alter_eq, Hb.
  cbn [fmap option_fmap option_map default from_option id cpu
       set_ib_restore_work set_boost_state].
  rewrite Hc, !list_alter_alter_eq.
  set (l' := alter _ c (boost_info s)).
  assert (Hrec' : records_ok l').
  { apply records_ok_alter; [exact Hrec|].
    intros b1 (Hc1 & Hib & Hmig & Hws & Hbw). unfold compose.
    repeat split; cbn; try assumption; discriminate. }
  assert (Hlen' : length l' = nr_cpus) by (subst l'; by rewrite length_alter).
  destruct (cpu_online online c); drv_eval;
    destruct (existsb _ l') eqn:Hex; drv_eval; unfold state_ok; drv_eval;
    (split; [exact Hlen'|]; split; [exact Hrec'|];
     split; [exact Hcnt|]; split; [exact Hto|]; split; [exact Hfb|]);
    try discriminate;
    intros _; right;
    apply existsb_exists in Hex as (b1 & Hin & Hst);
    apply list_elem_of_In, list_elem_of_lookup in Hin as [i Hi];
    exists i, b1; (split; [exact Hi|]);
    by destruct (boost_state b1).
Qed.

Lemma ok_fb_blank (nr_cpus : nat) (val : fb_event_kind) (blank : fb_blank_level)
    (s : kstate) :
  state_ok nr_cpus s -> state_ok nr_cpus (state_of (fb_blank_boost val blank s)).
Proof.
  intros Hs. pose proof Hs as (Hlen & Hrec & Hcnt & Hto & Hfb & Hrun).
  unfold fb_blank_boost. drv_eval.
  destruct (Z.eqb_spec (enabled s) 0) as [He|He]; [exact Hs|].
  destruct val; [|exact Hs].
  destruct blank; drv_eval;
    try (apply (state_ok_same nr_cpus s); [exact Hs|reflexivity]).
  destruct (status_true (fb_boost s)) eqn:Hon; drv_eval.
  - apply (state_ok_same nr_cpus s); [exact Hs|reflexivity].
  - unfold state_ok. drv_eval.
    split; [exact Hlen|]. split; [exact Hrec|]. split; [exact Hcnt|].
    split; [exact Hto|]. split; [|exact Hrun].
    intros _. split; [exact He|]. by destruct (fb_boost_work s).
Qed.

Lemma ok_fb_work (sscanf : string -> string -> list Z) (nr_cpus : nat)
    (online : cpumask) (s : kstate) :
  state_ok nr_cpus s ->
  state_ok nr_cpus (state_of (step sscanf (RunFbWork online) s)).
Proof.
  intros Hs. pose proof Hs as (Hlen & Hrec & Hcnt & Hto & Hfb & Hrun).
  unfold step. rewrite state_bind.
  change (state_of (get s)) with s. change (value_of (get s)) with s.
  destruct (fb_boost_work s) as [d|] eqn:Hw; [|exact Hs].
  rewrite state_bind.
  change (state_of (modify (set_fb_boost_work None) s))
    with (set_fb_boost_work None s).
  destruct (boost_status_eqb (fb_boost s) BOOST) eqn:Hb.
  - rewrite fb_boost_main_active by (cbn; by destruct (fb_boost s)).
    unfold state_ok. drv_eval.
    split; [exact Hlen|]. split; [exact Hrec|]. split; [exact Hcnt|].
    split; [exact Hto|]. split; [|exact Hrun].
    intros _. split; [|discriminate].
    apply Hfb. by destruct (fb_boost s).
  - rewrite fb_boost_main_expiry by (cbn; by destruct (fb_boost s)).
    unfold state_ok. drv_eval.
    split; [by rewrite length_fmap|].
    split.
    { apply records_ok_fmap; [exact Hrec|].
      intros i b (Hc & Hib & Hmig & Hws & Hbw).
      repeat split; cbn; try assumption; discriminate. }
    split; [exact Hcnt|]. split; [exact Hto|].
    split; [congruence|]. discriminate.
Qed.

Lemma cpufreq_event_eq_dec (a b : cpufreq_event) : {a = b} + {a <> b}.
Proof. decide equality. Qed.

Lemma ok_policy_notify (nr_cpus : nat) (val : cpufreq_event)
    (policy : cpufreq_policy) (now : Z) (s : kstate) :
  state_ok nr_cpus s ->
  state_ok nr_cpus (state_of (do_cpu_boost val policy now s)).
Proof.
  intros Hs. pose proof Hs as (Hlen & Hrec & Hcnt & Hto & Hfb & Hrun).
  destruct (fast_exit s policy) eqn:Hfast.
  { by rewrite do_cpu_boost_fast_exit. }
  destruct (cpufreq_event_eq_dec val CPUFREQ_ADJUST) as [->|Hval].
  2:{ by destruct (do_cpu_boost_other s val policy now Hval) as [-> _]. }
  destruct (status_true (fb_boost s)) eqn:Hon.
  { by rewrite do_cpu_boost_display. }
  rewrite (do_cpu_boost_adjust s policy now Hfast Hon).
  destruct (admission_open s (pol_cpu policy) now) eqn:Hadm; [|exact Hs].
  apply admission_open_iff in Hadm as (Hlt & Hc & Hrem).
  unfold state_after_admission, state_ok. drv_eval.
  rewrite u32_small by lia.
  split; [by rewrite length_alter|].
  split.
  { apply records_ok_alter; [exact Hrec|].
    intros b (Hcb & Hib & Hmig & Hws & Hbw).
    repeat split; cbn; try assumption.
    - intros _. by destruct (ib_restore_work b).
    - discriminate. }
  split; [lia|]. split; [exact Hto|]. split; [exact Hfb|].
  intros Hr. destruct (Hrun Hr) as [Hw|Hb]; [by left|right].
  apply boosted_alter; [reflexivity|exact Hb].
Qed.

(** ** Closed forms of the migration path *)

Lemma set_boost_info_set (l1 l2 : list boost_policy) (s : kstate) :
  set_boost_info l1 (set_boost_info l2 s) = set_boost_info l1 s.
Proof. reflexivity. Qed.

Lemma alter_fixed (l : list boost_policy) (i : nat) (g : boost_policy -> boost_policy) :
  (forall b, l !! i = Some b -> g b = b) -> alter g i l = l.
Proof.
  intros Hg. apply list_eq. intros j. rewrite list_lookup_alter.
  destruct (decide (i = j)) as [->|]; [|reflexivity].
  destruct (l !! j) as [b|] eqn:E; [|reflexivity]. cbn. by rewrite Hg.
Qed.

Lemma alter_ext_at (l : list boost_policy) (i : nat)
    (f g : boost_policy -> boost_policy) (b : boost_policy) :
  l !! i = Some b -> f b = g b -> alter f i l = alter g i l.
Proof.
  intros Hb Hfg. apply list_eq. intros j. rewrite !list_lookup_alter.
  destruct (decide (i = j)) as [->|]; [|reflexivity].
  rewrite Hb. cbn. by rewrite Hfg.
Qed.

Lemma boost_migration_notify_state (s : kstate) (mnd : migration_notify_data)
    (is_current : bool) :
  state_of (boost_migration_notify mnd is_current s)
  = if posts s mnd is_current then
      set_boost_info
        (alter (fun b => wake_up (post_request s mnd b)) (mnd_dest_cpu mnd)
               (boost_info s)) s
    else s.
Proof.
  unfold boost_migration_notify, posts. drv_eval.
  destruct ((enabled s =? 0) || (migration_boost_ms s =? 0)); [reflexivity|].
  destruct (suspended s || status_true (fb_boost s)); [reflexivity|].
  destruct (load_based_syncs s
            && (u32 (mnd_load mnd) <=? migration_load_threshold s));
    [reflexivity|].
  destruct (load_based_syncs s && ((mnd_load mnd <? 0) || (100 <? mnd_load mnd)));
    [reflexivity|].
  destruct is_current; [reflexivity|]. cbn [negb andb].
  drv_eval. rewrite !list_lookup_alter_eq, !list_alter_alter_eq.
  destruct (boost_info s !! mnd_dest_cpu mnd) as [b|] eqn:Hb;
    cbn [fmap option_fmap option_map default from_option id being_woken
         set_task_load set_src_cpu set_pending boost_policy_init].
  - destruct (being_woken b =? 0) eqn:Hw; drv_eval;
      rewrite ?set_boost_info_set, ?list_alter_alter_eq; f_equal;
      apply (alter_ext_at _ _ _ _ b Hb);
      unfold wake_up, post_request, compose; cbn; rewrite Hw; reflexivity.
  - change (0 =? 0) with true. drv_eval.
    rewrite ?set_boost_info_set, !list_alter_alter_eq. f_equal.
    rewrite !(alter_fixed (boost_info s)); try reflexivity;
      intros b Hb'; congruence.
Qed.

Lemma boost_migration_notify_requests (s : kstate) (mnd : migration_notify_data)
    (is_current : bool) (b : boost_policy) :
  boost_info s !! mnd_dest_cpu mnd = Some b ->
  requests_of (boost_migration_notify mnd is_current s)
  = if posts s mnd is_current && (being_woken b =? 0)
    then [WakeUp (mnd_dest_cpu mnd)] else [].
Proof.
  intros Hb. unfold boost_migration_notify, posts. drv_eval.
  destruct ((enabled s =? 0) || (migration_boost_ms s =? 0)); [reflexivity|].
  destruct (suspended s || status_true (fb_boost s)); [reflexivity|].
  destruct (load_based_syncs s
            && (u32 (mnd_load mnd) <=? migration_load_threshold s));
    [reflexivity|].
  destruct (load_based_syncs s && ((mnd_load mnd <? 0) || (100 <? mnd_load mnd)));
    [reflexivity|].
  destruct is_current; [reflexivity|]. cbn [negb andb].
  drv_eval. rewrite !list_lookup_alter_eq, Hb.
  cbn [fmap option_fmap option_map default from_option id being_woken
       set_task_load set_src_cpu set_pending].
  destruct (being_woken b =? 0); reflexivity.
Qed.

Lemma boost_mig_sync_thread_state
    (get_policy : nat -> option cpufreq_policy) (online : cpumask)
    (dest : nat) (s : kstate) :
  state_of (boost_mig_sync_thread get_policy online dest s)
  = set_boost_info
      (alter (sync_record get_policy online dest (migration_boost_ms s)) dest
             (boost_info s)) s.
Proof.
  destruct (boost_info s !! dest) as [b|] eqn:Hb.
  2:{ unfold boost_mig_sync_thread. drv_eval. rewrite Hb. cbn.
      rewrite alter_fixed by (intros b Hb'; congruence).
      symmetry. apply set_boost_info_same. }
  assert (Halt : forall g,
    g b = sync_record get_policy online dest (migration_boost_ms s) b ->
    alter g dest (boost_info s)
    = alter (sync_record get_policy online dest (migration_boost_ms s)) dest
            (boost_info s)).
  { intros g Hg. by apply (alter_ext_at _ _ _ _ b Hb). }
  unfold boost_mig_sync_thread. drv_eval. rewrite Hb.
  cbn [default from_option id].
  destruct (pending b) eqn:Hp; cbn [negb].
  2:{ rewrite <- (Halt id).
      - rewrite list_alter_id by reflexivity. symmetry. apply set_boost_info_same.
      - unfold sync_record. by rewrite Hp. }
  drv_eval.
  destruct (get_policy (src_cpu b)) as [sp|] eqn:Hsp.
  2:{ rewrite ?set_boost_info_set. f_equal. apply Halt.
      unfold sync_record. by rewrite Hp, Hsp. }
  destruct (get_policy dest) as [dp|] eqn:Hdp.
  2:{ rewrite ?set_boost_info_set. f_equal. apply Halt.
      unfold sync_record. by rewrite Hp, Hsp, Hdp. }
  destruct (req_freq dp sp (task_load b) <=? cpuinfo_min_freq dp) eqn:Hreq.
  { rewrite ?set_boost_info_set. f_equal. apply Halt.
    unfold sync_record. by rewrite Hp, Hsp, Hdp, Hreq. }
  destruct (cpu_online online (src_cpu b)), (cpu_online online dest) eqn:Hon;
    drv_eval; rewrite ?set_boost_info_set, !list_alter_alter_eq; f_equal;
    apply Halt;
    unfold sync_record, apply_migration, compose;
    rewrite Hp, Hsp, Hdp; cbn [negb]; cbv zeta; rewrite Hreq, Hon; reflexivity.
Qed.

Lemma ok_migration_notify (nr_cpus : nat) (mnd : migration_notify_data)
    (is_current : bool) (s : kstate) :
  state_ok nr_cpus s ->
  state_ok nr_cpus (state_of (boost_migration_notify mnd is_current s)).
Proof.
  intros Hs. rewrite boost_migration_notify_state.
  destruct (posts s mnd is_current); [|exact Hs].
  eapply state_ok_alter; [exact Hs|reflexivity|reflexivity| |].
  - intros b (Hc & Hib & Hmig & Hws & Hbw).
    unfold wake_up, post_request. cbn. rewrite Hbw. cbn.
    repeat split; assumption.
  - intros b Hb. unfold wake_up, post_request. cbn.
    by destruct (being_woken b =? 0).
Qed.

Lemma ok_sync_thread (nr_cpus : nat) (get_policy : nat -> option cpufreq_policy)
    (online : cpumask) (dest : nat) (s : kstate) :
  state_ok nr_cpus s ->
  state_ok nr_cpus (state_of (boost_mig_sync_thread get_policy online dest s)).
Proof.
  intros Hs. rewrite boost_mig_sync_thread_state.
  eapply state_ok_alter; [exact Hs|reflexivity|reflexivity| |].
  - intros b Hok. pose proof Hok as (Hc & Hib & Hmig & Hws & Hbw).
    unfold sync_record, apply_migration.
    destruct (pending b); cbn [negb]; [|exact Hok].
    destruct (get_policy (src_cpu b)) as [sp|], (get_policy dest) as [dp|];
      try (repeat split; assumption).
    cbv zeta.
    destruct (_ <=? _); [repeat split; assumption|].
    destruct (cpu_online online dest); repeat split; cbn; try assumption;
      try discriminate; try (intros H; by destruct H).
  - intros b Hb. unfold sync_record, apply_migration.
    destruct (pending b); cbn [negb]; [|exact Hb].
    destruct (get_policy (src_cpu b)) as [sp|], (get_policy dest) as [dp|];
      try exact Hb.
    cbv zeta. destruct (_ <=? _); [exact Hb|].
    by destruct (cpu_online online dest).
Qed.

Lemma ok_mig_rem (sscanf : string -> string -> list Z) (nr_cpus : nat)
    (c : nat) (s : kstate) :
  state_ok nr_cpus s ->
  state_ok nr_cpus (state_of (step sscanf (RunMigRem c) s)).
Proof.
  intros Hs. unfold step, do_mig_boost_rem. drv_eval.
  destruct (boost_info s !! c) as [b|] eqn:Hb; cbn [default from_option id];
    [|exact Hs].
  destruct (mig_boost_rem b); [|exact Hs].
  drv_eval. rewrite ?set_boost_info_set, !list_alter_alter_eq.
  eapply state_ok_alter; [exact Hs|reflexivity|reflexivity| |].
  - intros b1 (Hc & Hib & Hmig & Hws & Hbw). unfold compose.
    repeat split; cbn; try assumption. congruence.
  - intros b1 Hb1. exact Hb1.
Qed.

Lemma ok_sysfs_write (sscanf : string -> string -> list Z) (nr_cpus : nat)
    (a : sysfs_attr) (online : cpumask) (buf : string) (size : Z) (s : kstate) :
  state_ok nr_cpus s ->
  state_ok nr_cpus (state_of (sysfs_write sscanf a online buf size s)).
Proof.
  intros Hs. pose proof Hs as (Hlen & Hrec & Hcnt & Hto & Hfb & Hrun).
  destruct a; unfold sysfs_write.
  - unfold enabled_write.
    destruct (sscanf "%u"%string buf) as [|data [|? ?]]; try exact Hs.
    rewrite !state_bind.
    change (state_of (modify (set_enabled data) s)) with (set_enabled data s).
    change (state_of (get (set_enabled data s))) with (set_enabled data s).
    change (value_of (get (set_enabled data s))) with (set_enabled data s).
    change (enabled (set_enabled data s)) with data.
    change (state_of (ret size ?x)) with x.
    destruct (Z.eqb_spec data 0) as [->|Hne]; cbn [when].
    + rewrite stop_remove_all_boosts_state. unfold state_ok. drv_eval.
      split; [by rewrite length_fmap|].
      split.
      { apply records_ok_fmap; [exact Hrec|].
        intros i b (Hc & Hib & Hmig & Hws & Hbw).
        repeat split; cbn; try assumption; intros; congruence. }
      split; [exact Hcnt|]. split; [exact Hto|].
      split; [congruence|discriminate].
    + unfold state_ok. split; [exact Hlen|]. split; [exact Hrec|].
      split; [exact Hcnt|]. split; [exact Hto|]. split; [|exact Hrun].
      intros Hon. split; [exact Hne|]. by apply Hfb.
  - unfold ib_freqs_write.
    destruct (sscanf "%u %u"%string buf) as [|f0 [|f1 [|? ?]]]; try exact Hs.
    destruct ((f0 =? 0) || (f1 =? 0)); exact Hs.
  - unfold ib_duration_ms_write.
    destruct (sscanf "%u"%string buf) as [|ms [|? ?]]; try exact Hs.
    destruct (ms =? 0); exact Hs.
  - unfold load_based_syncs_write.
    destruct (sscanf "%u"%string buf) as [|ms [|? ?]]; exact Hs.
  - unfold migration_boost_ms_write.
    destruct (sscanf "%u"%string buf) as [|ms [|? ?]]; exact Hs.
  - unfold migration_load_threshold_write.
    destruct (sscanf "%u"%string buf) as [|ms [|? ?]]; exact Hs.
Qed.

Lemma step_state_ok (sscanf : string -> string -> list Z) (nr_cpus : nat)
    (e : event) (s : kstate) :
  (0 < nr_cpus)%nat ->
  state_ok nr_cpus s -> state_ok nr_cpus (state_of (step sscanf e s)).
Proof.
  intros Hnr Hs.
  destruct e as [|online now|online c|val blank|online|val policy now|c
                 |mnd cur|gp online dest|a online buf size].
  - by apply ok_input_event.
  - unfold step. rewrite state_bind.
    change (state_of (get s)) with s. change (value_of (get s)) with s.
    destruct (boost_work s); [|exact Hs].
    rewrite state_bind. by apply ok_boost_work.
  - by apply ok_ib_restore.
  - by apply ok_fb_blank.
  - by apply ok_fb_work.
  - unfold step. rewrite state_bind. by apply ok_policy_notify.
  - by apply ok_mig_rem.
  - by apply ok_migration_notify.
  - by apply ok_sync_thread.
  - unfold step. rewrite state_bind. by apply ok_sysfs_write.
Qed.

Lemma run_state_ok (sscanf : string -> string -> list Z) (nr_cpus : nat)
    (es : list event) (s : kstate) :
  (0 < nr_cpus)%nat ->
  state_ok nr_cpus s -> state_ok nr_cpus (state_of (run sscanf es s)).
Proof.
  intros Hnr. revert s. induction es as [|e rest IH]; intros s Hs; [exact Hs|].
  cbn [run]. rewrite state_bind. by apply IH, step_state_ok.
Qed.

(** ** What holds in every state the driver reaches *)

(** X1.  The per-CPU array keeps its shape: in every state reached from
    start-up there is one record per possible CPU, record [i] names CPU
    [i], its input-boost status is never the display's [WAITING], and its
    wake-up mark is released. *)
Theorem records_keep_shape (sscanf : string -> string -> list Z)
    (nr_cpus : nat) (es : list event) (i : nat) (b : boost_policy) :
  (0 < nr_cpus)%nat ->
  boost_info (state_of (run sscanf es (cpu_ib_init nr_cpus))) !! i = Some b ->
  length (boost_info (state_of (run sscanf es (cpu_ib_init nr_cpus)))) = nr_cpus /\
  cpu b = i /\ boost_state b <> WAITING /\ being_woken b = 0.
Proof.
  intros Hnr Hb.
  destruct (run_state_ok sscanf nr_cpus es _ Hnr (state_ok_init nr_cpus))
    as (Hlen & Hrec & _).
  destruct (Hrec i b Hb) as (Hc & _ & _ & Hw & Hbw). auto.
Qed.

Lemma records_keep_shape_witness :
  ((0 < 4)%nat /\
   boost_info (state_of (run decimal_sscanf lone_cycle_trace (cpu_ib_init 4)))
     !! 0%nat
   = Some (mkBoostPolicy (Some 1060) None false 0 BOOST 0 0 0 0)) /\
  length (boost_info (state_of (run decimal_sscanf lone_cycle_trace
                                  (cpu_ib_init 4)))) = 4%nat.
Proof.
  split; [split; [lia|vm_compute; reflexivity]|].
  exact (proj1 (records_keep_shape decimal_sscanf 4 lone_cycle_trace 0
                  (mkBoostPolicy (Some 1060) None false 0 BOOST 0 0 0 0)
                  ltac:(lia) ltac:(vm_compute; reflexivity))).
Defined.

(** X2.  No boost without its end: in every state reached from start-up a
    CPU whose status is [BOOST] has its restore work pending, and a CPU
    with a migration floor other than 0 has its removal work pending. *)
Theorem boosts_have_pending_work (sscanf : string -> string -> list Z)
    (nr_cpus : nat) (es : list event) (i : nat) (b : boost_policy) :
  (0 < nr_cpus)%nat ->
  boost_info (state_of (run sscanf es (cpu_ib_init nr_cpus))) !! i = Some b ->
  (boost_state b = BOOST -> ib_restore_work b <> None) /\
  (migration_freq b <> 0 -> mig_boost_rem b <> None).
Proof.
  intros Hnr Hb.
  destruct (run_state_ok sscanf nr_cpus es _ Hnr (state_ok_init nr_cpus))
    as (_ & Hrec & _).
  destruct (Hrec i b Hb) as (_ & Hib & Hmig & _). auto.
Qed.

Lemma boosts_have_pending_work_witness :
  ((0 < 4)%nat /\
   boost_info (fst scenario_result) !! 2%nat
   = Some (mkBoostPolicy None (Some 40) false 0 UNBOOST 2 1200000 0 0)) /\
  (1200000 <> 0 -> Some 40 <> @None Z).
Proof.
  split; [split; [lia|vm_compute; reflexivity]|].
  exact (proj2 (boosts_have_pending_work decimal_sscanf 4
      ([SysfsWrite attr_enabled online4 "1" 2;
        SysfsWrite attr_migration_boost_ms online4 "40" 3]
       ++ [MigrationNotify scenario_mnd false;
           SyncThread scenario_policies online4 2])
      2 (mkBoostPolicy None (Some 40) false 0 UNBOOST 2 1200000 0 0)
      ltac:(lia) ltac:(vm_compute; reflexivity))).
Defined.

(** X3.  The counters of a cycle stay in range: in every state reached
    from start-up, 0 <= CPUs counted <= CPUs targeted <= 2. *)
Theorem cycle_counters_bounded (sscanf : string -> string -> list Z)
    (nr_cpus : nat) (es : list event) :
  (0 < nr_cpus)%nat ->
  0 <= ib_nr_cpus_boosted (state_of (run sscanf es (cpu_ib_init nr_cpus)))
    <= ib_nr_cpus_to_boost (state_of (run sscanf es (cpu_ib_init nr_cpus))) /\
  ib_nr_cpus_to_boost (state_of (run sscanf es (cpu_ib_init nr_cpus))) <= 2.
Proof.
  intros Hnr.
  destruct (run_state_ok sscanf nr_cpus es _ Hnr (state_ok_init nr_cpus))
    as (_ & _ & Hcnt & Hto & _). auto.
Qed.

Lemma cycle_counters_bounded_witness :
  (0 < 4)%nat /\
  ib_nr_cpus_to_boost two_cpu_cycle_state <= 2.
Proof.
  split; [lia|].
  exact (proj2 (cycle_counters_bounded decimal_sscanf 4
                  (lone_cycle_trace
                   ++ [PolicyNotify CPUFREQ_ADJUST (policy_of 1 300000) 1100])
                  ltac:(lia))).
Defined.

(** X4.  A display boost always has its end queued: in every state reached
    from start-up in which the display boost is ACTIVE or in COOLDOWN, the
    display boost work is pending (and the master switch is on). *)
Theorem display_boost_has_pending_work (sscanf : string -> string -> list Z)
    (nr_cpus : nat) (es : list event) :
  (0 < nr_cpus)%nat ->
  fb_boost (state_of (run sscanf es (cpu_ib_init nr_cpus))) <> UNBOOST ->
  fb_boost_work (state_of (run sscanf es (cpu_ib_init nr_cpus))) <> None /\
  enabled (state_of (run sscanf es (cpu_ib_init nr_cpus))) <> 0.
Proof.
  intros Hnr Hon.
  destruct (run_state_ok sscanf nr_cpus es _ Hnr (state_ok_init nr_cpus))
    as (_ & _ & _ & _ & Hfb & _).
  destruct (Hfb Hon). auto.
Qed.

Lemma display_boost_has_pending_work_witness :
  ((0 < 4)%nat /\
   fb_boost (state_of (run decimal_sscanf display_trace (cpu_ib_init 4)))
   <> UNBOOST) /\
  fb_boost_work (state_of (run decimal_sscanf display_trace (cpu_ib_init 4)))
  <> None.
Proof.
  split; [split; [lia|vm_compute; congruence]|].
  exact (proj1 (display_boost_has_pending_work decimal_sscanf 4 display_trace
                  ltac:(lia) ltac:(vm_compute; congruence))).
Defined.

(** X5.  The input gate cannot stay shut for good: in every state reached
    from start-up in which a cycle is marked as running, either the
    cycle-start work is pending or some CPU is [BOOST] with its restore
    work pending. *)
Theorem running_cycle_has_pending_work (sscanf : string -> string -> list Z)
    (nr_cpus : nat) (es : list event) :
  (0 < nr_cpus)%nat ->
  ib_running (state_of (run sscanf es (cpu_ib_init nr_cpus))) = true ->
  boost_work (state_of (run sscanf es (cpu_ib_init nr_cpus))) = true \/
  exists i b,
    boost_info (state_of (run sscanf es (cpu_ib_init nr_cpus))) !! i = Some b /\
    boost_state b = BOOST /\ ib_restore_work b <> None.
Proof.
  intros Hnr Hr.
  destruct (run_state_ok sscanf nr_cpus es _ Hnr (state_ok_init nr_cpus))
    as (_ & Hrec & _ & _ & _ & Hrun).
  destruct (Hrun Hr) as [Hw|(i & b & Hi & Hb)]; [by left|right].
  exists i, b. destruct (Hrec i b Hi) as (_ & Hib & _). auto.
Qed.

Lemma running_cycle_has_pending_work_witness :
  ((0 < 4)%nat /\
   ib_running (state_of (run decimal_sscanf lone_cycle_trace (cpu_ib_init 4)))
   = true) /\
  (boost_work (state_of (run decimal_sscanf lone_cycle_trace (cpu_ib_init 4)))
   = true \/
   exists i b,
     boost_info (state_of (run decimal_sscanf lone_cycle_trace (cpu_ib_init 4)))
       !! i = Some b /\
     boost_state b = BOOST /\ ib_restore_work b <> None).
Proof.
  split; [split; [lia|vm_compute; reflexivity]|].
  exact (running_cycle_has_pending_work decimal_sscanf 4 lone_cycle_trace
           ltac:(lia) ltac:(vm_compute; reflexivity)).
Defined.

(** ** Input events and display events *)

(** X6.  An input event right after another one is ignored: whatever the
    state, a second [cpu_ib_input_event] changes nothing and neither of
    them calls out of the driver; when no cycle runs, the switch is on and
    the display boost is off, the first one marks the cycle as running and
    queues the cycle-start work. *)
Theorem input_event_starts_one_cycle (s : kstate) :
  cpu_ib_input_event (state_of (cpu_ib_input_event s))
  = (tt, state_of (cpu_ib_input_event s), []) /\
  requests_of (cpu_ib_input_event s) = [] /\
  (ib_running s = false -> enabled s <> 0 -> fb_boost s = UNBOOST ->
   state_of (cpu_ib_input_event s) = set_boost_work true (set_ib_running true s)).
Proof.
  unfold cpu_ib_input_event. drv_eval.
  destruct (ib_running s) eqn:Hr; cbn [orb].
  { drv_eval. rewrite Hr. repeat split. discriminate. }
  destruct (Z.eqb_spec (enabled s) 0) as [He|He]; cbn [orb].
  { drv_eval. rewrite Hr. destruct (Z.eqb_spec (enabled s) 0); [|contradiction].
    repeat split. contradiction. }
  destruct (status_true (fb_boost s)) eqn:Hfb.
  { drv_eval. rewrite Hr, Hfb.
    destruct (Z.eqb_spec (enabled s) 0); [contradiction|].
    repeat split. intros _ _ Hoff. rewrite Hoff in Hfb. discriminate. }
  drv_eval. repeat split.
Qed.

(** A first touch on the configured driver once it is switched on. *)
Lemma input_event_starts_one_cycle_witness :
  (ib_running (set_enabled 1 cycle_config) = false /\
   enabled (set_enabled 1 cycle_config) <> 0 /\
   fb_boost (set_enabled 1 cycle_config) = UNBOOST) /\
  boost_work (state_of (cpu_ib_input_event (set_enabled 1 cycle_config))) = true.
Proof.
  assert (H1 : ib_running (set_enabled 1 cycle_config) = false) by reflexivity.
  assert (H2 : enabled (set_enabled 1 cycle_config) <> 0) by discriminate.
  assert (H3 : fb_boost (set_enabled 1 cycle_config) = UNBOOST) by reflexivity.
  split; [repeat split; assumption|].
  rewrite (proj2 (proj2 (input_event_starts_one_cycle
                           (set_enabled 1 cycle_config))) H1 H2 H3).
  reflexivity.
Defined.

(** X7.  An unblank while the display boost is ACTIVE or in COOLDOWN does
    not start it again: the display boost state and its work are left as
    they are, only the suspend flag is cleared (with the switch on).  More
    generally, delivering any framebuffer event twice in a row is the same
    as delivering it once, and the notifier never calls out. *)
Theorem unblank_during_display_boost (s : kstate) :
  (fb_boost s <> UNBOOST ->
   fb_blank_boost FB_EVENT_BLANK FB_BLANK_UNBLANK s
   = (tt, if enabled s =? 0 then s else set_suspended false s, [])) /\
  (forall val blank,
     state_of (fb_blank_boost val blank (state_of (fb_blank_boost val blank s)))
     = state_of (fb_blank_boost val blank s) /\
     requests_of (fb_blank_boost val blank s) = []).
Proof.
  split.
  - intros Hon. unfold fb_blank_boost. drv_eval.
    destruct (enabled s =? 0); [reflexivity|]. drv_eval.
    destruct (fb_boost s); [contradiction|reflexivity..].
  - intros val blank. unfold fb_blank_boost. drv_eval.
    destruct (Z.eqb_spec (enabled s) 0) as [He|He].
    { drv_eval. rewrite He. cbn. auto. }
    destruct val; [|drv_eval; destruct (enabled s =? 0); auto].
    destruct blank; drv_eval;
      try (destruct (Z.eqb_spec (enabled s) 0); [contradiction|];
           drv_eval; split; reflexivity).
    destruct (status_true (fb_boost s)) eqn:Hfb; drv_eval;
      (destruct (Z.eqb_spec (enabled s) 0); [contradiction|]);
      drv_eval; rewrite ?Hfb; drv_eval; split; reflexivity.
Qed.

(** A second unblank while the display boost is in its cooldown window. *)
Lemma unblank_during_display_boost_witness :
  fb_boost cooldown_state <> UNBOOST /\
  fb_boost_work (state_of (fb_blank_boost FB_EVENT_BLANK FB_BLANK_UNBLANK
                             cooldown_state))
  = fb_boost_work cooldown_state.
Proof.
  assert (H : fb_boost cooldown_state <> UNBOOST) by (vm_compute; discriminate).
  split; [exact H|].
  rewrite (proj1 (unblank_during_display_boost cooldown_state) H).
  vm_compute. reflexivity.
Defined.

Lemma ib_restore_step (sscanf : string -> string -> list Z)
    (online : cpumask) (c : nat) (s : kstate) (b : boost_policy) (d : Z) :
  boost_info s !! c = Some b ->
  cpu b = c ->
  ib_restore_work b = Some d ->
  let r := step sscanf (RunIbRestore online c) s in
  boost_info (state_of r)
  = alter (fun b' => set_boost_state UNBOOST (set_ib_restore_work None b')) c
          (boost_info s) /\
  ib_running (state_of r)
  = ib_running s
    && existsb (fun b' => boost_status_eqb (boost_state b') BOOST)
               (boost_info (state_of r)) /\
  requests_of r = (if cpu_online online c then [UpdatePolicy c] else []).
Proof.
  intros Hb Hc Hw r. subst r.
  unfold step. drv_eval. rewrite Hb. cbn [default from_option id].
  rewrite Hw. unfold ib_restore_main, unboost_cpu. drv_eval.
  rewrite !list_lookup_alter_eq, Hb.
  cbn [fmap option_fmap option_map default from_option id cpu
       set_ib_restore_work set_boost_state].
  rewrite Hc. drv_eval. rewrite !list_lookup_alter_eq, Hb.
  cbn [fmap option_fmap option_map default from_option id cpu
       set_ib_restore_work set_boost_state].
  rewrite Hc, !list_alter_alter_eq.
  change (set_boost_state UNBOOST ∘ set_ib_restore_work None)
    with (fun b' => set_boost_state UNBOOST (set_ib_restore_work None b')).
  set (l' := alter _ c (boost_info s)).
  destruct (cpu_online online c); drv_eval;
    destruct (existsb _ l') eqn:Hex; drv_eval; rewrite ?Hex;
    repeat split; try (by rewrite andb_true_r); by rewrite andb_false_r.
Qed.

Lemma ib_restore_step_boost_work (sscanf : string -> string -> list Z)
    (online : cpumask) (c : nat) (s : kstate) :
  boost_work (state_of (step sscanf (RunIbRestore online c) s)) = boost_work s.
Proof.
  unfold step. drv_eval.
  destruct (ib_restore_work (default (boost_policy_init c) (boost_info s !! c)));
    [|reflexivity].
  unfold ib_restore_main, unboost_cpu. drv_eval.
  destruct (cpu_online online _); drv_eval;
    destruct (existsb _ _); reflexivity.
Qed.

(** X8.  The restore work of CPU [c] ends that CPU's input boost and ends
    the cycle only when it is the last one: the CPU's status becomes
    [UNBOOST] with its restore work idle, no other record changes, the
    running flag is kept when some CPU is still [BOOST] and cleared
    otherwise, the cycle-start work is left as it is, and a policy
    re-evaluation of the CPU is requested when it is online. *)
Theorem restore_ends_boost (sscanf : string -> string -> list Z)
    (online : cpumask) (c : nat) (s : kstate) (b : boost_policy) (d : Z) :
  boost_info s !! c = Some b ->
  cpu b = c ->
  ib_restore_work b = Some d ->
  let r := step sscanf (RunIbRestore online c) s in
  boost_info (state_of r) !! c
  = Some (set_boost_state UNBOOST (set_ib_restore_work None b)) /\
  (forall j, j <> c -> boost_info (state_of r) !! j = boost_info s !! j) /\
  ib_running (state_of r)
  = ib_running s
    && existsb (fun b' => boost_status_eqb (boost_state b') BOOST)
               (boost_info (state_of r)) /\
  boost_work (state_of r) = boost_work s /\
  requests_of r = (if cpu_online online c then [UpdatePolicy c] else []).
Proof.
  intros Hb Hc Hw r.
  destruct (ib_restore_step sscanf online c s b d Hb Hc Hw)
    as (Hinfo & Hrun & Hreq).
  fold r in Hinfo, Hrun, Hreq.
  split; [by rewrite Hinfo, list_lookup_alter_eq, Hb|].
  split; [intros j Hj; by rewrite Hinfo, list_lookup_alter_ne|].
  split; [exact Hrun|].
  split; [apply ib_restore_step_boost_work|exact Hreq].
Qed.

(** CPU0 and CPU1 are boosted; CPU0's restore work runs first and the
    cycle goes on. *)
Lemma restore_ends_boost_witness :
  (boost_info two_cpu_cycle_state !! 0%nat
   = Some (mkBoostPolicy (Some 1060) None false 0 BOOST 0 0 0 0) /\
   cpu (mkBoostPolicy (Some 1060) None false 0 BOOST 0 0 0 0) = 0%nat /\
   ib_restore_work (mkBoostPolicy (Some 1060) None false 0 BOOST 0 0 0 0)
   = Some 1060) /\
  boost_info (state_of (step decimal_sscanf (RunIbRestore online4 0)
                          two_cpu_cycle_state)) !! 0%nat
  = Some (mkBoostPolicy None None false 0 UNBOOST 0 0 0 0).
Proof.
  split; [repeat split; vm_compute; reflexivity|].
  destruct (restore_ends_boost decimal_sscanf online4 0 two_cpu_cycle_state
              (mkBoostPolicy (Some 1060) None false 0 BOOST 0 0 0 0) 1060)
    as (Hinfo & _); [vm_compute; reflexivity..|].
  exact Hinfo.
Defined.

(** ** The migration mailbox *)

Lemma boost_migration_notify_closed (s : kstate) (mnd : migration_notify_data)
    (is_current : bool) :
  posts s mnd is_current = false ->
  boost_migration_notify mnd is_current s = (tt, s, []).
Proof.
  unfold boost_migration_notify, posts. drv_eval.
  destruct ((enabled s =? 0) || (migration_boost_ms s =? 0)); [reflexivity|].
  destruct (suspended s || status_true (fb_boost s)); [reflexivity|].
  destruct (load_based_syncs s
            && (u32 (mnd_load mnd) <=? migration_load_threshold s));
    [reflexivity|].
  destruct (load_based_syncs s && ((mnd_load mnd <? 0) || (100 <? mnd_load mnd)));
    [reflexivity|].
  destruct is_current; [reflexivity|]. discriminate.
Qed.

Lemma sync_record_pending (get_policy : nat -> option cpufreq_policy)
    (online : cpumask) (dest : nat) (boost_ms : Z) (b : boost_policy) :
  pending (sync_record get_policy online dest boost_ms b) = false.
Proof.
  unfold sync_record, apply_migration.
  destruct (pending b) eqn:Hp; cbn [negb]; [|exact Hp].
  destruct (get_policy (src_cpu b)); [|reflexivity].
  destruct (get_policy dest); [|reflexivity].
  destruct (_ <=? _); [reflexivity|].
  destruct (cpu_online online dest); reflexivity.
Qed.

(** X9.  What the migration notifier never posts: with the switch off, a
    migration boost duration of 0, the display off or being boosted, or
    when called from the destination's own sync thread, it changes nothing
    and wakes nobody; with load gating on the same holds for a load that is
    negative, above 100, or not above the threshold. *)
Theorem migration_notify_gates (s : kstate) (mnd : migration_notify_data)
    (is_current : bool) :
  (enabled s = 0 \/ migration_boost_ms s = 0 \/ suspended s = true \/
   fb_boost s <> UNBOOST \/ is_current = true ->
   boost_migration_notify mnd is_current s = (tt, s, [])) /\
  (load_based_syncs s = true ->
   mnd_load mnd < 0 \/ 100 < mnd_load mnd \/
   mnd_load mnd <= migration_load_threshold s ->
   boost_migration_notify mnd is_current s = (tt, s, [])).
Proof.
  split.
  - intros H. apply boost_migration_notify_closed. unfold posts.
    destruct H as [H|[H|[H|[H|H]]]].
    + rewrite H. reflexivity.
    + rewrite H, orb_true_r. reflexivity.
    + rewrite H, andb_false_r. reflexivity.
    + destruct (fb_boost s); [contradiction|..];
        cbn [status_true]; rewrite orb_true_r, andb_false_r; reflexivity.
    + rewrite H, andb_false_r. reflexivity.
  - intros Hg H. apply boost_migration_notify_closed. unfold posts.
    rewrite Hg. cbn [andb].
    destruct (Z.ltb_spec (mnd_load mnd) 0) as [Hn|Hn];
      [cbn [orb negb]; by rewrite andb_false_r|].
    destruct (Z.ltb_spec 100 (mnd_load mnd)) as [Hh|Hh];
      [cbn [orb negb]; by rewrite andb_false_r|].
    destruct H as [H|[H|H]]; [lia..|].
    assert (Hu : u32 (mnd_load mnd) = mnd_load mnd)
      by (unfold u32; apply Z.mod_small; lia).
    rewrite Hu. destruct (Z.leb_spec (mnd_load mnd) (migration_load_threshold s));
      [|lia].
    cbn [negb]. by rewrite !andb_false_r.
Qed.

(** A load of 30 % with the gate at 50 %. *)
Lemma migration_notify_gates_witness :
  (load_based_syncs gated_config = true /\
   (mnd_load (mkMnd 0 2 30) < 0 \/ 100 < mnd_load (mkMnd 0 2 30) \/
    mnd_load (mkMnd 0 2 30) <= migration_load_threshold gated_config)) /\
  boost_migration_notify (mkMnd 0 2 30) false gated_config
  = (tt, gated_config, []).
Proof.
  assert (Hg : load_based_syncs gated_config = true) by (vm_compute; reflexivity).
  assert (Hl : mnd_load (mkMnd 0 2 30) < 0 \/ 100 < mnd_load (mkMnd 0 2 30) \/
               mnd_load (mkMnd 0 2 30) <= migration_load_threshold gated_config)
    by (right; right; vm_compute; discriminate).
  split; [split; assumption|].
  exact (proj2 (migration_notify_gates gated_config (mkMnd 0 2 30) false) Hg Hl).
Defined.

(** X10.  With load gating on, the load of the event does reach the sync
    thread: for a posted request with a load above the threshold and at
    most 100, a turn of the destination's thread sets the migration floor
    to max(destination.max x load / 100, source.cur) when that is above the
    destination's hardware minimum and the destination is online, arms the
    removal work for the migration boost duration and empties the
    mailbox. *)
Theorem migration_boost_with_load_gating
    (s : kstate) (mnd : migration_notify_data)
    (get_policy : nat -> option cpufreq_policy) (online : cpumask)
    (b : boost_policy) (src_policy dest_policy : cpufreq_policy) :
  enabled s <> 0 -> migration_boost_ms s <> 0 ->
  suspended s = false -> fb_boost s = UNBOOST ->
  load_based_syncs s = true ->
  0 <= migration_load_threshold s < mnd_load mnd ->
  mnd_load mnd <= 100 ->
  boost_info s !! mnd_dest_cpu mnd = Some b ->
  get_policy (mnd_src_cpu mnd) = Some src_policy ->
  get_policy (mnd_dest_cpu mnd) = Some dest_policy ->
  0 <= pol_max dest_policy * mnd_load mnd < 2 ^ 32 ->
  let floor := Z.max (pol_max dest_policy * mnd_load mnd / 100)
                     (pol_cur src_policy) in
  cpuinfo_min_freq dest_policy < floor ->
  cpu_online online (mnd_dest_cpu mnd) = true ->
  let s1 := state_of (boost_migration_notify mnd false s) in
  let s2 := state_of (boost_mig_sync_thread get_policy online
                        (mnd_dest_cpu mnd) s1) in
  exists b2,
    boost_info s2 !! mnd_dest_cpu mnd = Some b2 /\
    migration_freq b2 = floor /\
    mig_boost_rem b2 = Some (migration_boost_ms s) /\
    pending b2 = false.
Proof.
  intros He Hms Hsu Hfb Hg Hthr Hhi Hb Hsp Hdp Hrange floor Hfloor Hon s1 s2.
  assert (Hu : u32 (mnd_load mnd) = mnd_load mnd)
    by (unfold u32; apply Z.mod_small; lia).
  assert (Hposts : posts s mnd false = true).
  { unfold posts. rewrite Hsu, Hfb, Hg, Hu. cbn [status_true orb andb negb].
    destruct (Z.eqb_spec (enabled s) 0); [contradiction|].
    destruct (Z.eqb_spec (migration_boost_ms s) 0); [contradiction|].
    destruct (Z.leb_spec (mnd_load mnd) (migration_load_threshold s)); [lia|].
    destruct (Z.ltb_spec (mnd_load mnd) 0); [lia|].
    destruct (Z.ltb_spec 100 (mnd_load mnd)); [lia|]. reflexivity. }
  subst s2 s1. rewrite boost_mig_sync_thread_state.
  rewrite boost_migration_notify_state, Hposts.
  cbn [boost_info set_boost_info migration_boost_ms].
  rewrite !list_lookup_alter_eq, Hb. cbn [fmap option_fmap option_map].
  eexists. split; [reflexivity|].
  set (b1 := wake_up (post_request s mnd b)).
  assert (Hb1 : pending b1 = true /\ src_cpu b1 = mnd_src_cpu mnd /\
                task_load b1 = mnd_load mnd).
  { subst b1. unfold wake_up, post_request. rewrite Hg, Hu.
    destruct (being_woken _ =? 0); cbn; auto. }
  destruct Hb1 as (Hp & Hsrc & Hload).
  unfold sync_record. rewrite Hp, Hsrc, Hsp, Hdp, Hload. cbn [negb].
  unfold req_freq, u32. rewrite (Z.mod_small _ _ Hrange). fold floor.
  destruct (Z.leb_spec floor (cpuinfo_min_freq dest_policy)); [lia|].
  rewrite Hon. cbn. auto.
Qed.

(** The scenario with the gate at 50 %: load 80 %, source at 1.2 GHz,
    destination maximum 2.0 GHz; the floor is 1.6 GHz. *)
Lemma migration_boost_with_load_gating_witness :
  exists b2,
    boost_info
      (state_of
         (boost_mig_sync_thread scenario_policies online4 2
            (state_of (boost_migration_notify scenario_mnd false gated_config))))
      !! 2%nat = Some b2 /\
    migration_freq b2 = 1600000 /\
    mig_boost_rem b2 = Some 40 /\
    pending b2 = false.
Proof.
  apply (migration_boost_with_load_gating gated_config scenario_mnd
           scenario_policies online4 (boost_policy_init 2)
           (policy_of 0 1200000) (policy_of 2 300000));
    vm_compute; try reflexivity; try discriminate;
    split; discriminate || reflexivity.
Defined.

(** X11.  The mailbox of a CPU holds one request: of two migration events
    for the same destination delivered before its thread runs, the second,
    when it is posted, overwrites the first; the state is the one the
    second alone would have left. *)
Theorem migration_mailbox_last_wins (s : kstate)
    (m1 m2 : migration_notify_data) (cur1 cur2 : bool) :
  mnd_dest_cpu m1 = mnd_dest_cpu m2 ->
  posts s m2 cur2 = true ->
  state_of (boost_migration_notify m2 cur2
              (state_of (boost_migration_notify m1 cur1 s)))
  = state_of (boost_migration_notify m2 cur2 s).
Proof.
  intros Hd H2. rewrite !boost_migration_notify_state.
  destruct (posts s m1 cur1); [|reflexivity].
  change (posts (set_boost_info ?l s) m2 cur2) with (posts s m2 cur2).
  rewrite H2, set_boost_info_set, Hd.
  set (l1 := alter _ (mnd_dest_cpu m2) (boost_info s)).
  change (boost_info (set_boost_info l1 s)) with l1.
  change (post_request (set_boost_info l1 s) m2) with (post_request s m2).
  subst l1. rewrite list_alter_alter_eq. f_equal.
  destruct (boost_info s !! mnd_dest_cpu m2) as [b|] eqn:Hb.
  - apply (alter_ext_at _ _ _ _ b Hb).
    unfold compose, wake_up, post_request.
    destruct (being_woken b =? 0) eqn:Hw; cbn; rewrite ?Hw; cbn;
      rewrite ?Hw; reflexivity.
  - rewrite !alter_fixed; try reflexivity; intros b' Hb'; congruence.
Qed.

(** Two tasks move to CPU2, from CPU0 and then from CPU1. *)
Lemma migration_mailbox_last_wins_witness :
  (mnd_dest_cpu (mkMnd 0 2 80) = mnd_dest_cpu (mkMnd 1 2 20) /\
   posts migration_config (mkMnd 1 2 20) false = true) /\
  (src_cpu <$>
   boost_info
     (state_of (boost_migration_notify (mkMnd 1 2 20) false
                  (state_of (boost_migration_notify (mkMnd 0 2 80) false
                               migration_config)))) !! 2%nat) = Some 1%nat.
Proof.
  split; [split; vm_compute; reflexivity|].
  rewrite (migration_mailbox_last_wins migration_config (mkMnd 0 2 80)
             (mkMnd 1 2 20) false false);
    vm_compute; reflexivity.
Defined.

(** X12.  A turn of the sync thread empties the mailbox, whatever it finds
    there: the destination's request is no longer pending afterwards, and a
    second turn without a new request changes nothing and requests
    nothing. *)
Theorem sync_thread_drains_mailbox
    (get_policy get_policy' : nat -> option cpufreq_policy)
    (online online' : cpumask) (dest : nat) (s : kstate) :
  let s1 := state_of (boost_mig_sync_thread get_policy online dest s) in
  (forall b, boost_info s1 !! dest = Some b -> pending b = false) /\
  boost_mig_sync_thread get_policy' online' dest s1 = (tt, s1, []).
Proof.
  intros s1.
  assert (Hp : forall b, boost_info s1 !! dest = Some b -> pending b = false).
  { subst s1. rewrite boost_mig_sync_thread_state.
    unfold set_boost_info. cbn [boost_info]. intros b. rewrite list_lookup_alter_eq.
    destruct (boost_info s !! dest) as [b0|]; cbn; [|discriminate].
    intros [= <-]. apply sync_record_pending. }
  split; [exact Hp|].
  unfold boost_mig_sync_thread. drv_eval.
  destruct (boost_info s1 !! dest) as [b|] eqn:Hb; cbn [default from_option id].
  - rewrite (Hp b eq_refl). reflexivity.
  - reflexivity.
Qed.

(** CPU2's thread takes the request of the scenario; its next turn finds
    nothing. *)
Lemma sync_thread_drains_mailbox_witness :
  boost_mig_sync_thread idle_policies online4 2
    (state_of (boost_mig_sync_thread scenario_policies online4 2 pending_state))
  = (tt,
     state_of (boost_mig_sync_thread scenario_policies online4 2 pending_state),
     []).
Proof.
  exact (proj2 (sync_thread_drains_mailbox scenario_policies idle_policies
                  online4 online4 2 pending_state)).
Defined.

(** ** The floor handed to the governor *)

(** X13.  The policy notifier writes nothing of a policy but its minimum,
    and keeps the minimum in range: for a policy that comes in with
    hardware minimum <= min <= max, the minimum that goes out is at most
    the maximum, whatever the event and the state; it is at least the
    hardware minimum when both input boost frequencies are. *)
Theorem policy_floor_in_range (val : cpufreq_event) (policy : cpufreq_policy)
    (now : Z) (s : kstate) :
  cpuinfo_min_freq policy <= pol_min policy <= pol_max policy ->
  let p := value_of (do_cpu_boost val policy now s) in
  (pol_cpu p = pol_cpu policy /\ pol_max p = pol_max policy /\
   pol_cur p = pol_cur policy /\
   cpuinfo_min_freq p = cpuinfo_min_freq policy) /\
  pol_min p <= pol_max policy /\
  (cpuinfo_min_freq policy <= ib_freq s 0 ->
   cpuinfo_min_freq policy <= ib_freq s 1 ->
   cpuinfo_min_freq policy <= pol_min p).
Proof.
  intros Hr p. subst p. unfold do_cpu_boost. drv_eval.
  destruct ((enabled s =? 0) && (pol_min policy =? cpuinfo_min_freq policy)).
  { cbn. repeat split; lia. }
  destruct val; try (drv_eval; cbn; repeat split; lia).
  destruct (status_true (fb_boost s)).
  { cbn. repeat split; lia. }
  set (b := default (boost_policy_init (pol_cpu policy))
                    (boost_info s !! pol_cpu policy)).
  set (c := pol_cpu policy).
  assert (H01 : forall i, ib_freq s i = ib_freq s 0 \/ ib_freq s i = ib_freq s 1).
  { intros [|i]; auto. }
  destruct (H01 (if Nat.eqb c 0 then 0 else 1)%nat) as [Hi|Hi];
  destruct ((ib_nr_cpus_boosted s <? ib_nr_cpus_to_boost s) && negb (Nat.eqb c 0));
    [destruct (0 <? remaining_ms s now)|
     |destruct (0 <? remaining_ms s now)|];
    drv_eval;
    match goal with
    | |- context [pol_min ?q <? migration_freq ?b'] =>
        destruct (Z.ltb_spec (pol_min q) (migration_freq b')) as [Hm|Hm]
    end;
    destruct (boost_state b); cbn in *; rewrite ?Hi; repeat split; lia.
Qed.

(** CPU1 is admitted with a floor of 0.3 GHz coming in. *)
Lemma policy_floor_in_range_witness :
  cpuinfo_min_freq (policy_of 1 300000) <= pol_min (policy_of 1 300000)
  <= pol_max (policy_of 1 300000) /\
  pol_min (value_of (do_cpu_boost CPUFREQ_ADJUST (policy_of 1 300000) 1100
                       lone_cycle_state)) <= 2000000.
Proof.
  assert (Hr : cpuinfo_min_freq (policy_of 1 300000)
               <= pol_min (policy_of 1 300000)
               <= pol_max (policy_of 1 300000))
    by (split; vm_compute; discriminate).
  split; [exact Hr|].
  exact (proj1 (proj2 (policy_floor_in_range CPUFREQ_ADJUST (policy_of 1 300000)
                         1100 lone_cycle_state Hr))).
Defined.

(** ** Before the switch is first written *)

Lemma per_cpu_init (nr_cpus c : nat) :
  default (boost_policy_init c) (boost_info (cpu_ib_init nr_cpus) !! c)
  = boost_policy_init c.
Proof.
  cbn [cpu_ib_init boost_info].
  change (map boost_policy_init (seq 0 nr_cpus))
    with (boost_policy_init <$> seq 0 nr_cpus).
  rewrite list_lookup_fmap.
  destruct (seq 0 nr_cpus !! c) as [i|] eqn:Hi; [|reflexivity].
  apply lookup_seq in Hi as [-> _]. reflexivity.
Qed.

Lemma inert_init (nr_cpus : nat) : inert nr_cpus (cpu_ib_init nr_cpus).
Proof. repeat split. Qed.

Lemma inert_step (sscanf : string -> string -> list Z) (nr_cpus : nat)
    (e : event) (s : kstate) :
  inert nr_cpus s -> is_enabled_write e = false ->
  inert nr_cpus (state_of (step sscanf e s)) /\
  (forall r, In r (requests_of (step sscanf e s)) ->
             exists c, r = SetCpusAllowed c).
Proof.
  intros (He & Hinfo & Hfw & Hbw & Hrun & Hsus & Hfb & Hnb & Hntb) Hw.
  assert (Hs : inert nr_cpus s) by (repeat split; assumption).
  assert (Hpc : forall c, default (boost_policy_init c) (boost_info s !! c)
                          = boost_policy_init c).
  { intros c. rewrite Hinfo. apply per_cpu_init. }
  assert (Hdone : forall (m : M unit), m s = (tt, s, []) ->
            inert nr_cpus (state_of (m s)) /\
            (forall r, In r (requests_of (m s)) -> exists c, r = SetCpusAllowed c)).
  { intros m ->. split; [exact Hs|]. intros r []. }
  destruct e as [|online now|online c|val blank|online|val policy now|c
                 |mnd cur|gp online dest|a online buf size].
  - apply Hdone. unfold step, cpu_ib_input_event. drv_eval.
    rewrite Hrun, He. reflexivity.
  - apply Hdone. unfold step. drv_eval. rewrite Hbw. reflexivity.
  - apply Hdone. unfold step. drv_eval. rewrite Hpc. reflexivity.
  - apply Hdone. unfold step, fb_blank_boost. drv_eval. rewrite He. reflexivity.
  - apply Hdone. unfold step. drv_eval. rewrite Hfw. reflexivity.
  - unfold step, do_cpu_boost. drv_eval. rewrite He, Hpc.
    cbn [Z.eqb andb].
    destruct (pol_min policy =? cpuinfo_min_freq policy);
      [split; [exact Hs|intros r []]|].
    destruct val; drv_eval;
      try solve [split; [exact Hs|intros r []]].
    + rewrite Hfb. cbn [status_true boost_status_eqb negb]. drv_eval. rewrite Hnb, Hntb, ?Hpc.
      cbn [Z.ltb Z.compare andb boost_state boost_policy_init migration_freq].
      drv_eval. rewrite ?Hpc. cbn [migration_freq boost_policy_init].
      destruct (_ <? _); drv_eval; split; (exact Hs || intros r []).
    + split; [exact Hs|]. intros r [<-|[]]. eauto.
  - apply Hdone. unfold step. drv_eval. rewrite Hpc. reflexivity.
  - apply Hdone. unfold step, boost_migration_notify. drv_eval.
    rewrite He. reflexivity.
  - apply Hdone. unfold step, boost_mig_sync_thread. drv_eval.
    rewrite Hpc. reflexivity.
  - destruct a; [discriminate Hw|..];
      unfold step, sysfs_write, ib_freqs_write, ib_duration_ms_write,
        load_based_syncs_write, migration_boost_ms_write,
        migration_load_threshold_write.
    + destruct (sscanf _ buf) as [|f0 [|f1 [|? ?]]]; drv_eval;
        try solve [split; [exact Hs|intros r []]].
      destruct ((f0 =? 0) || (f1 =? 0)); drv_eval;
        (split; [repeat split; assumption|intros r []]).
    + destruct (sscanf _ buf) as [|d [|? ?]]; drv_eval;
        try solve [split; [exact Hs|intros r []]].
      destruct (d =? 0); drv_eval;
        (split; [repeat split; assumption|intros r []]).
    + destruct (sscanf _ buf) as [|d [|? ?]]; drv_eval;
        (split; [repeat split; assumption|intros r []]).
    + destruct (sscanf _ buf) as [|d [|? ?]]; drv_eval;
        (split; [repeat split; assumption|intros r []]).
    + destruct (sscanf _ buf) as [|d [|? ?]]; drv_eval;
        (split; [repeat split; assumption|intros r []]).
Qed.

Lemma inert_run (sscanf : string -> string -> list Z) (nr_cpus : nat)
    (es : list event) (s : kstate) :
  inert nr_cpus s ->
  Forall (fun e => is_enabled_write e = false) es ->
  inert nr_cpus (state_of (run sscanf es s)) /\
  (forall r, In r (requests_of (run sscanf es s)) ->
             exists c, r = SetCpusAllowed c).
Proof.
  revert s. induction es as [|e rest IH]; intros s Hs Hes.
  { split; [exact Hs|intros r []]. }
  inversion Hes as [|? ? He Hrest]; subst.
  destruct (inert_step sscanf nr_cpus e s Hs He) as [Hs1 Hr1].
  destruct (IH _ Hs1 Hrest) as [Hs2 Hr2].
  cbn [run]. rewrite state_bind, requests_bind. split; [exact Hs2|].
  intros r Hr. apply in_app_or in Hr as [Hr|Hr]; auto.
Qed.

Lemma inert_policy (nr_cpus : nat) (s : kstate) (val : cpufreq_event)
    (policy : cpufreq_policy) (now : Z) :
  inert nr_cpus s ->
  0 <= cpuinfo_min_freq policy ->
  state_of (do_cpu_boost val policy now s) = s /\
  value_of (do_cpu_boost val policy now s)
  = match val with
    | CPUFREQ_ADJUST => set_pol_min (cpuinfo_min_freq policy) policy
    | _ => policy
    end.
Proof.
  intros (He & Hinfo & Hfw & Hbw & Hrun & Hsus & Hfb & Hnb & Hntb) Hmin.
  assert (Hpc : forall c, default (boost_policy_init c) (boost_info s !! c)
                          = boost_policy_init c).
  { intros c. rewrite Hinfo. apply per_cpu_init. }
  unfold do_cpu_boost. drv_eval. rewrite He, Hpc. cbn [Z.eqb andb].
  destruct (Z.eqb_spec (pol_min policy) (cpuinfo_min_freq policy)) as [Hm|Hm].
  { split; [reflexivity|]. cbn [value_of fst].
    destruct val; try reflexivity.
    rewrite <- Hm. symmetry. apply set_pol_min_same. }
  destruct val; drv_eval; try (split; reflexivity).
  rewrite Hfb. cbn [status_true boost_status_eqb negb]. drv_eval.
  rewrite Hnb, Hntb, ?Hpc.
  cbn [Z.ltb Z.compare andb boost_state boost_policy_init migration_freq].
  drv_eval. rewrite ?Hpc. cbn [migration_freq boost_policy_init pol_min set_pol_min].
  destruct (Z.ltb_spec (cpuinfo_min_freq policy) 0); [lia|].
  split; reflexivity.
Qed.

(** X14.  Until [enabled] is first written the driver boosts nothing:
    after any events from start-up other than a write of that attribute,
    the switch is off, every per-CPU record is as at start-up, no work is
    pending, no cycle runs, and the only calls out of the driver are the
    thread pinnings of [CPUFREQ_START].  A policy evaluation in such a
    state changes no variable and never raises the floor: on
    [CPUFREQ_ADJUST] the policy goes back with its minimum set to the
    hardware minimum, which lowers a minimum that came in above it, and on
    any other event it goes back as it came. *)
Theorem never_enabled_never_boosts (sscanf : string -> string -> list Z)
    (nr_cpus : nat) (es : list event) :
  Forall (fun e => is_enabled_write e = false) es ->
  let r := run sscanf es (cpu_ib_init nr_cpus) in
  inert nr_cpus (state_of r) /\
  (forall q, In q (requests_of r) -> exists c, q = SetCpusAllowed c) /\
  (forall val policy now,
     0 <= cpuinfo_min_freq policy ->
     state_of (do_cpu_boost val policy now (state_of r)) = state_of r /\
     value_of (do_cpu_boost val policy now (state_of r))
     = match val with
       | CPUFREQ_ADJUST => set_pol_min (cpuinfo_min_freq policy) policy
       | _ => policy
       end).
Proof.
  intros Hes r.
  destruct (inert_run sscanf nr_cpus es _ (inert_init nr_cpus) Hes)
    as [Hinert Hreq].
  fold r in Hinert, Hreq.
  split; [exact Hinert|]. split; [exact Hreq|].
  intros val policy now Hmin. by apply (inert_policy nr_cpus).
Qed.

(** A touch, an unblank and a migration on a driver that was never
    switched on, then the evaluation of a policy whose minimum of 0.4 GHz
    is above the hardware minimum of 0.3 GHz: it goes back at 0.3 GHz. *)
Lemma never_enabled_never_boosts_witness :
  pol_min
    (value_of
       (do_cpu_boost CPUFREQ_ADJUST raised_policy 0
          (state_of (run decimal_sscanf
                       [InputEvent; FbNotify FB_EVENT_BLANK FB_BLANK_UNBLANK;
                        SysfsWrite attr_migration_boost_ms online4 "40" 3;
                        MigrationNotify scenario_mnd false]
                       (cpu_ib_init 4))))) = 300000.
Proof.
  assert (Hes : Forall (fun e => is_enabled_write e = false)
                  [InputEvent; FbNotify FB_EVENT_BLANK FB_BLANK_UNBLANK;
                   SysfsWrite attr_migration_boost_ms online4 "40" 3;
                   MigrationNotify scenario_mnd false])
    by repeat constructor.
  assert (Hmin : 0 <= cpuinfo_min_freq raised_policy)
    by (vm_compute; discriminate).
  destruct (never_enabled_never_boosts decimal_sscanf 4 _ Hes)
    as (_ & _ & Hpol).
  destruct (Hpol CPUFREQ_ADJUST raised_policy 0 Hmin) as [_ Hval].
  rewrite Hval. reflexivity.
Defined.

(** ** The sysfs attributes *)

(** X15.  A store either fails with [-EINVAL] and leaves the state as it
    was, or returns the size written, after which the attribute's show
    prints the values that were converted ([load_based_syncs] prints 1 for
    any nonzero value). *)
Theorem sysfs_read_back (sscanf : string -> string -> list Z)
    (a : sysfs_attr) (online : cpumask) (buf : string) (size : Z)
    (s : kstate) :
  let r := sysfs_write sscanf a online buf size s in
  (value_of r = - EINVAL /\ state_of r = s /\ requests_of r = []) \/
  (value_of r = size /\
   sysfs_read a (state_of r) = as_shown a (sscanf (sysfs_format a) buf)).
Proof.
  intros r. subst r.
  destruct a;
    unfold sysfs_write, enabled_write, ib_freqs_write, ib_duration_ms_write,
      load_based_syncs_write, migration_boost_ms_write,
      migration_load_threshold_write, sysfs_format, as_shown, sysfs_read;
    destruct (sscanf _ buf) as [|d0 [|d1 [|? ?]]]; drv_eval;
    try solve [left; repeat split | right; repeat split].
  - right. destruct (d0 =? 0) eqn:Hd; drv_eval; [|repeat split].
    pose proof (stop_remove_all_boosts_state online (set_enabled d0 s)) as Hst.
    unfold state_of in Hst.
    destruct (stop_remove_all_boosts online (set_enabled d0 s)) as [[u s1] o].
    cbn [fst snd] in Hst. cbn [fst snd]. rewrite Hst.
    split; reflexivity.
  - destruct ((d0 =? 0) || (d1 =? 0)); drv_eval;
      [left; repeat split | right; repeat split].
  - destruct (d0 =? 0); drv_eval; [left; repeat split | right; repeat split].
  - right. split; [reflexivity|].
    unfold load_based_syncs_read. cbn [load_based_syncs map].
    destruct (d0 =? 0); reflexivity.
Qed.

(** Any nonzero value switches load gating on and reads back as 1. *)
Lemma sysfs_read_back_witness :
  sysfs_read attr_load_based_syncs
    (state_of (sysfs_write decimal_sscanf attr_load_based_syncs online4 "7" 2
                 migration_config)) = [1].
Proof.
  destruct (sysfs_read_back decimal_sscanf attr_load_based_syncs online4 "7" 2
              migration_config) as [(Hv & _)|(_ & Hr)].
  - vm_compute in Hv. discriminate Hv.
  - rewrite Hr. vm_compute. reflexivity.
Defined.

(** X16.  A store to one attribute never changes what the show of another
    attribute prints; this includes a store of 0 to [enabled], which stops
    every boost but keeps every tunable. *)
Theorem sysfs_writes_independent (sscanf : string -> string -> list Z)
    (a a' : sysfs_attr) (online : cpumask) (buf : string) (size : Z)
    (s : kstate) :
  a <> a' ->
  sysfs_read a' (state_of (sysfs_write sscanf a online buf size s))
  = sysfs_read a' s.
Proof.
  intros Hne.
  destruct a;
    unfold sysfs_write, enabled_write, ib_freqs_write, ib_duration_ms_write,
      load_based_syncs_write, migration_boost_ms_write,
      migration_load_threshold_write;
    destruct (sscanf _ buf) as [|d0 [|d1 [|? ?]]]; drv_eval;
    try reflexivity.
  - destruct (d0 =? 0) eqn:Hd; drv_eval.
    + pose proof (stop_remove_all_boosts_state online (set_enabled d0 s)) as Hst.
      unfold state_of in Hst.
      destruct (stop_remove_all_boosts online (set_enabled d0 s)) as [[u s1] o].
      cbn [fst snd] in Hst. cbn [fst snd]. rewrite Hst.
      destruct a'; [contradiction|reflexivity..].
    + destruct a'; [contradiction|reflexivity..].
  - destruct ((d0 =? 0) || (d1 =? 0)); drv_eval;
      destruct a'; try contradiction; reflexivity.
  - destruct (d0 =? 0); drv_eval;
      destruct a'; try contradiction; reflexivity.
  - destruct a'; try contradiction; reflexivity.
  - destruct a'; try contradiction; reflexivity.
  - destruct a'; try contradiction; reflexivity.
Qed.

(** Switching the driver off keeps the input boost frequencies. *)
Lemma sysfs_writes_independent_witness :
  attr_enabled <> attr_ib_freqs /\
  sysfs_read attr_ib_freqs
    (state_of (sysfs_write decimal_sscanf attr_enabled online4 "0" 2
                 lone_cycle_state))
  = sysfs_read attr_ib_freqs lone_cycle_state.
Proof.
  assert (Hne : attr_enabled <> attr_ib_freqs) by discriminate.
  split; [exact Hne|].
  exact (sysfs_writes_independent decimal_sscanf attr_enabled attr_ib_freqs
           online4 "0" 2 lone_cycle_state Hne).
Defined.

(** ** The input handler *)

(** X17.  [cpu_ib_input_connect] succeeds exactly when the allocation, the
    registration and the opening of the device all do; on every error path
    it returns the error of the step that failed and has released what it
    took, so the input core is as before; a disconnect undoes a successful
    connect. *)
Theorem input_connect_no_leak (kzalloc_ok : bool) (register_err open_err : Z)
    (ic : input_core) :
  let r := cpu_ib_input_connect kzalloc_ok register_err open_err ic in
  (fst r = 0 <-> kzalloc_ok = true /\ register_err = 0 /\ open_err = 0) /\
  (fst r <> 0 -> snd r = ic) /\
  (fst r = 0 -> cpu_ib_input_disconnect (snd r) = ic) /\
  (kzalloc_ok = false -> fst r = - ENOMEM) /\
  (kzalloc_ok = true -> register_err <> 0 -> fst r = register_err) /\
  (kzalloc_ok = true -> register_err = 0 -> fst r = open_err).
Proof.
  intros r. subst r. unfold cpu_ib_input_connect, cpu_ib_input_disconnect.
  destruct ic as [a g o].
  destruct kzalloc_ok; cbn [negb fst snd].
  2:{ unfold ENOMEM. intuition (try discriminate; try congruence). }
  destruct (Z.eqb_spec register_err 0) as [Hr|Hr]; cbn [negb fst snd].
  2:{ intuition (try discriminate; try congruence). }
  destruct (Z.eqb_spec open_err 0) as [Ho|Ho]; cbn [negb fst snd];
    intuition (try discriminate; try congruence).
Qed.

(** The device cannot be opened: nothing is left behind. *)
Lemma input_connect_no_leak_witness :
  fst (cpu_ib_input_connect true 0 (-19) (mkInputCore 3 3 3)) <> 0 /\
  snd (cpu_ib_input_connect true 0 (-19) (mkInputCore 3 3 3))
  = mkInputCore 3 3 3.
Proof.
  assert (Hr : fst (cpu_ib_input_connect true 0 (-19) (mkInputCore 3 3 3)) <> 0)
    by (vm_compute; discriminate).
  split; [exact Hr|].
  exact (proj1 (proj2 (input_connect_no_leak true 0 (-19) (mkInputCore 3 3 3)))
           Hr).
Defined.

(** ** Start-up *)

(** X18.  The return value of [cpu_ib_init]: [-EFAULT] with nothing
    registered when the workqueue cannot be allocated; otherwise both
    notifiers and one sync thread per possible CPU are set up and stay so
    on every later path, including the error returns; a failure of the
    input handler or of the sysfs group is returned, while a failure to
    create the kobject returns 0 with no sysfs interface; the kobject is
    never left without its attribute group. *)
Theorem init_return_codes (nr_cpus : nat) (wq_ok : bool) (handler_err : Z)
    (kobj_ok : bool) (sysfs_err : Z) :
  let r := cpu_ib_init_call nr_cpus wq_ok handler_err kobj_ok sysfs_err in
  (wq_ok = false -> r = (- EFAULT, [])) /\
  (wq_ok = true ->
   exists rest, snd r = early_registrations nr_cpus ++ rest /\
     (In InputHandler rest <-> handler_err = 0) /\
     (In Kobject rest <-> In SysfsGroup rest) /\
     (In SysfsGroup rest <-> fst r = 0 /\ kobj_ok = true)) /\
  (wq_ok = true -> handler_err <> 0 -> fst r = handler_err) /\
  (wq_ok = true -> handler_err = 0 -> kobj_ok = false -> fst r = 0) /\
  (wq_ok = true -> handler_err = 0 -> kobj_ok = true -> fst r = sysfs_err).
Proof.
  intros r. subst r. unfold cpu_ib_init_call.
  fold (early_registrations nr_cpus).
  destruct wq_ok; cbn [negb].
  2:{ intuition discriminate. }
  split; [discriminate|].
  destruct (Z.eqb_spec handler_err 0) as [Hh|Hh]; cbn [negb fst snd].
  2:{ split; [intros _; exists []; rewrite app_nil_r; cbn [In]|];
        intuition (try discriminate; try congruence). }
  destruct kobj_ok; cbn [negb fst snd].
  2:{ split; [intros _; exists [InputHandler]; cbn [In]|];
        intuition (try discriminate; try congruence). }
  destruct (Z.eqb_spec sysfs_err 0) as [Hs|Hs]; cbn [negb fst snd].
  - split; [intros _; exists [InputHandler; Kobject; SysfsGroup]; cbn [In]|];
      intuition (try discriminate; try congruence).
  - split; [intros _; exists [InputHandler]; cbn [In]|];
      intuition (try discriminate; try congruence).
Qed.

(** Eight CPUs, the kobject cannot be created: success is returned and
    the sysfs group is missing. *)
Lemma init_return_codes_witness :
  fst (cpu_ib_init_call 8 true 0 false 0) = 0 /\
  ~ In SysfsGroup (snd (cpu_ib_init_call 8 true 0 false 0)).
Proof.
  split.
  - exact (proj1 (proj2 (proj2 (proj2 (init_return_codes 8 true 0 false 0))))
             eq_refl eq_refl eq_refl).
  - vm_compute. intuition discriminate.
Defined.

(** ** The life of a migration boost *)

(** X19.  A migration boost ends with its removal work: when the sync
    thread applies a pending request to an online destination and the
    removal work then runs, the destination's record has no migration
    floor, no removal work pending and an empty mailbox, whatever floor
    and timer it had before; the destination is re-evaluated once when the
    floor is set and once when it is removed. *)
Theorem migration_boost_expires (sscanf : string -> string -> list Z)
    (get_policy : nat -> option cpufreq_policy) (online : cpumask)
    (dest : nat) (s : kstate) (b : boost_policy)
    (src_policy dest_policy : cpufreq_policy) :
  boost_info s !! dest = Some b ->
  cpu b = dest ->
  pending b = true ->
  get_policy (src_cpu b) = Some src_policy ->
  get_policy dest = Some dest_policy ->
  cpuinfo_min_freq dest_policy < req_freq dest_policy src_policy (task_load b) ->
  cpu_online online dest = true ->
  let r := run sscanf [SyncThread get_policy online dest; RunMigRem dest] s in
  boost_info (state_of r)
  = alter (fun b' => set_migration_freq 0
                       (set_mig_boost_rem None (set_pending false b')))
          dest (boost_info s) /\
  requests_of r
  = (if cpu_online online (src_cpu b) then [UpdatePolicy (src_cpu b)] else [])
    ++ [UpdatePolicy dest; UpdatePolicy dest].
Proof.
  intros Hb Hc Hp Hsp Hdp Hreq Hon r. subst r.
  cbn [run]. rewrite !state_bind, !requests_bind.
  change (step sscanf (SyncThread get_policy online dest))
    with (boost_mig_sync_thread get_policy online dest).
  rewrite (boost_mig_sync_thread_pending get_policy online dest s b
             src_policy dest_policy Hb Hp Hsp Hdp).
  destruct (Z.leb_spec (req_freq dest_policy src_policy (task_load b))
                       (cpuinfo_min_freq dest_policy)); [lia|].
  rewrite Hon. cbn [state_of value_of requests_of fst snd].
  set (req := req_freq dest_policy src_policy (task_load b)).
  unfold step, do_mig_boost_rem. drv_eval.
  rewrite !list_lookup_alter_eq, Hb.
  cbn [fmap option_fmap option_map default from_option id mig_boost_rem
       apply_migration set_mig_boost_rem].
  drv_eval. rewrite !list_lookup_alter_eq, Hb.
  cbn [fmap option_fmap option_map default from_option id cpu
       apply_migration set_mig_boost_rem set_migration_freq set_pending set_boost_info boost_info].
  rewrite Hc, !list_alter_alter_eq. split.
  - apply (alter_ext_at _ _ _ _ b Hb). reflexivity.
  - rewrite <- !app_assoc. reflexivity.
Qed.

(** The request of the scenario is applied to CPU2 and expires. *)
Lemma migration_boost_expires_witness :
  (migration_freq <$>
   boost_info (state_of (run decimal_sscanf
                           [SyncThread scenario_policies online4 2; RunMigRem 2]
                           pending_state)) !! 2%nat) = Some 0.
Proof.
  destruct (migration_boost_expires decimal_sscanf scenario_policies online4 2
              pending_state
              (default (boost_policy_init 2) (boost_info pending_state !! 2%nat))
              (policy_of 0 1200000) (policy_of 2 300000))
    as [Hinfo _]; [vm_compute; reflexivity..|].
  rewrite Hinfo. vm_compute. reflexivity.
Defined.

(** ** The life of an input boost cycle *)

Lemma input_event_step (sscanf : string -> string -> list Z) (s : kstate) :
  enabled s <> 0 -> fb_boost s = UNBOOST -> ib_running s = false ->
  step sscanf InputEvent s
  = (tt, set_boost_work true (set_ib_running true s), []).
Proof.
  intros He Hfb Hrun. unfold step, cpu_ib_input_event. drv_eval.
  rewrite Hrun, Hfb.
  destruct (Z.eqb_spec (enabled s) 0); [contradiction|]. reflexivity.
Qed.

Lemma boost_work_step (sscanf : string -> string -> list Z)
    (online : cpumask) (now : Z) (s : kstate) :
  boost_work s = true ->
  let r := step sscanf (RunBoostWork online now) s in
  boost_info (state_of r)
  = alter (fun b =>
             set_ib_restore_work
               (queue_delayed_work (ib_restore_work b)
                  (u32 (u32 (ib_duration_ms s * 3)
                        / u32 (3 + num_online_cpus online) + 10)))
               (set_boost_state BOOST b)) 0%nat (boost_info s) /\
  ib_running (state_of r) = ib_running s /\
  boost_work (state_of r) = false /\
  requests_of r = [UpdatePolicy 0].
Proof.
  intros Hbw r. subst r.
  unfold step, ib_boost_main, boost_cpu0. drv_eval. rewrite Hbw. drv_eval.
  repeat split. by rewrite list_alter_alter_eq.
Qed.

Lemma existsb_alter (P : boost_policy -> bool) (f : boost_policy -> boost_policy)
    (i : nat) (l : list boost_policy) :
  (forall b, P (f b) = P b) -> existsb P (alter f i l) = existsb P l.
Proof.
  intros HP. revert i. induction l as [|b l IH]; intros [|i]; cbn;
    rewrite ?HP, ?IH; reflexivity.
Qed.

Lemma lone_cycle_from (sscanf : string -> string -> list Z)
    (online : cpumask) (now : Z) (s : kstate) (b0 : boost_policy) :
  enabled s <> 0 -> fb_boost s = UNBOOST -> ib_running s = false ->
  boost_info s !! 0%nat = Some b0 -> cpu b0 = 0%nat ->
  (forall i b, boost_info s !! i = Some b -> boost_state b = UNBOOST) ->
  let r := run sscanf [InputEvent; RunBoostWork online now;
                       RunIbRestore online 0] s in
  boost_info (state_of r) = alter (set_ib_restore_work None) 0%nat (boost_info s) /\
  ib_running (state_of r) = false /\
  boost_work (state_of r) = false /\
  requests_of r
  = UpdatePolicy 0 :: (if cpu_online online 0 then [UpdatePolicy 0] else []).
Proof.
  intros He Hfb Hrun Hb0 Hc Hall r. subst r.
  cbn [run]. rewrite !state_bind, !requests_bind.
  rewrite (input_event_step sscanf s He Hfb Hrun).
  change (state_of (tt, ?x, ?o)) with x.
  change (requests_of (tt, ?x, ?o)) with o.
  set (s1 := set_boost_work true (set_ib_running true s)).
  destruct (boost_work_step sscanf online now s1 eq_refl)
    as (Hl2 & Hr2 & Hw2 & Hq2).
  set (s2 := state_of (step sscanf (RunBoostWork online now) s1)) in *.
  change (boost_info s1) with (boost_info s) in Hl2.
  change (ib_duration_ms s1) with (ib_duration_ms s) in Hl2.
  set (delay := u32 (u32 (ib_duration_ms s * 3)
                     / u32 (3 + num_online_cpus online) + 10)) in *.
  set (b2 := set_ib_restore_work
               (queue_delayed_work (ib_restore_work b0) delay)
               (set_boost_state BOOST b0)).
  assert (Hb2 : boost_info s2 !! 0%nat = Some b2).
  { rewrite Hl2, list_lookup_alter_eq, Hb0. reflexivity. }
  assert (Hq : exists d, ib_restore_work b2 = Some d).
  { subst b2. cbn. destruct (ib_restore_work b0); cbn; eauto. }
  destruct Hq as [d Hd].
  destruct (ib_restore_step sscanf online 0 s2 b2 d Hb2 Hc Hd)
    as (Hinfo & Hrunning & Hreq).
  pose proof (ib_restore_step_boost_work sscanf online 0 s2) as Hbw3.
  set (r3 := step sscanf (RunIbRestore online 0) s2) in *.
  assert (Hback : boost_info (state_of r3)
                  = alter (set_ib_restore_work None) 0%nat (boost_info s)).
  { rewrite Hinfo, Hl2, list_alter_alter_eq.
    apply (alter_ext_at _ _ _ _ b0 Hb0). unfold compose.
    pose proof (Hall _ _ Hb0) as Hst.
    destruct b0. cbn in *. subst. reflexivity. }
  assert (Hno : existsb (fun b' => boost_status_eqb (boost_state b') BOOST)
                        (boost_info (state_of r3)) = false).
  { rewrite Hback, existsb_alter by reflexivity.
    apply not_true_is_false. intros Hex. apply existsb_exists in Hex.
    destruct Hex as (b & Hin & Hb).
    apply list_elem_of_In, list_elem_of_lookup in Hin as [i Hi].
    rewrite (Hall i b Hi) in Hb. discriminate. }
  rewrite Hno, andb_false_r in Hrunning.
  change (state_of (skip ?x)) with x.
  change (requests_of (skip ?x)) with (@nil request).
  rewrite Hback, Hrunning, Hbw3, Hw2, Hq2, Hreq, app_nil_r.
  repeat split.
Qed.

(** X20.  A cycle in which no other CPU is admitted leaves the per-CPU
    records as it found them, but for CPU0's restore work: in every state
    reached from start-up with the switch on, the display boost off, no
    cycle running and no CPU boosted, an input event, the cycle-start work
    and CPU0's restore work bring every field of every record back to what
    it was, except that CPU0's restore work is idle afterwards, whether it
    was idle before or still pending from a cycle that a display boost cut
    short; no cycle runs, no cycle-start work is queued, and CPU0 is
    re-evaluated at the start and, when online, at the end. *)
Theorem lone_cycle_round_trip (sscanf : string -> string -> list Z)
    (nr_cpus : nat) (es : list event) (online : cpumask) (now : Z) :
  (0 < nr_cpus)%nat ->
  let s := state_of (run sscanf es (cpu_ib_init nr_cpus)) in
  enabled s <> 0 -> fb_boost s = UNBOOST -> ib_running s = false ->
  (forall i b, boost_info s !! i = Some b -> boost_state b = UNBOOST) ->
  let r := run sscanf [InputEvent; RunBoostWork online now;
                       RunIbRestore online 0] s in
  boost_info (state_of r) = alter (set_ib_restore_work None) 0%nat (boost_info s) /\
  ib_running (state_of r) = false /\
  boost_work (state_of r) = false /\
  requests_of r
  = UpdatePolicy 0 :: (if cpu_online online 0 then [UpdatePolicy 0] else []).
Proof.
  intros Hnr s He Hfb Hrun Hall.
  destruct (run_state_ok sscanf nr_cpus es _ Hnr (state_ok_init nr_cpus))
    as (Hlen & Hrec & _).
  fold s in Hlen, Hrec.
  destruct (lookup_lt_is_Some_2 (boost_info s) 0 ltac:(lia)) as [b0 Hb0].
  destruct (Hrec 0%nat b0 Hb0) as (Hc & _).
  exact (lone_cycle_from sscanf online now s b0 He Hfb Hrun Hb0 Hc Hall).
Qed.

(** A touch after the display boost that cut the long cycle short: CPU0's
    restore work, still pending from the long cycle, is idle at the end
    and the records are otherwise as before. *)
Lemma lone_cycle_round_trip_witness :
  (ib_restore_work <$>
   boost_info (state_of (run decimal_sscanf
                           (long_cycle_trace ++ display_boost_trace)
                           (cpu_ib_init 4))) !! 0%nat) = Some (Some 3010) /\
  boost_info
    (state_of (run decimal_sscanf
                 [InputEvent; RunBoostWork online4 2500; RunIbRestore online4 0]
                 (state_of (run decimal_sscanf
                              (long_cycle_trace ++ display_boost_trace)
                              (cpu_ib_init 4)))))
  = map boost_policy_init (seq 0 4).
Proof.
  split; [vm_compute; reflexivity|].
  refine (eq_trans
            (proj1 (lone_cycle_round_trip decimal_sscanf 4
                      (long_cycle_trace ++ display_boost_trace) online4 2500
                      _ _ _ _ _)) _).
  - lia.
  - vm_compute. discriminate.
  - vm_compute. reflexivity.
  - vm_compute. reflexivity.
  - intros i b Hi.
    assert (Hl : boost_state <$>
                 boost_info (state_of (run decimal_sscanf
                                         (long_cycle_trace ++ display_boost_trace)
                                         (cpu_ib_init 4)))
                 = [UNBOOST; UNBOOST; UNBOOST; UNBOOST])
      by (vm_compute; reflexivity).
    assert (Hs : (boost_state <$>
                  boost_info (state_of (run decimal_sscanf
                                          (long_cycle_trace ++ display_boost_trace)
                                          (cpu_ib_init 4)))) !! i
                 = Some (boost_state b))
      by (rewrite list_lookup_fmap, Hi; reflexivity).
    rewrite Hl in Hs.
    do 4 (destruct i as [|i]; [by injection Hs|]). discriminate Hs.
  - vm_compute. reflexivity.
Defined.

(** ** The display gates the other entry points *)

(** X21.  With the switch on, a blank event of any level other than
    unblank makes the migration notifier drop every event that follows,
    and an unblank makes the input handler drop every touch that follows:
    the display boost it starts, or the one already under way, comes
    first. *)
Theorem display_gates_entry_points (s : kstate) (blank : fb_blank_level)
    (mnd : migration_notify_data) (is_current : bool) :
  enabled s <> 0 ->
  let s1 := state_of (fb_blank_boost FB_EVENT_BLANK blank s) in
  (blank <> FB_BLANK_UNBLANK ->
   boost_migration_notify mnd is_current s1 = (tt, s1, [])) /\
  (blank = FB_BLANK_UNBLANK ->
   fb_boost s1 <> UNBOOST /\ cpu_ib_input_event s1 = (tt, s1, [])).
Proof.
  intros He s1. subst s1. unfold fb_blank_boost. drv_eval.
  destruct (Z.eqb_spec (enabled s) 0) as [|_]; [contradiction|].
  split.
  - intros Hb. apply boost_migration_notify_closed. unfold posts.
    destruct blank; [contradiction|..]; drv_eval;
      rewrite !andb_false_r; reflexivity.
  - intros ->. drv_eval.
    destruct (fb_boost s) eqn:Hfb; cbn [status_true boost_status_eqb negb];
      drv_eval; unfold cpu_ib_input_event; drv_eval; rewrite ?Hfb;
      cbn [status_true boost_status_eqb negb];
      rewrite ?orb_true_r; (split; [discriminate|reflexivity]).
Qed.

(** The screen goes off on the migration scenario's driver. *)
Lemma display_gates_entry_points_witness :
  (enabled migration_config <> 0 /\ FB_BLANK_POWERDOWN <> FB_BLANK_UNBLANK) /\
  requests_of
    (boost_migration_notify scenario_mnd false
       (state_of (fb_blank_boost FB_EVENT_BLANK FB_BLANK_POWERDOWN
                    migration_config))) = [].
Proof.
  assert (He : enabled migration_config <> 0) by (vm_compute; discriminate).
  assert (Hb : FB_BLANK_POWERDOWN <> FB_BLANK_UNBLANK) by discriminate.
  split; [split; assumption|].
  rewrite (proj1 (display_gates_entry_points migration_config
                    FB_BLANK_POWERDOWN scenario_mnd false He) Hb).
  reflexivity.
Defined.
